(** * Aadhaar OCR: the text-acquisition layer, the field parser and the
      ID-number validator of [app/ocr_processor.py], and the handler of
      [app/main.py] that chains them

    A shallow embedding of the Python module.  Python strings are sequences of
    Unicode code points; regular expressions are interpreted by a backtracking
    matcher that follows the semantics of Python's [re] module for the
    constructs the module's patterns use; the PDF library is a record of the
    answers it gives; exceptions are an explicit outcome.

    The library semantics is that of CPython 3.8 and later ([str.capitalize]
    puts the first character in title case; [re.sub] and [re.split] also act
    on empty matches).  The two functions of the module that work on files,
    [decrypt_pdf] and [convert_pdf_to_images], are called by nothing in the
    module and are left out.

    The file has three parts: the model, the vocabulary in which the
    properties are stated, and the properties with their proofs. *)

From Stdlib Require Import List NArith Bool Arith Lia.
From Stdlib Require Import String Ascii DecimalString.
Import ListNotations.

Set Implicit Arguments.

Local Open Scope N_scope.

(** ** Python strings *)

(** A [str] is a sequence of code points. *)
Definition pystr := list N.

(** Literals of the source, which are all ASCII, are written [str "..."]. *)
Definition str (s : string) : pystr :=
  map N_of_ascii (list_ascii_of_string s).

(** The line feed, written [\n] in the source. *)
Definition NL : N := 10.

(** *** Character data

    The predicates below follow CPython.  On ASCII they are written out.
    Beyond ASCII they are tables of the Unicode Character Database, which
    is data of the interpreter; it is kept abstract in a record together with
    the three facts about it that the development uses. *)

Definition LONG_S : N := 0x17F.          (* LATIN SMALL LETTER LONG S *)
Definition DOTLESS_I : N := 0x131.       (* LATIN SMALL LETTER DOTLESS I *)
Definition CAPITAL_I_DOT : N := 0x130.   (* LATIN CAPITAL LETTER I WITH DOT ABOVE *)
Definition KELVIN : N := 0x212A.         (* KELVIN SIGN *)

Record unicode_data : Type := {
  (* general category Nd: what [\d] matches *)
  ucd_isdecimal : N -> bool;
  (* Numeric_Type Digit or Decimal: [str.isdigit] *)
  ucd_isdigit : N -> bool;
  (* [str.isalnum]: what [\w] and [\b] look at *)
  ucd_isalnum : N -> bool;
  (* simple lower-case mapping, used by [re.IGNORECASE] *)
  ucd_tolower : N -> N;
  (* full lower-case and title-case mappings, used by [str.lower] and
     [str.capitalize] *)
  ucd_lower : N -> list N;
  ucd_title : N -> list N;
  (* the only characters beyond ASCII whose lower case is ASCII are
     U+0130 (to i) and U+212A (to k) *)
  ucd_tolower_ascii : forall c, 128 <= c -> ucd_tolower c < 128 ->
    (c = CAPITAL_I_DOT /\ ucd_tolower c = 105) \/
    (c = KELVIN /\ ucd_tolower c = 107);
  (* nothing is lowered to the long s but itself *)
  ucd_tolower_long_s : forall c, 128 <= c -> ucd_tolower c = LONG_S -> c = LONG_S;
  (* the long s is a lower-case letter *)
  ucd_lower_long_s : ucd_lower LONG_S = [LONG_S]
}.

Definition is_ascii (c : N) : bool := c <? 128.

Definition is_ascii_upper (c : N) : bool := (65 <=? c) && (c <=? 90).
Definition is_ascii_lower (c : N) : bool := (97 <=? c) && (c <=? 122).
Definition is_ascii_letter (c : N) : bool := is_ascii_upper c || is_ascii_lower c.
Definition is_ascii_digit (c : N) : bool := (48 <=? c) && (c <=? 57).

Definition ascii_tolower (c : N) : N := if is_ascii_upper c then c + 32 else c.
Definition ascii_toupper (c : N) : N := if is_ascii_lower c then c - 32 else c.

(** [Py_UNICODE_ISSPACE]: what [str.strip], [str.split] and [\s] call white
    space. *)
Definition py_isspace (c : N) : bool :=
  ((9 <=? c) && (c <=? 13)) || ((28 <=? c) && (c <=? 32)) ||
  (c =? 0x85) || (c =? 0xA0) || (c =? 0x1680) ||
  ((0x2000 <=? c) && (c <=? 0x200A)) ||
  (c =? 0x2028) || (c =? 0x2029) || (c =? 0x202F) || (c =? 0x205F) ||
  (c =? 0x3000).

Section Characters.

Variable U : unicode_data.

Definition py_isdecimal (c : N) : bool :=
  if is_ascii c then is_ascii_digit c else ucd_isdecimal U c.

Definition py_isdigit_char (c : N) : bool :=
  if is_ascii c then is_ascii_digit c else ucd_isdigit U c.

Definition py_isalnum (c : N) : bool :=
  if is_ascii c then is_ascii_letter c || is_ascii_digit c
  else ucd_isalnum U c.

(** [\w]: alphanumeric or the underscore. *)
Definition is_word (c : N) : bool := py_isalnum c || (c =? 95).

(** [sre_lower_unicode] *)
Definition tolower (c : N) : N :=
  if is_ascii c then ascii_tolower c else ucd_tolower U c.

Definition lower_char (c : N) : list N :=
  if is_ascii c then [ascii_tolower c] else ucd_lower U c.

Definition title_char (c : N) : list N :=
  if is_ascii c then [ascii_toupper c] else ucd_title U c.

(** *** String methods *)

(** [s.lower()].  The mapping is applied character by character; the one
    context rule of CPython (the final sigma) concerns U+03A3 only. *)
Definition py_lower (s : pystr) : pystr := flat_map lower_char s.

(** [s.capitalize()]: title case for the first character, lower case for
    the rest. *)
Definition py_capitalize (s : pystr) : pystr :=
  match s with
  | [] => []
  | c :: s' => title_char c ++ py_lower s'
  end.

(** [s.isdigit()]: non-empty and every character a digit. *)
Definition py_isdigit (s : pystr) : bool :=
  match s with
  | [] => false
  | _ => forallb py_isdigit_char s
  end.

End Characters.

(** [bool(s)] *)
Definition truthy (s : pystr) : bool :=
  match s with [] => false | _ => true end.

(** [s.startswith(p)] *)
Fixpoint startswith (p s : pystr) : bool :=
  match p, s with
  | [], _ => true
  | _ :: _, [] => false
  | a :: p', b :: s' => (a =? b) && startswith p' s'
  end.

(** [p in s] *)
Fixpoint contains (p s : pystr) : bool :=
  startswith p s ||
  match s with
  | [] => false
  | _ :: s' => contains p s'
  end.

(** [s.lstrip()], [s.rstrip()], [s.strip()] *)
Fixpoint lstrip_by (drop : N -> bool) (s : pystr) : pystr :=
  match s with
  | [] => []
  | c :: s' => if drop c then lstrip_by drop s' else s
  end.

Definition rstrip_by (drop : N -> bool) (s : pystr) : pystr :=
  rev (lstrip_by drop (rev s)).

Definition py_strip (s : pystr) : pystr :=
  rstrip_by py_isspace (lstrip_by py_isspace s).

(** [s.rstrip(chars)] *)
Definition py_rstrip_chars (chars s : pystr) : pystr :=
  rstrip_by (fun c => existsb (N.eqb c) chars) s.

(** [s.replace(old, new)]: occurrences of [old] are replaced from left to
    right and do not overlap.  [skip] counts the characters of an occurrence
    still to pass over. *)
Fixpoint replace_go (old new : pystr) (skip : nat) (s : pystr) : pystr :=
  match s with
  | [] => []
  | c :: s' =>
      match skip with
      | S k => replace_go old new k s'
      | O =>
          if startswith old s
          then new ++ replace_go old new (Nat.pred (List.length old)) s'
          else c :: replace_go old new O s'
      end
  end.

Definition py_replace (old new s : pystr) : pystr :=
  match old with
  | [] => new ++ flat_map (fun c => c :: new) s
  | _ => replace_go old new O s
  end.

(** [s.split(sep)] for a non-empty separator. *)
Fixpoint split_go (sep : pystr) (skip : nat) (cur : pystr) (s : pystr)
  : list pystr :=
  match s with
  | [] => [rev cur]
  | c :: s' =>
      match skip with
      | S k => split_go sep k cur s'
      | O =>
          if startswith sep s
          then rev cur :: split_go sep (Nat.pred (List.length sep)) [] s'
          else split_go sep O (c :: cur) s'
      end
  end.

Definition py_split (sep s : pystr) : list pystr := split_go sep O [] s.

(** [s.split()]: the maximal runs of characters that are not white space. *)
Fixpoint split_ws_go (cur : pystr) (s : pystr) : list pystr :=
  match s with
  | [] => match cur with [] => [] | _ => [rev cur] end
  | c :: s' =>
      if py_isspace c
      then match cur with
           | [] => split_ws_go [] s'
           | _ => rev cur :: split_ws_go [] s'
           end
      else split_ws_go (c :: cur) s'
  end.

Definition py_split_ws (s : pystr) : list pystr := split_ws_go [] s.

(** ** The ID-number validator *)

Section Validator.

Variable U : unicode_data.

(** [validate_aadhaar] *)
Definition validate_aadhaar (aadhaar_number : pystr) : bool :=
  let aadhaar_number := py_replace (str " ") (str "") aadhaar_number in
  truthy aadhaar_number && py_isdigit U aadhaar_number &&
  (List.length aadhaar_number =? 12)%nat.

End Validator.

(** ** Exceptions *)

(** An exception carries the text that [str(e)] returns. *)
Inductive exn : Type :=
| Exception (msg : pystr)
| IndexError (msg : pystr)
| AttributeError (msg : pystr).

Definition exn_str (e : exn) : pystr :=
  match e with
  | Exception msg | IndexError msg | AttributeError msg => msg
  end.

Inductive outcome (A : Type) : Type :=
| Ret (a : A)
| Raise (e : exn).

Arguments Ret {A} a.
Arguments Raise {A} e.

Definition obind {A B : Type} (x : outcome A) (f : A -> outcome B) : outcome B :=
  match x with
  | Ret a => f a
  | Raise e => Raise e
  end.

Declare Scope outcome_scope.
Delimit Scope outcome_scope with outcome.
Notation "x <- e ;; k" := (obind e (fun x => k))
  (at level 61, e at next level, right associativity) : outcome_scope.

(** ** Regular expressions

    The syntax covers what the patterns of the module are made of.  Every
    quantifier of the module applies to one character item (a literal, the
    dot, a class), so a repetition carries an item, as the single-character
    repeat of CPython's engine does. *)

Inductive category : Type := CatDigit | CatSpace.

Inductive citem : Type :=
| CLit (c : N)
| CRange (lo hi : N)
| CCat (k : category).

Inductive atom : Type :=
| ALit (c : N)
| AAny
| ASet (items : list citem).

Inductive regex : Type :=
| REmpty
| RAtom (a : atom)
| RRep (a : atom) (min : nat) (max : option nat) (greedy : bool)
| RSeq (r1 r2 : regex)
| RAlt (r1 r2 : regex)
| RGroup (n : nat) (r : regex)
| RBegin
| REnd
| RWordB
| RLookahead (r : regex).

Record re_flags : Type := { IGNORECASE : bool; DOTALL : bool }.

Definition no_flags : re_flags := {| IGNORECASE := false; DOTALL := false |}.
Definition re_I : re_flags := {| IGNORECASE := true; DOTALL := false |}.
Definition re_I_S : re_flags := {| IGNORECASE := true; DOTALL := true |}.

(** The state of a match attempt: the character before the current position,
    the position, the text from the position on, and the groups closed so
    far with the text each one captured. *)
Record mstate : Type := {
  m_prev : option N;
  m_pos : nat;
  m_rest : pystr;
  m_caps : list (nat * pystr)
}.

Definition advance (st : mstate) (c : N) (rest : pystr) : mstate :=
  {| m_prev := Some c; m_pos := S (m_pos st); m_rest := rest;
     m_caps := m_caps st |}.

Fixpoint lookup_cap (n : nat) (caps : list (nat * pystr)) : option pystr :=
  match caps with
  | [] => None
  | (i, s) :: caps' => if Nat.eqb i n then Some s else lookup_cap n caps'
  end.

(** Closing group [n] at [st'], opened at [st]. *)
Definition close_group (n : nat) (st st' : mstate) : mstate :=
  {| m_prev := m_prev st'; m_pos := m_pos st'; m_rest := m_rest st';
     m_caps := (n, firstn (m_pos st' - m_pos st) (m_rest st)) :: m_caps st' |}.

Definition with_caps (st st' : mstate) : mstate :=
  {| m_prev := m_prev st; m_pos := m_pos st; m_rest := m_rest st;
     m_caps := m_caps st' |}.

Definition at_begin (st : mstate) : bool := Nat.eqb (m_pos st) 0.

(** [$] without [re.MULTILINE]: the end of the text, or just before a line
    feed that ends the text. *)
Definition at_end (st : mstate) : bool :=
  match m_rest st with
  | [] => true
  | [c] => c =? NL
  | _ => false
  end.

(** Lower-case characters that share their upper case with an ASCII letter
    ([_ignorecase_fixes] of [sre_compile]). *)
Definition ignorecase_fixes (lo : N) : list N :=
  if lo =? 105 then [DOTLESS_I] else if lo =? 115 then [LONG_S] else [].

Definition lower_with_fixes (c : N) : list N :=
  let lo := ascii_tolower c in lo :: ignorecase_fixes lo.

Definition N_range (lo hi : N) : list N :=
  map (fun i => lo + N.of_nat i) (seq 0 (N.to_nat (hi + 1 - lo))).

Definition mem (x : N) (l : list N) : bool := existsb (N.eqb x) l.

Definition item_hascased (it : citem) : bool :=
  match it with
  | CLit c => is_ascii_letter c
  | CRange lo hi => existsb is_ascii_letter (N_range lo hi)
  | CCat _ => false
  end.

Section Matcher.

Variable U : unicode_data.
Variable fl : re_flags.

Definition category_match (k : category) (c : N) : bool :=
  match k with
  | CatDigit => py_isdecimal U c
  | CatSpace => py_isspace c
  end.

Definition item_in (c : N) (it : citem) : bool :=
  match it with
  | CLit x => c =? x
  | CRange lo hi => (lo <=? c) && (c <=? hi)
  | CCat k => category_match k c
  end.

(** Membership in a class compiled for [re.IGNORECASE]: literals and ranges
    are lowered and completed with the fixes, and the lowered subject
    character is looked up. *)
Definition item_in_ignorecase (x : N) (it : citem) : bool :=
  match it with
  | CLit c => mem x (lower_with_fixes c)
  | CRange lo hi => existsb (fun i => mem x (lower_with_fixes i)) (N_range lo hi)
  | CCat k => category_match k x
  end.

(** One character against one item.  The patterns that the module compiles
    with [re.IGNORECASE] contain ASCII characters only, so the cased pattern
    characters are the ASCII letters. *)
Definition atom_match (a : atom) (c : N) : bool :=
  match a with
  | ALit x =>
      if IGNORECASE fl && is_ascii_letter x
      then mem (tolower U c) (lower_with_fixes x)
      else c =? x
  | AAny => DOTALL fl || negb (c =? NL)
  | ASet items =>
      if IGNORECASE fl && existsb item_hascased items
      then existsb (item_in_ignorecase (tolower U c)) items
      else existsb (item_in c) items
  end.

Definition is_word_opt (c : option N) : bool :=
  match c with
  | Some x => is_word U x
  | None => false
  end.

(** [\b] *)
Definition at_boundary (st : mstate) : bool :=
  xorb (is_word_opt (m_prev st)) (is_word_opt (hd_error (m_rest st))).

Definition can_take (max : option nat) : bool :=
  match max with
  | Some O => false
  | _ => true
  end.

Definition dec_max (max : option nat) : option nat :=
  option_map Nat.pred max.

(** A greedy repetition takes as many characters as it may and gives them
    back one at a time. *)
Fixpoint rep_greedy (a : atom) (min : nat) (max : option nat)
    (prev : option N) (pos : nat) (caps : list (nat * pystr))
    (rest : pystr) (k : mstate -> option mstate) {struct rest}
  : option mstate :=
  let stop :=
    match min with
    | O => k {| m_prev := prev; m_pos := pos; m_rest := rest; m_caps := caps |}
    | S _ => None
    end in
  match rest with
  | c :: rest' =>
      if can_take max && atom_match a c
      then match rep_greedy a (Nat.pred min) (dec_max max) (Some c) (S pos)
                   caps rest' k with
           | Some e => Some e
           | None => stop
           end
      else stop
  | [] => stop
  end.

(** A lazy repetition takes as few characters as it may and one more each
    time the rest of the pattern fails. *)
Fixpoint rep_lazy (a : atom) (min : nat) (max : option nat)
    (prev : option N) (pos : nat) (caps : list (nat * pystr))
    (rest : pystr) (k : mstate -> option mstate) {struct rest}
  : option mstate :=
  let more :=
    match rest with
    | c :: rest' =>
        if can_take max && atom_match a c
        then rep_lazy a (Nat.pred min) (dec_max max) (Some c) (S pos)
               caps rest' k
        else None
    | [] => None
    end in
  match min with
  | O =>
      match k {| m_prev := prev; m_pos := pos; m_rest := rest;
                 m_caps := caps |} with
      | Some e => Some e
      | None => more
      end
  | S _ => more
  end.

(** The backtracking matcher, in continuation-passing style: [k] is the
    rest of the pattern. *)
Fixpoint m (r : regex) (st : mstate) (k : mstate -> option mstate)
  : option mstate :=
  match r with
  | REmpty => k st
  | RAtom a =>
      match m_rest st with
      | c :: rest' => if atom_match a c then k (advance st c rest') else None
      | [] => None
      end
  | RRep a min max greedy =>
      (if greedy then rep_greedy else rep_lazy)
        a min max (m_prev st) (m_pos st) (m_caps st) (m_rest st) k
  | RSeq r1 r2 => m r1 st (fun st' => m r2 st' k)
  | RAlt r1 r2 =>
      match m r1 st k with
      | Some e => Some e
      | None => m r2 st k
      end
  | RGroup n r' => m r' st (fun st' => k (close_group n st st'))
  | RBegin => if at_begin st then k st else None
  | REnd => if at_end st then k st else None
  | RWordB => if at_boundary st then k st else None
  | RLookahead r' =>
      match m r' st Some with
      | Some st' => k (with_caps st st')
      | None => None
      end
  end.

(** One attempt at a position.  [must_advance] refuses an empty match, as
    the engine does right after an empty match at the same position. *)
Definition attempt (r : regex) (must_advance : bool) (st : mstate)
  : option mstate :=
  m r st (fun e =>
    if must_advance && Nat.eqb (m_pos e) (m_pos st) then None else Some e).

Definition start_state (prev : option N) (pos : nat) (rest : pystr) : mstate :=
  {| m_prev := prev; m_pos := pos; m_rest := rest; m_caps := [] |}.

(** A match object: where the match starts and ends, the text it covers
    and the groups. *)
Record match_obj : Type := {
  mo_start : nat;
  mo_end : nat;
  mo_text : pystr;
  mo_groups : list (nat * pystr)
}.

Definition make_match (st e : mstate) : match_obj :=
  {| mo_start := m_pos st; mo_end := m_pos e;
     mo_text := firstn (m_pos e - m_pos st) (m_rest st);
     mo_groups := m_caps e |}.

(** The leftmost position at which an attempt succeeds. *)
Fixpoint search_go (r : regex) (prev : option N) (pos : nat) (rest : pystr)
  : option match_obj :=
  let st := start_state prev pos rest in
  match attempt r false st with
  | Some e => Some (make_match st e)
  | None =>
      match rest with
      | [] => None
      | c :: rest' => search_go r (Some c) (S pos) rest'
      end
  end.

(** [re.search(r, text, flags)] *)
Definition re_search (r : regex) (text : pystr) : option match_obj :=
  search_go r None 0 text.

(** [re.match(r, text, flags)] *)
Definition re_match (r : regex) (text : pystr) : option match_obj :=
  let st := start_state None 0 text in
  option_map (make_match st) (attempt r false st).

(** The pieces of the text between the successive matches of [r], which
    [re.split] returns and between which [re.sub] puts the replacement.
    [skip] counts the characters of the current match still to pass over,
    [cur] holds the piece being read, reversed.  After an empty match the
    engine looks again at the same position for a match that is not
    empty. *)
Fixpoint pieces_go (r : regex) (skip : nat) (cur : pystr) (prev : option N)
    (pos : nat) (rest : pystr) {struct rest} : list pystr :=
  match skip with
  | S j =>
      match rest with
      | c :: rest' => pieces_go r j [] (Some c) (S pos) rest'
      | [] => [rev cur]
      end
  | O =>
      let st := start_state prev pos rest in
      let pass :=
        match rest with
        | c :: rest' => pieces_go r O (c :: cur) (Some c) (S pos) rest'
        | [] => [rev cur]
        end in
      let over (e : mstate) :=
        match rest with
        | c :: rest' =>
            pieces_go r (Nat.pred (m_pos e - pos)) [] (Some c) (S pos) rest'
        | [] => [[]]
        end in
      match attempt r false st with
      | None => pass
      | Some e =>
          if Nat.eqb (m_pos e) pos
          then
            rev cur ::
            match attempt r true st with
            | Some e' => [] :: over e'
            | None =>
                match rest with
                | c :: rest' => pieces_go r O [c] (Some c) (S pos) rest'
                | [] => [[]]
                end
            end
          else rev cur :: over e
      end
  end.

Definition re_pieces (r : regex) (text : pystr) : list pystr :=
  pieces_go r O [] None 0 text.

End Matcher.

(** [sep.join(pieces)] *)
Fixpoint py_join (sep : pystr) (pieces : list pystr) : pystr :=
  match pieces with
  | [] => []
  | [p] => p
  | p :: ps => p ++ sep ++ py_join sep ps
  end.

(** [re.split(r, text, flags)] for a pattern without capturing group. *)
Definition re_split (U : unicode_data) (fl : re_flags) (r : regex)
    (text : pystr) : list pystr :=
  re_pieces U fl r text.

(** [re.sub(r, repl, text, flags)] for a replacement without group
    reference. *)
Definition re_sub (U : unicode_data) (fl : re_flags) (r : regex)
    (repl text : pystr) : pystr :=
  py_join repl (re_pieces U fl r text).

(** The number of capturing groups of a pattern. *)
Fixpoint ngroups (r : regex) : nat :=
  match r with
  | RSeq r1 r2 | RAlt r1 r2 => Nat.max (ngroups r1) (ngroups r2)
  | RGroup n r' => Nat.max n (ngroups r')
  | RLookahead r' => ngroups r'
  | _ => O
  end.

(** [mo.group(n)] where the caller goes on to use the result as a [str]:
    a group number beyond the groups of the pattern raises [IndexError]; a
    group that took no part in the match gives [None], on which the method
    call that follows raises [AttributeError]. *)
Definition group (r : regex) (mo : match_obj) (n : nat) : outcome pystr :=
  match n with
  | O => Ret (mo_text mo)
  | S _ =>
      if Nat.ltb (ngroups r) n then Raise (IndexError (str "no such group"))
      else match lookup_cap n (mo_groups mo) with
           | Some s => Ret s
           | None =>
               Raise (AttributeError (str "'NoneType' object has no attribute"))
           end
  end.

(** ** The patterns of the module *)

Fixpoint cat (rs : list regex) : regex :=
  match rs with
  | [] => REmpty
  | [r] => r
  | r :: rs' => RSeq r (cat rs')
  end.

Fixpoint alt (rs : list regex) : regex :=
  match rs with
  | [] => REmpty
  | [r] => r
  | r :: rs' => RAlt r (alt rs')
  end.

(** A run of literal characters. *)
Definition lit (s : string) : regex :=
  cat (map (fun c => RAtom (ALit c)) (str s)).

Definition ch (s : string) : N :=
  match str s with
  | c :: _ => c
  | [] => 0
  end.

Definition star (a : atom) : regex := RRep a 0 None true.
Definition plus (a : atom) : regex := RRep a 1 None true.
Definition lazy_star (a : atom) : regex := RRep a 0 None false.
Definition opt (a : atom) : regex := RRep a 0 (Some 1%nat) true.
Definition times (n : nat) (a : atom) : regex := RRep a n (Some n) true.

(** [\d], [\s] *)
Definition digit : atom := ASet [CCat CatDigit].
Definition space : atom := ASet [CCat CatSpace].

(** [[A-Za-z\s\'-]] *)
Definition name_chars : atom :=
  ASet [CRange (ch "A") (ch "Z"); CRange (ch "a") (ch "z"); CCat CatSpace;
        CLit (ch "'"); CLit (ch "-")].

(** [[:\s]] *)
Definition colon_or_space : atom := ASet [CLit (ch ":"); CCat CatSpace].

(** [\d{4}\s\d{4}\s\d{4}] *)
Definition three_groups_of_four : regex :=
  cat [times 4 digit; RAtom space; times 4 digit; RAtom space; times 4 digit].

(** [r'\b(\d{4}\s\d{4}\s\d{4})\b'] *)
Definition AADHAAR_RE : regex :=
  cat [RWordB; RGroup 1 three_groups_of_four; RWordB].

(** [r'VID[:\s]*(\d{4}\s\d{4}\s\d{4}\s\d{4})'] *)
Definition VID_RE : regex :=
  cat [lit "VID"; star colon_or_space;
       RGroup 1 (cat [times 4 digit; RAtom space; times 4 digit; RAtom space;
                      times 4 digit; RAtom space; times 4 digit])].

(** [r'([\u0B80-\u0BFF\s]+)\n([A-Za-z\s\'-]+)'] *)
Definition TAMIL_NAME_RE : regex :=
  cat [RGroup 1 (plus (ASet [CRange 0x0B80 0x0BFF; CCat CatSpace]));
       RAtom (ALit NL);
       RGroup 2 (plus name_chars)].

(** [r'\s*(?:S/O|C/O|W/O|D/O)\s*'] *)
Definition RELATION_SPLIT_RE : regex :=
  cat [star space; alt [lit "S/O"; lit "C/O"; lit "W/O"; lit "D/O"];
       star space].

(** [r'\s+[CWSD]\s*$'] *)
Definition TRAILING_INITIAL_RE : regex :=
  cat [plus space;
       RAtom (ASet [CLit (ch "C"); CLit (ch "W"); CLit (ch "S"); CLit (ch "D")]);
       star space; REnd].

(** [r'\s+'] *)
Definition SPACES_RE : regex := plus space.

(** [r'^[A-Za-z\s\'-]+$'] *)
Definition NAME_LINE_RE : regex := cat [RBegin; plus name_chars; REnd].

(** [(S/o|C/o|D/o|W/o)[.:]?\s*] *)
Definition relation_marker : list regex :=
  [RGroup 1 (alt [lit "S/o"; lit "C/o"; lit "D/o"; lit "W/o"]);
   opt (ASet [CLit (ch "."); CLit (ch ":")]);
   star space].

(** [r'(S/o|C/o|D/o|W/o)[.:]?\s*([A-Za-z\s\'-]+)'] *)
Definition GUARDIAN_RE : regex :=
  cat (relation_marker ++ [RGroup 2 (plus name_chars)]).

(** [r'(S/o|C/o|D/o|W/o)[.:]?\s*[A-Za-z\s\'-]+'] *)
Definition GUARDIAN_CLAUSE_RE : regex :=
  cat (relation_marker ++ [plus name_chars]).

(** [r'(DOB|Date of Birth|D\\.O\\.B)[:\s]*?(\d{1,2}[-/]\d{1,2}[-/]\d{4})'].
    In the raw string the third alternative reads: D, a backslash, any
    character, O, a backslash, any character, B. *)
Definition DOB_RE : regex :=
  let sep := RAtom (ASet [CLit (ch "-"); CLit (ch "/")]) in
  let backslash := RAtom (ALit 92) in
  cat [RGroup 1 (alt [lit "DOB"; lit "Date of Birth";
                      cat [lit "D"; backslash; RAtom AAny; lit "O"; backslash;
                           RAtom AAny; lit "B"]]);
       lazy_star colon_or_space;
       RGroup 2 (cat [RRep digit 1 (Some 2%nat) true; sep;
                      RRep digit 1 (Some 2%nat) true; sep; times 4 digit])].

(** [r'\b(Male|Female|Transgender|M|F|T)\b'] *)
Definition GENDER_RE : regex :=
  cat [RWordB;
       RGroup 1 (alt [lit "Male"; lit "Female"; lit "Transgender";
                      lit "M"; lit "F"; lit "T"]);
       RWordB].

(** [r'(?i)address[:\s]*(.*?)(?=\nDistrict|\nState|\n\d{6}|\nVID|\nDigitally|$)'] *)
Definition ADDRESS_RE : regex :=
  let nl := RAtom (ALit NL) in
  cat [lit "address"; star colon_or_space; RGroup 1 (lazy_star AAny);
       RLookahead (alt [cat [nl; lit "District"]; cat [nl; lit "State"];
                        cat [nl; times 6 digit]; cat [nl; lit "VID"];
                        cat [nl; lit "Digitally"]; REnd])].

(** [r'\b\d{4}\s\d{4}\s\d{4}\b'] *)
Definition AADHAAR_IN_ADDRESS_RE : regex :=
  cat [RWordB; three_groups_of_four; RWordB].

(** [r'PO:.*?,'] *)
Definition POST_OFFICE_RE : regex :=
  cat [lit "PO:"; lazy_star AAny; lit ","].

(** [r'(?i)\b(dist|state)\b.*'] *)
Definition DIST_STATE_RE : regex :=
  cat [RWordB; RGroup 1 (alt [lit "dist"; lit "state"]); RWordB; star AAny].

(** [r'\n+'] *)
Definition NEWLINES_RE : regex := plus (ALit NL).

(** [r'District[:\s]*( .* )'], written here with blanks around the group's
    content *)
Definition DISTRICT_RE : regex :=
  cat [lit "District"; star colon_or_space; RGroup 1 (star AAny)].

(** [r'State[:\s]*( .* )'], likewise *)
Definition STATE_RE : regex :=
  cat [lit "State"; star colon_or_space; RGroup 1 (star AAny)].

(** [r'\b(\d{6})\b'], [r'\b(\d{10})\b'] *)
Definition PINCODE_RE : regex := cat [RWordB; RGroup 1 (times 6 digit); RWordB].
Definition PHONE_RE : regex := cat [RWordB; RGroup 1 (times 10 digit); RWordB].

(** ** The structured record *)

(** [class AadhaarData(BaseModel)] *)
Record AadhaarData : Type := {
  aadhaar_number : pystr;
  name_tamil : pystr;
  name : pystr;
  guardian_name : pystr;
  dob : pystr;
  gender : pystr;
  address : pystr;
  district : pystr;
  state : pystr;
  pincode : pystr;
  phone : pystr;
  vid : pystr
}.

(** [AadhaarData()]: every field has the default [""]. *)
Definition AadhaarData_new : AadhaarData :=
  {| aadhaar_number := []; name_tamil := []; name := []; guardian_name := [];
     dob := []; gender := []; address := []; district := []; state := [];
     pincode := []; phone := []; vid := [] |}.

(** The assignments [data.field = v]. *)
Definition set_aadhaar_number (v : pystr) (d : AadhaarData) : AadhaarData :=
  {| aadhaar_number := v; name_tamil := name_tamil d; name := name d;
     guardian_name := guardian_name d; dob := dob d; gender := gender d;
     address := address d; district := district d; state := state d;
     pincode := pincode d; phone := phone d; vid := vid d |}.

Definition set_name_tamil (v : pystr) (d : AadhaarData) : AadhaarData :=
  {| aadhaar_number := aadhaar_number d; name_tamil := v; name := name d;
     guardian_name := guardian_name d; dob := dob d; gender := gender d;
     address := address d; district := district d; state := state d;
     pincode := pincode d; phone := phone d; vid := vid d |}.

Definition set_name (v : pystr) (d : AadhaarData) : AadhaarData :=
  {| aadhaar_number := aadhaar_number d; name_tamil := name_tamil d; name := v;
     guardian_name := guardian_name d; dob := dob d; gender := gender d;
     address := address d; district := district d; state := state d;
     pincode := pincode d; phone := phone d; vid := vid d |}.

Definition set_guardian_name (v : pystr) (d : AadhaarData) : AadhaarData :=
  {| aadhaar_number := aadhaar_number d; name_tamil := name_tamil d;
     name := name d; guardian_name := v; dob := dob d; gender := gender d;
     address := address d; district := district d; state := state d;
     pincode := pincode d; phone := phone d; vid := vid d |}.

Definition set_dob (v : pystr) (d : AadhaarData) : AadhaarData :=
  {| aadhaar_number := aadhaar_number d; name_tamil := name_tamil d;
     name := name d; guardian_name := guardian_name d; dob := v;
     gender := gender d; address := address d; district := district d;
     state := state d; pincode := pincode d; phone := phone d; vid := vid d |}.

Definition set_gender (v : pystr) (d : AadhaarData) : AadhaarData :=
  {| aadhaar_number := aadhaar_number d; name_tamil := name_tamil d;
     name := name d; guardian_name := guardian_name d; dob := dob d;
     gender := v; address := address d; district := district d;
     state := state d; pincode := pincode d; phone := phone d; vid := vid d |}.

Definition set_address (v : pystr) (d : AadhaarData) : AadhaarData :=
  {| aadhaar_number := aadhaar_number d; name_tamil := name_tamil d;
     name := name d; guardian_name := guardian_name d; dob := dob d;
     gender := gender d; address := v; district := district d;
     state := state d; pincode := pincode d; phone := phone d; vid := vid d |}.

Definition set_district (v : pystr) (d : AadhaarData) : AadhaarData :=
  {| aadhaar_number := aadhaar_number d; name_tamil := name_tamil d;
     name := name d; guardian_name := guardian_name d; dob := dob d;
     gender := gender d; address := address d; district := v;
     state := state d; pincode := pincode d; phone := phone d; vid := vid d |}.

Definition set_state (v : pystr) (d : AadhaarData) : AadhaarData :=
  {| aadhaar_number := aadhaar_number d; name_tamil := name_tamil d;
     name := name d; guardian_name := guardian_name d; dob := dob d;
     gender := gender d; address := address d; district := district d;
     state := v; pincode := pincode d; phone := phone d; vid := vid d |}.

Definition set_pincode (v : pystr) (d : AadhaarData) : AadhaarData :=
  {| aadhaar_number := aadhaar_number d; name_tamil := name_tamil d;
     name := name d; guardian_name := guardian_name d; dob := dob d;
     gender := gender d; address := address d; district := district d;
     state := state d; pincode := v; phone := phone d; vid := vid d |}.

Definition set_phone (v : pystr) (d : AadhaarData) : AadhaarData :=
  {| aadhaar_number := aadhaar_number d; name_tamil := name_tamil d;
     name := name d; guardian_name := guardian_name d; dob := dob d;
     gender := gender d; address := address d; district := district d;
     state := state d; pincode := pincode d; phone := v; vid := vid d |}.

Definition set_vid (v : pystr) (d : AadhaarData) : AadhaarData :=
  {| aadhaar_number := aadhaar_number d; name_tamil := name_tamil d;
     name := name d; guardian_name := guardian_name d; dob := dob d;
     gender := gender d; address := address d; district := district d;
     state := state d; pincode := pincode d; phone := phone d; vid := v |}.

(** [xs[0]] *)
Definition first_item (xs : list pystr) : outcome pystr :=
  match xs with
  | x :: _ => Ret x
  | [] => Raise (IndexError (str "list index out of range"))
  end.

(** ** The field parser *)

Section Parser.

Variable U : unicode_data.

Local Open Scope outcome_scope.

Definition unwanted_phrases : list pystr :=
  [str "Digitally signed by DS Unique";
   str "Identification Authority of India";
   str "Government of India";
   str "Signature Not Verified"].

(** The cleaning that both name paths apply: keep what precedes a relation
    marker, drop a trailing single initial.  The two paths differ in where
    they strip and are written out where they stand. *)

(** [extract_name_from_text] *)
Fixpoint extract_name_from_text (lines : list pystr) : outcome pystr :=
  match lines with
  | [] => Ret (str "")
  | line :: lines' =>
      let clean_line := py_strip line in
      if match re_match U no_flags NAME_LINE_RE clean_line with
         | Some _ => true
         | None => false
         end
         && Nat.ltb 1 (List.length (py_split_ws clean_line))
         && forallb (fun phrase =>
                       negb (contains (py_lower U phrase)
                                      (py_lower U clean_line)))
                    unwanted_phrases
      then
        name_part <- first_item (re_split U re_I RELATION_SPLIT_RE clean_line) ;;
        let name_part :=
          py_strip (re_sub U no_flags TRAILING_INITIAL_RE (str "") name_part) in
        let name_part := re_sub U no_flags SPACES_RE (str " ") name_part in
        Ret name_part
      else extract_name_from_text lines'
  end.

(** [parse_aadhaar_details] *)
Definition parse_aadhaar_details (text : pystr) : outcome AadhaarData :=
  let data := AadhaarData_new in
  let lines :=
    map py_strip
        (filter (fun line => truthy (py_strip line)) (py_split [NL] text)) in
  (* Extract Aadhaar Number *)
  data <-
    match re_search U no_flags AADHAAR_RE text with
    | Some aadhaar_match =>
        aadhaar_number <- group AADHAAR_RE aadhaar_match 1 ;;
        if validate_aadhaar U (py_replace (str " ") (str "") aadhaar_number)
        then Ret (set_aadhaar_number aadhaar_number data)
        else Ret (set_aadhaar_number aadhaar_number data)
    | None => Ret data
    end ;;
  (* Extract VID *)
  data <-
    match re_search U no_flags VID_RE text with
    | Some vid_match =>
        v <- group VID_RE vid_match 1 ;;
        Ret (set_vid v data)
    | None => Ret data
    end ;;
  (* Extract Name *)
  data <-
    match re_search U no_flags TAMIL_NAME_RE text with
    | Some tamil_name_match =>
        g1 <- group TAMIL_NAME_RE tamil_name_match 1 ;;
        let data := set_name_tamil (py_strip g1) data in
        g2 <- group TAMIL_NAME_RE tamil_name_match 2 ;;
        let data := set_name (py_replace [NL] (str " ") (py_strip g2)) data in
        n <- first_item (re_split U re_I RELATION_SPLIT_RE (name data)) ;;
        let data := set_name (py_strip n) data in
        let data :=
          set_name (py_strip (re_sub U no_flags TRAILING_INITIAL_RE (str "")
                                     (name data))) data in
        let data :=
          set_name (re_sub U no_flags SPACES_RE (str " ") (name data)) data in
        Ret data
    | None => Ret data
    end ;;
  data <-
    (if negb (truthy (name data))
     then n <- extract_name_from_text lines ;; Ret (set_name n data)
     else Ret data) ;;
  (* Extract Guardian Name *)
  data <-
    match re_search U re_I GUARDIAN_RE text with
    | Some guardian_match =>
        g2 <- group GUARDIAN_RE guardian_match 2 ;;
        Ret (set_guardian_name (py_strip g2) data)
    | None => Ret data
    end ;;
  (* Extract DOB *)
  data <-
    match re_search U re_I DOB_RE text with
    | Some dob_match =>
        g2 <- group DOB_RE dob_match 2 ;;
        Ret (set_dob (py_replace (str "-") (str "/") g2) data)
    | None => Ret data
    end ;;
  (* Extract Gender *)
  data <-
    match re_search U re_I GENDER_RE text with
    | Some gender_match =>
        g1 <- group GENDER_RE gender_match 1 ;;
        Ret (set_gender (py_capitalize U g1) data)
    | None => Ret data
    end ;;
  (* Extract Address *)
  data <-
    match re_search U re_I_S ADDRESS_RE text with
    | Some address_match =>
        g1 <- group ADDRESS_RE address_match 1 ;;
        let address_text :=
          re_sub U re_I GUARDIAN_CLAUSE_RE (str "") (py_strip g1) in
        let address_text :=
          re_sub U no_flags AADHAAR_IN_ADDRESS_RE (str "") address_text in
        let address_text :=
          re_sub U no_flags POST_OFFICE_RE (str "") address_text in
        let address_text :=
          re_sub U re_I DIST_STATE_RE (str "") address_text in
        let address_text :=
          py_strip (re_sub U no_flags NEWLINES_RE (str " ") address_text) in
        let address_text :=
          py_strip (re_sub U no_flags SPACES_RE (str " ") address_text) in
        Ret (set_address address_text data)
    | None => Ret data
    end ;;
  (* Extract District *)
  data <-
    match re_search U re_I DISTRICT_RE text with
    | Some district_match =>
        g1 <- group DISTRICT_RE district_match 1 ;;
        Ret (set_district (py_replace (str ",") (str "") (py_strip g1)) data)
    | None => Ret data
    end ;;
  (* Extract State *)
  data <-
    match re_search U re_I STATE_RE text with
    | Some state_match =>
        g1 <- group STATE_RE state_match 1 ;;
        Ret (set_state (py_rstrip_chars (str ",") (py_strip g1)) data)
    | None => Ret data
    end ;;
  (* Extract Pincode *)
  data <-
    match re_search U no_flags PINCODE_RE text with
    | Some pincode_match =>
        g1 <- group PINCODE_RE pincode_match 1 ;;
        Ret (set_pincode g1 data)
    | None => Ret data
    end ;;
  (* Extract Phone Number *)
  data <-
    match re_search U no_flags PHONE_RE text with
    | Some phone_match =>
        g1 <- group PHONE_RE phone_match 1 ;;
        Ret (set_phone g1 data)
    | None => Ret data
    end ;;
  Ret data.

End Parser.

(** ** Text acquisition

    The PDF library, the imaging library and the OCR engine are outside the
    module.  A document is the record of what PyMuPDF answers about it, and
    the calls the module makes to the libraries are logged, so that what is
    executed can be told from what is only written. *)

Inductive color_conversion : Type := COLOR_RGB2BGR | COLOR_BGR2GRAY.

(** [fitz.Page] *)
Record Page (Image : Type) : Type := {
  number : nat;                    (* [page.number], counted from 0 *)
  get_text : outcome pystr;        (* [page.get_text("text")] *)
  get_pixmap : Image               (* the page as a raster image *)
}.

(** [fitz.Document] *)
Record Document (Image : Type) : Type := {
  needs_pass : bool;
  authenticate : option pystr -> outcome bool;
  pages : list (Page Image);      (* what [for page in doc] goes through *)
  doc_bool : bool;                 (* [bool(doc)] *)
  close : outcome unit
}.

(** The two places where the source writes [doc.authenticate(password)]. *)
Inductive call_site : Type :=
| InEncryptedBranch     (* in [if doc.needs_pass:] *)
| AfterRaise.           (* in [elif password:], below the [raise] *)

Inductive event : Type :=
| EvOpen
| EvAuthenticate (site : call_site) (password : option pystr)
| EvGetText (page_number : nat)
| EvClose
| EvPreprocess
| EvImageToString.

(** [str(n)] for a number *)
Definition decimal (n : nat) : pystr :=
  str (DecimalString.NilZero.string_of_uint (Nat.to_uint n)).

(** [bool(password)] for [password: str = None] *)
Definition truthy_opt (password : option pystr) : bool :=
  match password with
  | Some p => truthy p
  | None => false
  end.

Section Acquisition.

Variables Image Array : Type.

(** numpy, OpenCV and Tesseract *)
Variable np_array : Image -> Array.
Variable np_ones : nat * nat -> Array.
Variable cv2_cvtColor : Array -> color_conversion -> Array.
Variable cv2_adaptiveThreshold : Array -> N -> N -> N -> Array.
Variable cv2_medianBlur : Array -> N -> Array.
Variable cv2_dilate : Array -> Array -> nat -> Array.
Variable image_to_string : Array -> pystr -> outcome pystr.

(** [fitz.open(stream=pdf_bytes, filetype="pdf")] *)
Variable fitz_open : list Byte.byte -> outcome (Document Image).

(** The local variables [doc] and [text] of [extract_text_from_pdf], and the
    log of library calls, most recent first. *)
Record frame : Type := {
  v_doc : option (Document Image);
  v_text : pystr;
  log : list event
}.

Definition new_frame : frame := {| v_doc := None; v_text := []; log := [] |}.

(** A computation reads and writes the frame and returns or raises. *)
Definition M (A : Type) : Type := frame -> outcome A * frame.

Definition ret {A : Type} (a : A) : M A := fun s => (Ret a, s).

Definition raise {A : Type} (e : exn) : M A := fun s => (Raise e, s).

Definition bind {A B : Type} (x : M A) (f : A -> M B) : M B :=
  fun s =>
    match x s with
    | (Ret a, s') => f a s'
    | (Raise e, s') => (Raise e, s')
    end.

(** [try: body  except Exception as e: handler] *)
Definition try_except {A : Type} (body : M A) (handler : exn -> M A) : M A :=
  fun s =>
    match body s with
    | (Ret a, s') => (Ret a, s')
    | (Raise e, s') => handler e s'
    end.

(** [try: body  finally: final] *)
Definition try_finally {A : Type} (body : M A) (final : M unit) : M A :=
  fun s =>
    match body s with
    | (r, s') =>
        match final s' with
        | (Ret _, s'') => (r, s'')
        | (Raise e, s'') => (Raise e, s'')
        end
    end.

Definition emit (ev : event) : M unit :=
  fun s => (Ret tt, {| v_doc := v_doc s; v_text := v_text s;
                       log := ev :: log s |}).

(** The answer of a library call. *)
Definition answer {A : Type} (r : outcome A) : M A := fun s => (r, s).

Definition set_doc (d : option (Document Image)) : M unit :=
  fun s => (Ret tt, {| v_doc := d; v_text := v_text s; log := log s |}).

Definition set_text (t : pystr) : M unit :=
  fun s => (Ret tt, {| v_doc := v_doc s; v_text := t; log := log s |}).

Definition read_doc : M (option (Document Image)) := fun s => (Ret (v_doc s), s).

Definition read_text : M pystr := fun s => (Ret (v_text s), s).

Declare Scope pdf_scope.
Delimit Scope pdf_scope with pdf.
Notation "x <- e ;; k" := (bind e (fun x => k))
  (at level 61, e at next level, right associativity) : pdf_scope.
Notation "e ;; k" := (bind e (fun _ => k))
  (at level 61, right associativity) : pdf_scope.

Local Open Scope pdf_scope.

(** An attribute of [doc]; [doc] is [None] until [fitz.open] has
    returned. *)
Definition the_doc : M (Document Image) :=
  d <- read_doc ;;
  match d with
  | Some doc => ret doc
  | None => raise (AttributeError (str "'NoneType' object has no attribute"))
  end.

Fixpoint for_each {A : Type} (xs : list A) (body : A -> M unit) : M unit :=
  match xs with
  | [] => ret tt
  | x :: xs' => body x ;; for_each xs' body
  end.

(** [preprocess_image] *)
Definition preprocess_image (image : Image) : Array :=
  let image_cv := cv2_cvtColor (np_array image) COLOR_RGB2BGR in
  let gray := cv2_cvtColor image_cv COLOR_BGR2GRAY in
  let thresh := cv2_adaptiveThreshold gray 255 11 2 in
  let denoised := cv2_medianBlur thresh 3 in
  let kernel := np_ones (1%nat, 1%nat) in
  let dilated := cv2_dilate denoised kernel 1 in
  dilated.

(** [extract_text_from_image] *)
Definition extract_text_from_image (image : Image) : M pystr :=
  emit EvPreprocess ;;
  let preprocessed := preprocess_image image in
  let custom_config := str "--oem 3 --psm 6 -l eng+tam" in
  try_except
    (emit EvImageToString ;;
     text <- answer (image_to_string preprocessed custom_config) ;;
     ret text)
    (fun e => raise (Exception (str "OCR processing failed: " ++ exn_str e))).

(** [extract_text_from_images] *)
Fixpoint extract_text_from_images_from (extracted_text : pystr)
    (images : list Image) : M pystr :=
  match images with
  | [] => ret extracted_text
  | image :: images' =>
      text <- extract_text_from_image image ;;
      extract_text_from_images_from (extracted_text ++ text ++ [NL]) images'
  end.

Definition extract_text_from_images (images : list Image) : M pystr :=
  extract_text_from_images_from (str "") images.

(** The messages that the outer handler lets through as they are. *)
Definition passed_through : list pystr :=
  [str "Password required"; str "Invalid password"; str "No text could be"].

(** The statements that the source has below the [raise] of the
    [elif password:] branch. *)
Definition authenticate_again (password : option pystr) : M unit :=
  doc <- the_doc ;;
  emit (EvAuthenticate AfterRaise password) ;;
  ok <- answer (authenticate doc password) ;;
  if negb ok
  then raise (Exception (str "Invalid password provided for PDF"))
  else ret tt.

(** The body of [extract_text_from_pdf], with the statements below that
    [raise] as [below_raise]. *)
Definition extract_text_from_pdf_with (below_raise : M unit)
    (pdf_bytes : list Byte.byte) (password : option pystr) : M pystr :=
  match pdf_bytes with
  | [] => raise (Exception (str "Empty PDF stream provided"))
  | _ =>
  set_text (str "") ;;
  set_doc None ;;
  try_finally
    (try_except
       ((* Validate PDF stream *)
        try_except
          (emit EvOpen ;;
           d <- answer (fitz_open pdf_bytes) ;;
           set_doc (Some d))
          (fun e =>
             raise (Exception (str "Invalid PDF format: " ++ exn_str e))) ;;
        (* Handle encrypted PDF *)
        doc <- the_doc ;;
        (if needs_pass doc then
           if negb (truthy_opt password)
           then raise (Exception (str "Password required for encrypted PDF"))
           else
             try_except
               (emit (EvAuthenticate InEncryptedBranch password) ;;
                ok <- answer (authenticate doc password) ;;
                if negb ok
                then raise (Exception (str "Invalid password provided for PDF"))
                else ret tt)
               (fun e =>
                  raise (Exception (str "PDF decryption failed: " ++ exn_str e)))
         else if truthy_opt password then
           (raise (Exception (str "PDF is not encrypted, password not required"))
              : M unit) ;;
           below_raise
         else ret tt) ;;
        (* Extract text from all pages *)
        for_each (pages doc) (fun page =>
          try_except
            (emit (EvGetText (number page)) ;;
             page_text <- answer (get_text page) ;;
             text <- read_text ;;
             set_text (text ++ page_text))
            (fun e =>
               raise (Exception (str "Error extracting text from page " ++
                                 decimal (number page + 1) ++ str ": " ++
                                 exn_str e)))) ;;
        (* Validate extracted text *)
        text <- read_text ;;
        if negb (truthy (py_strip text))
        then raise (Exception (str "No text could be extracted from the PDF"))
        else ret text)
       (fun e =>
          if existsb (fun p => startswith p (exn_str e)) passed_through
          then raise e
          else raise (Exception (str "Failed to process PDF: " ++ exn_str e))))
    (d <- read_doc ;;
     match d with
     | Some doc =>
         if doc_bool doc
         then try_except (emit EvClose ;; answer (close doc))
                         (fun _ => ret tt)
         else ret tt
     | None => ret tt
     end)
  end.

(** [extract_text_from_pdf] *)
Definition extract_text_from_pdf (pdf_bytes : list Byte.byte)
    (password : option pystr) : M pystr :=
  extract_text_from_pdf_with (authenticate_again password) pdf_bytes password.

(** What a call returns or raises, and the library calls it made, in the
    order it made them. *)
Definition run {A : Type} (x : M A) : outcome A := fst (x new_frame).
Definition calls {A : Type} (x : M A) : list event := rev (log (snd (x new_frame))).

End Acquisition.

(** ** The HTTP boundary

    The handler [extract_aadhaar_info] of [app/main.py] chains the
    acquisition, the parser and the validator.  The decorators (route and
    rate limit), the logging and the hash of the content, which is only
    logged, are left out: they do not take part in what the handler returns
    or raises. *)

(** [s.endswith(p)] *)
Definition py_endswith (p s : pystr) : bool := startswith (rev p) (rev s).

(** [fastapi.UploadFile], as far as the handler uses it. *)
Record UploadFile : Type := {
  filename : option pystr;            (* [file.filename], an [Optional[str]] *)
  read : outcome (list Byte.byte);    (* [await file.read()] *)
  seek : outcome unit                 (* [await file.seek(0)] *)
}.

(** What the handler can raise: [fastapi.HTTPException], or one of the
    exceptions of the module and of the libraries.  [HTTPException] is a
    subclass of [Exception], so [except Exception] catches both. *)
Inductive failure : Type :=
| HTTPException (status_code : nat) (detail : pystr)
| Other (e : exn).

(** [JSONResponse(status_code=..., content={...})]: the content has the key
    "data" and may have the key "warning". *)
Inductive response : Type :=
| JSONResponse (status_code : nat) (warning : option pystr) (data : AadhaarData).

Inductive reply (A : Type) : Type :=
| Returns (a : A)
| Raises (f : failure).

Arguments Returns {A} a.
Arguments Raises {A} f.

Definition rbind {A B : Type} (x : reply A) (k : A -> reply B) : reply B :=
  match x with
  | Returns a => k a
  | Raises f => Raises f
  end.

(** A call whose exceptions are not [HTTPException]s. *)
Definition lift {A : Type} (x : outcome A) : reply A :=
  match x with
  | Ret a => Returns a
  | Raise e => Raises (Other e)
  end.

(** [try: body  except Exception as e: handler] *)
Definition rtry {A : Type} (body : reply A) (handler : failure -> reply A)
  : reply A :=
  match body with
  | Returns a => Returns a
  | Raises f => handler f
  end.

Declare Scope http_scope.
Delimit Scope http_scope with http.
Notation "x <- e ;; k" := (rbind e (fun x => k))
  (at level 61, e at next level, right associativity) : http_scope.

Section Boundary.

Variable U : unicode_data.
Variable Image : Type.
Variable fitz_open : list Byte.byte -> outcome (Document Image).

Local Open Scope http_scope.

(** The statements of the [try] block of [extract_aadhaar_info]. *)
Definition extract_aadhaar_info_try (file : UploadFile) (password : pystr)
  : reply response :=
  (* Validate file type and size *)
  name <- match filename file with
          | Some name => Returns name
          | None =>
              Raises (Other (AttributeError
                               (str "'NoneType' object has no attribute")))
          end ;;
  if negb (py_endswith (str ".pdf") (py_lower U name))
  then Raises (HTTPException 400 (str "Only PDF files are supported"))
  else
  content <- lift (read file) ;;
  let file_size := N.of_nat (List.length content) in
  if 5 * 1024 * 1024 <? file_size
  then Raises (HTTPException 400 (str "File size exceeds 5MB limit"))
  else
  _ <- lift (seek file) ;;
  (* Process PDF and extract text *)
  text <- match run (extract_text_from_pdf fitz_open content (Some password)) with
          | Ret text => Returns text
          | Raise e => Raises (HTTPException 400 (exn_str e))
          end ;;
  (* Parse Aadhaar details *)
  aadhaar_data <- match parse_aadhaar_details U text with
                  | Ret aadhaar_data => Returns aadhaar_data
                  | Raise e =>
                      Raises (HTTPException 500
                                (str "Error parsing Aadhaar details"))
                  end ;;
  (* Validate Aadhaar number if present *)
  if truthy (aadhaar_number aadhaar_data) then
    let clean_aadhaar :=
      py_replace (str " ") (str "") (aadhaar_number aadhaar_data) in
    if negb (validate_aadhaar U clean_aadhaar)
    then Returns (JSONResponse 200 (Some (str "Invalid Aadhaar number detected"))
                               aadhaar_data)
    else Returns (JSONResponse 200 None aadhaar_data)
  else Returns (JSONResponse 200 None aadhaar_data).

(** [extract_aadhaar_info] *)
Definition extract_aadhaar_info (file : UploadFile) (password : pystr)
  : reply response :=
  if negb (truthy password) || Nat.eqb (List.length (py_strip password)) 0
  then Raises (HTTPException 400 (str "Password is required for encrypted PDF"))
  else
    rtry (extract_aadhaar_info_try file password)
         (fun e => Raises (HTTPException 500 (str "Internal server error"))).

End Boundary.

(** ** Concrete data used in the examples *)

(** An excerpt of the Unicode Character Database: the Devanagari and Tamil
    digits (U+0966 to U+096F, U+0BE6 to U+0BEF) are decimal digits; the
    superscripts U+00B2, U+00B3 and U+00B9 are digits that are not decimal;
    U+0130 and U+212A are lowered to i and k; the long s U+017F and the
    dotless i U+0131 are lower-case letters whose title case is S and I.
    Code points outside the excerpt are answered as uncased characters that
    are neither digits nor letters. *)
Definition excerpt_isdecimal (c : N) : bool :=
  ((0x966 <=? c) && (c <=? 0x96F)) || ((0xBE6 <=? c) && (c <=? 0xBEF)).

Definition excerpt_isdigit (c : N) : bool :=
  excerpt_isdecimal c || (c =? 0xB2) || (c =? 0xB3) || (c =? 0xB9).

Definition excerpt_isalnum (c : N) : bool :=
  excerpt_isdigit c || (c =? LONG_S) || (c =? DOTLESS_I) ||
  (c =? CAPITAL_I_DOT) || (c =? KELVIN).

Definition excerpt_tolower (c : N) : N :=
  if c =? CAPITAL_I_DOT then 105 else if c =? KELVIN then 107 else c.

Definition excerpt_lower (c : N) : list N :=
  if c =? CAPITAL_I_DOT then [105; 0x307]
  else if c =? KELVIN then [107] else [c].

Definition excerpt_title (c : N) : list N :=
  if c =? LONG_S then [83] else if c =? DOTLESS_I then [73] else [c].

Definition ucd_excerpt : unicode_data.
Proof.
  refine {| ucd_isdecimal := excerpt_isdecimal;
            ucd_isdigit := excerpt_isdigit;
            ucd_isalnum := excerpt_isalnum;
            ucd_tolower := excerpt_tolower;
            ucd_lower := excerpt_lower;
            ucd_title := excerpt_title |}.
  - intros c Hc. unfold excerpt_tolower, CAPITAL_I_DOT, KELVIN.
    destruct (N.eqb_spec c 304); [intros _; left; split; [assumption | reflexivity] |].
    destruct (N.eqb_spec c 8490); [intros _; right; split; [assumption | reflexivity] |].
    intros Hlt. exfalso. apply (N.lt_irrefl c).
    apply (N.lt_le_trans _ _ _ Hlt Hc).
  - intros c _. unfold excerpt_tolower, CAPITAL_I_DOT, KELVIN, LONG_S.
    destruct (N.eqb_spec c 304); [discriminate |].
    destruct (N.eqb_spec c 8490); [discriminate |].
    exact (fun H => H).
  - reflexivity.
Defined.

(** The scenario of the specification. *)
Definition scenario_text : pystr :=
  str "1234 5678 9012" ++ [NL] ++ str "John Smith" ++ [NL] ++
  str "S/O Robert Smith" ++ [NL] ++ str "DOB: 01-02-1990" ++ [NL] ++
  str "Male" ++ [NL] ++ str "Address: 12 Main St" ++ [NL] ++
  str "District: Chennai" ++ [NL] ++ str "State: Tamil Nadu" ++ [NL] ++
  str "600001" ++ [NL] ++ str "9876543210".

(** Twelve times the Devanagari digit one, U+0967. *)
Definition devanagari_ones : pystr := repeat 0x967 12.

(** The word "Transgender" spelt with the long s. *)
Definition long_s_spelling : pystr := str "Tran" ++ [LONG_S] ++ str "gender".

(** A district line and a state line with commas inside and at the end. *)
Definition commas_text : pystr :=
  str "District: Salem, TN," ++ [NL] ++ str "State: Tamil Nadu, India,".

(** Documents for the examples.  The image of a page is given by the text
    printed on it, which the OCR engine of the examples reads back. *)
Definition page_of (n : nat) (layer : outcome pystr) (printed : pystr)
  : Page pystr :=
  {| number := n; get_text := layer; get_pixmap := printed |}.

Definition unencrypted (ps : list (Page pystr)) : Document pystr :=
  {| needs_pass := false;
     authenticate := fun _ => Ret true;
     pages := ps;
     doc_bool := match ps with [] => false | _ => true end;
     close := Ret tt |}.

Definition some_bytes : list Byte.byte := [Byte.x25; Byte.x50; Byte.x44; Byte.x46].

(** A scanned first page without text layer, a typed second page. *)
Definition scanned_then_typed : Document pystr :=
  unencrypted [page_of 0 (Ret (str "")) (str "SCANNED");
               page_of 1 (Ret (str "typed")) (str "typed")].

(** Two typed pages. *)
Definition two_pages : Document pystr :=
  unencrypted [page_of 0 (Ret (str "A")) (str "A");
               page_of 1 (Ret (str "B")) (str "B")].

(** A second page whose extraction raises. *)
Definition broken_second_page : Document pystr :=
  unencrypted [page_of 0 (Ret (str "A")) (str "A");
               page_of 1 (Raise (Exception (str "bad xref"))) (str "B")].

Definition reading_ocr (a : pystr) (config : pystr) : outcome pystr := Ret a.

(** An encrypted document that [secret] opens. *)
Definition encrypted_with (secret : pystr) (ps : list (Page pystr))
  : Document pystr :=
  {| needs_pass := true;
     authenticate := fun password =>
       Ret (match password with
            | Some p => if list_eq_dec N.eq_dec p secret then true else false
            | None => false
            end);
     pages := ps;
     doc_bool := match ps with [] => false | _ => true end;
     close := Ret tt |}.

Definition locked_pages : Document pystr :=
  encrypted_with (str "secret")
    [page_of 0 (Ret (str "A")) (str "A"); page_of 1 (Ret (str "B")) (str "B")].

(** A line with a virtual ID. *)
Definition vid_line : pystr := str "VID : 9876 5432 1098 7654".

(** An ID number broken over two lines. *)
Definition broken_number : pystr := str "1234" ++ [NL] ++ str "5678 9012".

(** An engine that fails on the image on which "blurred" is printed. *)
Definition failing_ocr (a : pystr) (config : pystr) : outcome pystr :=
  if list_eq_dec N.eq_dec a (str "blurred")
  then Raise (Exception (str "tesseract failed"))
  else Ret a.

(** Uploads for the examples: the content is the four bytes of
    [some_bytes]. *)
Definition upload (name : string) : UploadFile :=
  {| filename := Some (str name); read := Ret some_bytes; seek := Ret tt |}.

(** A locked document whose only page shows the number broken over two
    lines. *)
Definition locked_card : Document pystr :=
  encrypted_with (str "secret")
    [page_of 0 (Ret broken_number) broken_number].

(** * Vocabulary of the properties *)

(** ** The validator *)

(** The characters that [replace(" ", "")] keeps. *)
Definition not_space (c : N) : bool := negb (c =? 32).

(** C6 as the specification states it, with "only ASCII digits". *)
Definition validate_aadhaar_ascii_only (U : unicode_data) : Prop :=
  forall s : pystr,
    validate_aadhaar U s = true <->
    filter not_space s <> [] /\
    Forall (fun c => is_ascii_digit c = true) (filter not_space s) /\
    List.length (filter not_space s) = 12%nat.

(** ** The matcher *)

(** [closes n r]: every successful match of [r] closes group [n]. *)
Fixpoint closes (n : nat) (r : regex) : bool :=
  match r with
  | RGroup i r' => Nat.eqb i n || closes n r'
  | RSeq r1 r2 => closes n r1 || closes n r2
  | RAlt r1 r2 => closes n r1 && closes n r2
  | RLookahead r' => closes n r'
  | _ => false
  end.

(** Group [n] is closed in [st]. *)
Definition has_cap (n : nat) (st : mstate) : Prop :=
  lookup_cap n (m_caps st) <> None.

(** ** The parser *)

(** The lines that the parser hands to [extract_name_from_text]. *)
Definition text_lines (text : pystr) : list pystr :=
  map py_strip (filter (fun line => truthy (py_strip line)) (py_split [NL] text)).

(** What a step of the parser leaves in the record: the record it was given
    when the pattern is not found, and the record with the field set from the
    group when it is. *)
Definition stored (found : option match_obj) (r : regex) (n : nat)
    (v : pystr -> AadhaarData -> AadhaarData) (data : AadhaarData)
  : AadhaarData :=
  match found with
  | Some mo => match group r mo n with Ret g => v g data | Raise _ => data end
  | None => data
  end.

(** A field [v] comes from the search of its own pattern alone: it is empty
    when the pattern is not found, and the processed group when it is. *)
Definition field_of (found : option match_obj) (r : regex) (n : nat)
    (post : pystr -> pystr) (v : pystr) : Prop :=
  match found with
  | Some mo => exists g, group r mo n = Ret g /\ v = post g
  | None => v = []
  end.

Section ParserVocabulary.

Variable U : unicode_data.

(** The cleaning of a name, once the part before a relation marker has been
    taken. *)
Definition clean_name (first : pystr) : pystr :=
  re_sub U no_flags SPACES_RE (str " ")
    (py_strip (re_sub U no_flags TRAILING_INITIAL_RE (str "") (py_strip first))).

(** The cleaning of a captured address. *)
Definition clean_address (g : pystr) : pystr :=
  py_strip (re_sub U no_flags SPACES_RE (str " ")
    (py_strip (re_sub U no_flags NEWLINES_RE (str " ")
      (re_sub U re_I DIST_STATE_RE (str "")
        (re_sub U no_flags POST_OFFICE_RE (str "")
          (re_sub U no_flags AADHAAR_IN_ADDRESS_RE (str "")
            (re_sub U re_I GUARDIAN_CLAUSE_RE (str "") (py_strip g)))))))).

(** Where the name comes from: the line after the Tamil name when that
    pattern is found and leaves a name, the scan of the lines otherwise. *)
Definition name_of (text : pystr) (v : pystr) : Prop :=
  exists fallback,
    extract_name_from_text U (text_lines text) = Ret fallback /\
    match re_search U no_flags TAMIL_NAME_RE text with
    | Some mo =>
        exists g2 first,
          group TAMIL_NAME_RE mo 2 = Ret g2 /\
          first_item (re_split U re_I RELATION_SPLIT_RE
                        (py_replace [NL] (str " ") (py_strip g2))) = Ret first /\
          v = if truthy (clean_name first) then clean_name first else fallback
    | None => v = fallback
    end.

(** The record, field by field. *)
Definition parsed_from (text : pystr) (d : AadhaarData) : Prop :=
  field_of (re_search U no_flags AADHAAR_RE text) AADHAAR_RE 1
           (fun g => g) (aadhaar_number d) /\
  field_of (re_search U no_flags VID_RE text) VID_RE 1 (fun g => g) (vid d) /\
  field_of (re_search U no_flags TAMIL_NAME_RE text) TAMIL_NAME_RE 1
           py_strip (name_tamil d) /\
  name_of text (name d) /\
  field_of (re_search U re_I GUARDIAN_RE text) GUARDIAN_RE 2
           py_strip (guardian_name d) /\
  field_of (re_search U re_I DOB_RE text) DOB_RE 2
           (py_replace (str "-") (str "/")) (dob d) /\
  field_of (re_search U re_I GENDER_RE text) GENDER_RE 1
           (py_capitalize U) (gender d) /\
  field_of (re_search U re_I_S ADDRESS_RE text) ADDRESS_RE 1
           clean_address (address d) /\
  field_of (re_search U re_I DISTRICT_RE text) DISTRICT_RE 1
           (fun g => py_replace (str ",") (str "") (py_strip g)) (district d) /\
  field_of (re_search U re_I STATE_RE text) STATE_RE 1
           (fun g => py_rstrip_chars (str ",") (py_strip g)) (state d) /\
  field_of (re_search U no_flags PINCODE_RE text) PINCODE_RE 1
           (fun g => g) (pincode d) /\
  field_of (re_search U no_flags PHONE_RE text) PHONE_RE 1
           (fun g => g) (phone d).

(** The step of the Tamil name, which sets two fields. *)
Definition tamil_stored (found : option match_obj) (data : AadhaarData)
  : AadhaarData :=
  match found with
  | Some mo =>
      match group TAMIL_NAME_RE mo 1, group TAMIL_NAME_RE mo 2 with
      | Ret g1, Ret g2 =>
          match first_item (re_split U re_I RELATION_SPLIT_RE
                              (py_replace [NL] (str " ") (py_strip g2))) with
          | Ret first =>
              set_name (clean_name first) (set_name_tamil (py_strip g1) data)
          | Raise _ => data
          end
      | _, _ => data
      end
  | None => data
  end.

(** [c] matches the literal [x] under [re.IGNORECASE]. *)
Definition matches_ignorecase (x c : N) : Prop :=
  atom_match U re_I (ALit x) c = true.

End ParserVocabulary.

(** The record that the parser returns for the scenario of the
    specification. *)
Definition scenario_record : AadhaarData :=
  {| aadhaar_number := str "1234 5678 9012";
     name_tamil := str "";
     name := str "John Smith";
     guardian_name := str "Robert Smith" ++ [NL] ++ str "DOB";
     dob := str "01/02/1990";
     gender := str "Male";
     address := str "12 Main St";
     district := str "Chennai";
     state := str "Tamil Nadu";
     pincode := str "600001";
     phone := str "9876543210";
     vid := str "" |}.

(** The vocabulary of [GENDER_RE], in the order of its alternatives. *)
Definition gender_words : list string :=
  ["Male"; "Female"; "Transgender"; "M"; "F"; "T"]%string.

(** An ASCII letter other than i and k in either case: under
    [re.IGNORECASE] nothing beyond ASCII matches it, except the long s for
    the letter s. *)
Definition plain_letter (x : N) : bool :=
  is_ascii_letter x && negb (ascii_tolower x =? 105) &&
  negb (ascii_tolower x =? 107).

(** The lower case of a matched word, character by character. *)
Definition lowered (x l : N) : Prop :=
  l = ascii_tolower x \/ (ascii_tolower x = 115 /\ l = LONG_S).

(** The values that the gender takes when the pattern is found. *)
Definition gender_values : list pystr :=
  [str "Male"; str "Female"; str "Transgender"; long_s_spelling;
   str "M"; str "F"; str "T"].

(** C10 as stated: the gender is empty or one of the six words. *)
Definition gender_is_one_of_six (U : unicode_data) : Prop :=
  forall text d,
    parse_aadhaar_details U text = Ret d ->
    In (gender d)
       [str ""; str "Male"; str "Female"; str "Transgender";
        str "M"; str "F"; str "T"].

(** ** Text acquisition *)

(** The call of [doc.authenticate] written below the [raise]. *)
Definition is_authenticate_again (ev : event) : bool :=
  match ev with
  | EvAuthenticate AfterRaise _ => true
  | _ => false
  end.

(** The calls of the OCR path. *)
Definition is_ocr (ev : event) : bool :=
  match ev with
  | EvPreprocess | EvImageToString => true
  | _ => false
  end.

(** The calls that [extract_text_from_pdf] makes. *)
Definition allowed (ev : event) : bool :=
  negb (is_authenticate_again ev) && negb (is_ocr ev).

Section AcquisitionVocabulary.

Variable Image : Type.
Variable fitz_open : list Byte.byte -> outcome (Document Image).

(** A computation is quiet when the calls it adds to the log are neither the
    second authentication nor calls of the OCR path. *)
Definition quiet {A : Type} (x : M Image A) : Prop :=
  forall s, exists evs,
    log (snd (x s)) = evs ++ log s /\ forallb allowed evs = true.

(** The body of the loop over the pages. *)
Definition read_page (page : Page Image) : M Image unit :=
  try_except
    (bind (emit (EvGetText (number page))) (fun _ =>
     bind (answer (get_text page)) (fun page_text =>
     bind (@read_text Image) (fun text =>
     set_text (text ++ page_text)))))
    (fun e =>
       raise (Exception (str "Error extracting text from page " ++
                         decimal (number page + 1) ++ str ": " ++ exn_str e))).

(** What the loop leaves in [text], or the exception it raises at the first
    page whose extraction raises. *)
Fixpoint loop_result (ps : list (Page Image)) (text : pystr) : outcome pystr :=
  match ps with
  | [] => Ret text
  | p :: ps' =>
      match get_text p with
      | Ret t => loop_result ps' (text ++ t)
      | Raise e =>
          Raise (Exception (str "Error extracting text from page " ++
                            decimal (number p + 1) ++ str ": " ++ exn_str e))
      end
  end.

(** The handler around the whole body. *)
Definition rewrap (e : exn) : outcome pystr :=
  if existsb (fun p => startswith p (exn_str e)) passed_through
  then Raise e
  else Raise (Exception (str "Failed to process PDF: " ++ exn_str e)).

(** The password check. *)
Definition gate (doc : Document Image) (password : option pystr) : outcome unit :=
  if needs_pass doc then
    if negb (truthy_opt password)
    then Raise (Exception (str "Password required for encrypted PDF"))
    else
      match authenticate doc password with
      | Ret true => Ret tt
      | Ret false =>
          Raise (Exception (str "PDF decryption failed: " ++
                            str "Invalid password provided for PDF"))
      | Raise e =>
          Raise (Exception (str "PDF decryption failed: " ++ exn_str e))
      end
  else if truthy_opt password
  then Raise (Exception (str "PDF is not encrypted, password not required"))
  else Ret tt.

(** What [extract_text_from_pdf] returns or raises, step by step. *)
Definition acquisition_outcome (pdf_bytes : list Byte.byte)
    (password : option pystr) : outcome pystr :=
  match pdf_bytes with
  | [] => Raise (Exception (str "Empty PDF stream provided"))
  | _ =>
      match fitz_open pdf_bytes with
      | Raise e => rewrap (Exception (str "Invalid PDF format: " ++ exn_str e))
      | Ret doc =>
          match gate doc password with
          | Raise e => rewrap e
          | Ret _ =>
              match loop_result (pages doc) [] with
              | Raise e => rewrap e
              | Ret text =>
                  if truthy (py_strip text) then Ret text
                  else rewrap (Exception
                                 (str "No text could be extracted from the PDF"))
              end
          end
      end
  end.

End AcquisitionVocabulary.

(** C3 as the specification states it: the error is not the generic
    wrapper. *)
Definition password_not_needed_is_distinct : Prop :=
  forall (Image : Type) (fitz_open : list Byte.byte -> outcome (Document Image))
         pdf_bytes password doc,
    pdf_bytes <> [] -> fitz_open pdf_bytes = Ret doc ->
    needs_pass doc = false -> truthy_opt password = true ->
    exists e,
      run (extract_text_from_pdf fitz_open pdf_bytes password) = Raise e /\
      startswith (str "Failed to process PDF") (exn_str e) = false.

(** C4 as the specification states it: the texts of the pages are joined by
    a line feed. *)
Definition returned_text_is_newline_joined : Prop :=
  forall (Image : Type) (fitz_open : list Byte.byte -> outcome (Document Image))
         pdf_bytes password text,
    run (extract_text_from_pdf fitz_open pdf_bytes password) = Ret text ->
    exists doc texts,
      fitz_open pdf_bytes = Ret doc /\
      map (@get_text Image) (pages doc) = map Ret texts /\
      text = py_join [NL] texts.

(** C2 as the specification states it, in the particular case: a page has an
    empty text layer, the OCR of its image gives a text that is not blank;
    then the acquisition returns a text that includes it. *)
Definition ocr_fallback_includes_page : Prop :=
  forall (Image Array : Type) np_array np_ones cv2_cvtColor cv2_adaptiveThreshold
         cv2_medianBlur cv2_dilate image_to_string
         (fitz_open : list Byte.byte -> outcome (Document Image))
         pdf_bytes doc p ocr_text,
    pdf_bytes <> [] -> fitz_open pdf_bytes = Ret doc ->
    needs_pass doc = false -> In p (pages doc) -> get_text p = Ret (str "") ->
    run (@extract_text_from_image Image Array np_array np_ones cv2_cvtColor
           cv2_adaptiveThreshold cv2_medianBlur cv2_dilate image_to_string
           (get_pixmap p)) = Ret ocr_text ->
    truthy (py_strip ocr_text) = true ->
    exists text,
      run (extract_text_from_pdf fitz_open pdf_bytes None) = Ret text /\
      contains ocr_text text = true.

(** ** The calls of the acquisition *)

Section AcquisitionCallsVocabulary.

Variable Image : Type.
Variable fitz_open : list Byte.byte -> outcome (Document Image).

(** The numbers of the pages whose text is asked for: every page up to and
    with the first one whose extraction raises. *)
Fixpoint pages_read (ps : list (Page Image)) : list nat :=
  match ps with
  | [] => []
  | p :: ps' =>
      number p ::
      match get_text p with
      | Ret _ => pages_read ps'
      | Raise _ => []
      end
  end.

(** The library calls of [extract_text_from_pdf], in order. *)
Definition acquisition_calls (pdf_bytes : list Byte.byte)
    (password : option pystr) : list event :=
  match pdf_bytes with
  | [] => []
  | _ =>
      EvOpen ::
      match fitz_open pdf_bytes with
      | Raise _ => []
      | Ret doc =>
          (if needs_pass doc && truthy_opt password
           then [EvAuthenticate InEncryptedBranch password] else []) ++
          match gate doc password with
          | Ret _ => map EvGetText (pages_read (pages doc))
          | Raise _ => []
          end ++
          (if doc_bool doc then [EvClose] else [])
      end
  end.

(** The messages of the errors of [extract_text_from_pdf]. *)
Definition acquisition_message (msg : pystr) : Prop :=
  msg = str "Empty PDF stream provided" \/
  msg = str "Password required for encrypted PDF" \/
  msg = str "No text could be extracted from the PDF" \/
  startswith (str "Failed to process PDF: ") msg = true.

End AcquisitionCallsVocabulary.

(** ** What a pattern consumes *)

(** The bound of a repetition. *)
Definition within (max : option nat) (n : nat) : Prop :=
  match max with
  | Some most => (n <= most)%nat
  | None => True
  end.

(** [s] lies in [text]. *)
Definition substring (s text : pystr) : Prop :=
  exists before after, text = before ++ s ++ after.

Section MatcherVocabulary.

Variable U : unicode_data.
Variable fl : re_flags.

(** The strings that a pattern can consume: assertions consume nothing, an
    item one character, a repetition a run of characters of its item. *)
Fixpoint matched_by (r : regex) (g : pystr) : Prop :=
  match r with
  | REmpty | RBegin | REnd | RWordB | RLookahead _ => g = []
  | RAtom a => exists c, g = [c] /\ atom_match U fl a c = true
  | RRep a min max _ =>
      Forall (fun c => atom_match U fl a c = true) g /\
      (min <= List.length g)%nat /\ within max (List.length g)
  | RSeq r1 r2 => exists g1 g2, g = g1 ++ g2 /\ matched_by r1 g1 /\ matched_by r2 g2
  | RAlt r1 r2 => matched_by r1 g \/ matched_by r2 g
  | RGroup _ r' => matched_by r' g
  end.

(** The sub-patterns that group [n] encloses. *)
Fixpoint group_bodies (n : nat) (r : regex) : list regex :=
  match r with
  | RSeq r1 r2 | RAlt r1 r2 => group_bodies n r1 ++ group_bodies n r2
  | RGroup i r' => (if Nat.eqb i n then [r'] else []) ++ group_bodies n r'
  | RLookahead r' => group_bodies n r'
  | _ => []
  end.

(** What a group of pattern [r] holds after a match in [text]: a piece of
    the text that the sub-pattern of the group consumes. *)
Definition captured (r : regex) (text : pystr) (n : nat) (s : pystr) : Prop :=
  substring s text /\ exists r', In r' (group_bodies n r) /\ matched_by r' s.

(** The groups closed so far are such pieces. *)
Definition caps_ok (r : regex) (text : pystr) (st : mstate) : Prop :=
  forall n s, lookup_cap n (m_caps st) = Some s -> captured r text n s.

(** The state is at some position of [text]. *)
Definition inside (text : pystr) (st : mstate) : Prop :=
  exists before, text = before ++ m_rest st.

End MatcherVocabulary.

(** ** The shape of the fields *)

(** White space is at most the character U+0020. *)
Definition single_spaced (s : pystr) : Prop :=
  Forall (fun c => py_isspace c = true -> c = 32) s.

Section FieldVocabulary.

Variable U : unicode_data.

(** [n] decimal digits, as [\d{n}] reads them. *)
Definition digits (n : nat) (s : pystr) : Prop :=
  List.length s = n /\ Forall (fun c => py_isdecimal U c = true) s.

(** One or two decimal digits. *)
Definition day_or_month (s : pystr) : Prop :=
  (1 <= List.length s <= 2)%nat /\ Forall (fun c => py_isdecimal U c = true) s.

(** Three groups of four digits with a white-space character after each of
    the first two. *)
Definition aadhaar_shape (s : pystr) : Prop :=
  exists a s1 b s2 c,
    s = a ++ s1 :: b ++ s2 :: c /\
    digits 4 a /\ digits 4 b /\ digits 4 c /\
    py_isspace s1 = true /\ py_isspace s2 = true.

(** Four groups of four digits, likewise. *)
Definition vid_shape (s : pystr) : Prop :=
  exists a s1 b s2 c s3 d,
    s = a ++ s1 :: b ++ s2 :: c ++ s3 :: d /\
    digits 4 a /\ digits 4 b /\ digits 4 c /\ digits 4 d /\
    py_isspace s1 = true /\ py_isspace s2 = true /\ py_isspace s3 = true.

(** Day, month and year with a slash after each of the first two. *)
Definition dob_shape (s : pystr) : Prop :=
  exists dd mm yyyy,
    s = dd ++ 47 :: mm ++ 47 :: yyyy /\
    day_or_month dd /\ day_or_month mm /\ digits 4 yyyy.

(** The Unicode database classifies every decimal digit as a digit. *)
Definition decimal_is_digit : Prop :=
  forall c, ucd_isdecimal U c = true -> ucd_isdigit U c = true.

End FieldVocabulary.

(** ** The OCR path *)

Section OcrVocabulary.

Variables Image Array : Type.
Variable np_array : Image -> Array.
Variable np_ones : nat * nat -> Array.
Variable cv2_cvtColor : Array -> color_conversion -> Array.
Variable cv2_adaptiveThreshold : Array -> N -> N -> N -> Array.
Variable cv2_medianBlur : Array -> N -> Array.
Variable cv2_dilate : Array -> Array -> nat -> Array.
Variable image_to_string : Array -> pystr -> outcome pystr.

(** What Tesseract answers on an image, as the module calls it. *)
Definition ocr_answer (image : Image) : outcome pystr :=
  image_to_string
    (preprocess_image np_array np_ones cv2_cvtColor cv2_adaptiveThreshold
                      cv2_medianBlur cv2_dilate image)
    (str "--oem 3 --psm 6 -l eng+tam").

(** What the loop over the images returns, or the exception it raises at
    the first image on which the engine raises. *)
Fixpoint ocr_result (extracted_text : pystr) (images : list Image)
  : outcome pystr :=
  match images with
  | [] => Ret extracted_text
  | image :: images' =>
      match ocr_answer image with
      | Ret text => ocr_result (extracted_text ++ text ++ [NL]) images'
      | Raise e => Raise (Exception (str "OCR processing failed: " ++ exn_str e))
      end
  end.

(** The images that are handed to the engine: every image up to and with
    the first one on which it raises. *)
Fixpoint images_read (images : list Image) : list Image :=
  match images with
  | [] => []
  | image :: images' =>
      image :: match ocr_answer image with
               | Ret _ => images_read images'
               | Raise _ => []
               end
  end.

End OcrVocabulary.

(** * Properties *)

(** ** The validator *)

(** Replacing every [" "] by [""] removes the characters U+0020 and keeps the
    others in order. *)
Lemma replace_space_filter (s : pystr) :
  py_replace (str " ") (str "") s = filter not_space s.
Proof.
  change (str " ") with [32]. change (str "") with (@nil N).
  unfold py_replace.
  induction s as [|c s IH]; [reflexivity|].
  cbn [replace_go startswith filter List.length Nat.pred app].
  unfold not_space. rewrite andb_true_r, (N.eqb_sym 32 c).
  destruct (c =? 32); cbn [negb]; rewrite IH; reflexivity.
Qed.

Lemma py_isdigit_forallb (U : unicode_data) (t : pystr) :
  py_isdigit U t = true <-> t <> [] /\ forallb (py_isdigit_char U) t = true.
Proof.
  destruct t as [|c t]; cbn [py_isdigit].
  - split; [discriminate | intros [H _]; contradiction].
  - split; [intros H; split; [discriminate | exact H] | intros [_ H]; exact H].
Qed.

Lemma py_isdigit_char_cases (U : unicode_data) (c : N) :
  py_isdigit_char U c = true <->
  is_ascii_digit c = true \/ (128 <= c /\ ucd_isdigit U c = true).
Proof.
  unfold py_isdigit_char, is_ascii, is_ascii_digit.
  destruct (N.ltb_spec c 128) as [Hlt|Hge].
  - split; [intros H; left; exact H|].
    intros [H|[H _]]; [exact H | lia].
  - split; [intros H; right; split; [exact Hge | exact H]|].
    intros [H|[_ H]]; [|exact H].
    apply andb_true_iff in H. destruct H as [_ H]. apply N.leb_le in H. lia.
Qed.

(** C6, as the code has it: [validate_aadhaar s] is true exactly when [s]
    without its space characters U+0020 is non-empty, is twelve characters
    long, and consists of characters that [str.isdigit] accepts: the ASCII
    digits, and the characters beyond ASCII that the Unicode database
    classifies as digits. *)
Theorem validate_aadhaar_iff (U : unicode_data) (s : pystr) :
  validate_aadhaar U s = true <->
  filter not_space s <> [] /\
  Forall (fun c => is_ascii_digit c = true \/
                   (128 <= c /\ ucd_isdigit U c = true))
         (filter not_space s) /\
  List.length (filter not_space s) = 12%nat.
Proof.
  unfold validate_aadhaar. rewrite replace_space_filter.
  set (t := filter not_space s).
  rewrite !andb_true_iff, Nat.eqb_eq.
  assert (Hd : forallb (py_isdigit_char U) t = true <->
               Forall (fun c => is_ascii_digit c = true \/
                                (128 <= c /\ ucd_isdigit U c = true)) t).
  { rewrite forallb_forall, Forall_forall.
    split; intros H c Hc; apply py_isdigit_char_cases, H, Hc. }
  split.
  - intros [[_ H2] H3]. apply py_isdigit_forallb in H2. destruct H2 as [Hne Hall].
    repeat split; [exact Hne | apply Hd, Hall | exact H3].
  - intros [Hne [Hall H3]]. repeat split; [| | exact H3].
    + destruct t; [contradiction | reflexivity].
    + apply py_isdigit_forallb. split; [exact Hne | apply Hd, Hall].
Qed.

(** C6, counterexample: twelve Devanagari digits are accepted, and none of
    them is an ASCII digit. *)
Lemma validate_aadhaar_accepts_devanagari :
  validate_aadhaar ucd_excerpt devanagari_ones = true /\
  ~ validate_aadhaar_ascii_only ucd_excerpt.
Proof.
  assert (Hv : validate_aadhaar ucd_excerpt devanagari_ones = true)
    by (vm_compute; reflexivity).
  split; [exact Hv|].
  intros H. apply (H devanagari_ones) in Hv.
  destruct Hv as [_ [Hall _]].
  vm_compute in Hall. inversion Hall as [|c l Hc _]. discriminate Hc.
Qed.

(** C7: a space put between two parts of a string does not change the
    verdict of the validator. *)
Theorem validate_aadhaar_ignores_inserted_space (U : unicode_data)
    (a b : pystr) :
  validate_aadhaar U (a ++ str " " ++ b) = validate_aadhaar U (a ++ b).
Proof.
  unfold validate_aadhaar. rewrite !replace_space_filter.
  change (str " ") with [32].
  rewrite !filter_app. cbn [filter not_space N.eqb Pos.eqb negb app].
  reflexivity.
Qed.

(** ** The matcher *)

Section MatcherFacts.

Variable U : unicode_data.
Variable fl : re_flags.

(** A repetition hands to the rest of the pattern a state with the groups it
    was given. *)
Lemma rep_greedy_caps (a : atom) (rest : pystr) :
  forall min max prev pos caps k e,
    rep_greedy U fl a min max prev pos caps rest k = Some e ->
    exists st', k st' = Some e /\ m_caps st' = caps.
Proof.
  induction rest as [|c rest IH]; intros min max prev pos caps k e H;
    cbn [rep_greedy] in H.
  - destruct min; [|discriminate]. eexists; split; [exact H | reflexivity].
  - destruct (can_take max && atom_match U fl a c).
    + destruct (rep_greedy U fl a (Nat.pred min) (dec_max max) (Some c) (S pos)
                  caps rest k) eqn:E.
      * inversion H; subst. apply IH in E. exact E.
      * destruct min; [|discriminate].
        eexists; split; [exact H | reflexivity].
    + destruct min; [|discriminate].
      eexists; split; [exact H | reflexivity].
Qed.

Lemma rep_lazy_caps (a : atom) (rest : pystr) :
  forall min max prev pos caps k e,
    rep_lazy U fl a min max prev pos caps rest k = Some e ->
    exists st', k st' = Some e /\ m_caps st' = caps.
Proof.
  induction rest as [|c rest IH]; intros min max prev pos caps k e H;
    cbn [rep_lazy] in H.
  - destruct min; [|discriminate].
    destruct (k {| m_prev := prev; m_pos := pos; m_rest := []; m_caps := caps |})
      eqn:E; [|discriminate].
    inversion H; subst. eexists; split; [exact E | reflexivity].
  - destruct min.
    + destruct (k {| m_prev := prev; m_pos := pos; m_rest := c :: rest;
                     m_caps := caps |}) eqn:E.
      * inversion H; subst. eexists; split; [exact E | reflexivity].
      * destruct (can_take max && atom_match U fl a c); [|discriminate].
        apply IH in H. exact H.
    + destruct (can_take max && atom_match U fl a c); [|discriminate].
      apply IH in H. exact H.
Qed.

Lemma lookup_cap_close (n i : nat) (st st' : mstate) :
  Nat.eqb i n = true \/ has_cap n st' -> has_cap n (close_group i st st').
Proof.
  unfold has_cap, close_group. cbn [m_caps lookup_cap].
  intros [H|H].
  - rewrite H. discriminate.
  - destruct (Nat.eqb i n); [discriminate | exact H].
Qed.

(** A successful match reaches the rest of the pattern with the groups that
    the pattern closes, and with those closed before. *)
Lemma m_closes (r : regex) :
  forall st k e,
    m U fl r st k = Some e ->
    exists st', k st' = Some e /\
      forall n, closes n r = true \/ has_cap n st -> has_cap n st'.
Proof.
  induction r as [|a|a min max greedy|r1 IH1 r2 IH2|r1 IH1 r2 IH2|i r IH| | | |r IH];
    intros st k e H; cbn [m] in H.
  - exists st. split; [exact H|]. intros n [Hn|Hn]; [discriminate | exact Hn].
  - destruct (m_rest st) as [|c rest']; [discriminate|].
    destruct (atom_match U fl a c); [|discriminate].
    eexists; split; [exact H|]. intros n [Hn|Hn]; [discriminate | exact Hn].
  - assert (Hc : exists st', k st' = Some e /\ m_caps st' = m_caps st).
    { destruct greedy; [eapply rep_greedy_caps | eapply rep_lazy_caps]; exact H. }
    destruct Hc as [st' [Hk Hcaps]]. exists st'. split; [exact Hk|].
    intros n [Hn|Hn]; [discriminate|]. unfold has_cap. rewrite Hcaps. exact Hn.
  - apply IH1 in H. destruct H as [st1 [H H1]].
    apply IH2 in H. destruct H as [st2 [H H2]].
    exists st2. split; [exact H|].
    intros n [Hn|Hn]; apply H2.
    + cbn [closes] in Hn. apply orb_true_iff in Hn. destruct Hn as [Hn|Hn].
      * right. apply H1. left. exact Hn.
      * left. exact Hn.
    + right. apply H1. right. exact Hn.
  - destruct (m U fl r1 st k) eqn:E.
    + inversion H; subst. apply IH1 in E. destruct E as [st' [Hk H1]].
      exists st'. split; [exact Hk|].
      intros n [Hn|Hn]; apply H1; [left | right; exact Hn].
      cbn [closes] in Hn. apply andb_true_iff in Hn. apply Hn.
    + apply IH2 in H. destruct H as [st' [Hk H2]].
      exists st'. split; [exact Hk|].
      intros n [Hn|Hn]; apply H2; [left | right; exact Hn].
      cbn [closes] in Hn. apply andb_true_iff in Hn. apply Hn.
  - apply IH in H. destruct H as [st' [Hk H1]].
    exists (close_group i st st'). split; [exact Hk|].
    intros n [Hn|Hn]; apply lookup_cap_close.
    + cbn [closes] in Hn. apply orb_true_iff in Hn. destruct Hn as [Hn|Hn].
      * left. exact Hn.
      * right. apply H1. left. exact Hn.
    + right. apply H1. right. exact Hn.
  - destruct (at_begin st); [|discriminate].
    exists st. split; [exact H|]. intros n [Hn|Hn]; [discriminate | exact Hn].
  - destruct (at_end st); [|discriminate].
    exists st. split; [exact H|]. intros n [Hn|Hn]; [discriminate | exact Hn].
  - destruct (at_boundary U st); [|discriminate].
    exists st. split; [exact H|]. intros n [Hn|Hn]; [discriminate | exact Hn].
  - destruct (m U fl r st Some) as [st1|] eqn:E; [|discriminate].
    apply IH in E. destruct E as [st' [Hk H1]]. inversion Hk; subst st'.
    exists (with_caps st st1). split; [exact H|].
    intros n Hn. unfold has_cap, with_caps. cbn [m_caps]. apply H1.
    destruct Hn as [Hn|Hn]; [left | right]; exact Hn.
Qed.

Lemma attempt_closes (r : regex) (adv : bool) (st e : mstate) (n : nat) :
  attempt U fl r adv st = Some e -> closes n r = true -> has_cap n e.
Proof.
  unfold attempt. intros H Hn. apply m_closes in H.
  destruct H as [st' [Hk H]].
  destruct (adv && Nat.eqb (m_pos st') (m_pos st)); [discriminate|].
  inversion Hk; subst. apply H. left. exact Hn.
Qed.

(** What [re.search] returns comes from one successful attempt. *)
Lemma search_go_attempt (r : regex) (rest : pystr) :
  forall prev pos mo,
    search_go U fl r prev pos rest = Some mo ->
    exists prev' pos' rest' e,
      attempt U fl r false (start_state prev' pos' rest') = Some e /\
      mo = make_match (start_state prev' pos' rest') e.
Proof.
  induction rest as [|c rest IH]; intros prev pos mo H; cbn [search_go] in H.
  - destruct (attempt U fl r false (start_state prev pos [])) eqn:E; [|discriminate].
    inversion H; subst. do 4 eexists. split; [exact E | reflexivity].
  - destruct (attempt U fl r false (start_state prev pos (c :: rest))) eqn:E.
    + inversion H; subst. do 4 eexists. split; [exact E | reflexivity].
    + apply IH in H. exact H.
Qed.

(** A group that the pattern always closes is there to be read. *)
Lemma group_of_search (r : regex) (text : pystr) (mo : match_obj) (n : nat) :
  re_search U fl r text = Some mo ->
  closes n r = true -> Nat.ltb (ngroups r) n = false ->
  exists g, group r mo n = Ret g.
Proof.
  intros H Hn Hlt. unfold re_search in H. apply search_go_attempt in H.
  destruct H as [prev [pos [rest [e [H Hmo]]]]]. subst mo.
  apply attempt_closes with (n := n) in H; [|exact Hn].
  unfold group. destruct n; [eexists; reflexivity|].
  rewrite Hlt. cbn [make_match mo_groups]. unfold has_cap in H.
  destruct (lookup_cap (S n) (m_caps e)); [eexists; reflexivity | contradiction].
Qed.

(** [re.split] never returns the empty list. *)
Lemma pieces_go_not_nil (r : regex) (rest : pystr) :
  forall skip cur prev pos, pieces_go U fl r skip cur prev pos rest <> [].
Proof.
  induction rest as [|c rest IH]; intros skip cur prev pos;
    cbn [pieces_go]; destruct skip.
  - destruct (attempt U fl r false (start_state prev pos [])) as [e|];
      [destruct (Nat.eqb (m_pos e) pos)|]; discriminate.
  - discriminate.
  - destruct (attempt U fl r false (start_state prev pos (c :: rest))) as [e|];
      [destruct (Nat.eqb (m_pos e) pos)|]; try discriminate. apply IH.
  - apply IH.
Qed.

Lemma first_item_of_split (r : regex) (text : pystr) :
  exists p, first_item (re_split U fl r text) = Ret p.
Proof.
  unfold re_split, re_pieces.
  destruct (pieces_go U fl r 0 [] None 0 text) eqn:E.
  - exfalso. exact (pieces_go_not_nil _ _ _ _ _ _ E).
  - eexists. reflexivity.
Qed.

End MatcherFacts.

(** ** The parser *)

Section ParserFacts.

Variable U : unicode_data.

Lemma extract_name_total (lines : list pystr) :
  exists n, extract_name_from_text U lines = Ret n.
Proof.
  induction lines as [|line lines IH]; cbn [extract_name_from_text].
  - eexists; reflexivity.
  - match goal with |- context [if ?c then _ else _] => destruct c end; [|exact IH].
    destruct (first_item_of_split U re_I RELATION_SPLIT_RE (py_strip line)) as [p Hp].
    rewrite Hp. eexists; reflexivity.
Qed.

Lemma obind_step {A B : Type} (x : outcome A) (k : A -> outcome B) a r :
  x = Ret a -> k a = r -> obind x k = r.
Proof. intros -> <-. reflexivity. Qed.

Lemma step_eq fl r text n (v : pystr -> AadhaarData -> AadhaarData) data :
  closes n r = true -> Nat.ltb (ngroups r) n = false ->
  match re_search U fl r text with
  | Some mo => obind (group r mo n) (fun g => Ret (v g data))
  | None => Ret data
  end = Ret (stored (re_search U fl r text) r n v data).
Proof.
  intros Hc Hn. unfold stored.
  destruct (re_search U fl r text) as [mo|] eqn:E; [|reflexivity].
  destruct (group_of_search U fl r text n E Hc Hn) as [g Hg].
  rewrite Hg. reflexivity.
Qed.

Lemma aadhaar_step_eq text data :
  match re_search U no_flags AADHAAR_RE text with
  | Some mo =>
      obind (group AADHAAR_RE mo 1) (fun g =>
        if validate_aadhaar U (py_replace (str " ") (str "") g)
        then Ret (set_aadhaar_number g data)
        else Ret (set_aadhaar_number g data))
  | None => Ret data
  end = Ret (stored (re_search U no_flags AADHAAR_RE text) AADHAAR_RE 1
                    set_aadhaar_number data).
Proof.
  unfold stored.
  destruct (re_search U no_flags AADHAAR_RE text) as [mo|] eqn:E; [|reflexivity].
  destruct (group_of_search U no_flags AADHAAR_RE text 1 E eq_refl eq_refl)
    as [g Hg].
  rewrite Hg. cbn [obind].
  destruct (validate_aadhaar U (py_replace (str " ") (str "") g)); reflexivity.
Qed.

(** A step leaves alone the fields it does not set. *)
Lemma stored_other (f : AadhaarData -> pystr) found r n v data :
  (forall g d, f (v g d) = f d) -> f (stored found r n v data) = f data.
Proof.
  intros H. unfold stored. destruct found as [mo|]; [|reflexivity].
  destruct (group r mo n); [apply H | reflexivity].
Qed.

Lemma stored_own (f : AadhaarData -> pystr) fl r text n post v data :
  closes n r = true -> Nat.ltb (ngroups r) n = false ->
  (forall g d, f (v g d) = post g) -> f data = [] ->
  field_of (re_search U fl r text) r n post
           (f (stored (re_search U fl r text) r n v data)).
Proof.
  intros Hc Hn Hv Hd. unfold stored, field_of.
  destruct (re_search U fl r text) as [mo|] eqn:E; [|exact Hd].
  destruct (group_of_search U fl r text n E Hc Hn) as [g Hg].
  rewrite Hg. exists g. split; [reflexivity | apply Hv].
Qed.

Lemma tamil_step_eq text data :
  match re_search U no_flags TAMIL_NAME_RE text with
  | Some mo =>
      obind (group TAMIL_NAME_RE mo 1) (fun g1 =>
      obind (group TAMIL_NAME_RE mo 2) (fun g2 =>
      obind (first_item (re_split U re_I RELATION_SPLIT_RE
                           (py_replace [NL] (str " ") (py_strip g2))))
            (fun first =>
         Ret (set_name (clean_name U first)
                       (set_name_tamil (py_strip g1) data)))))
  | None => Ret data
  end = Ret (tamil_stored U (re_search U no_flags TAMIL_NAME_RE text) data).
Proof.
  unfold tamil_stored.
  destruct (re_search U no_flags TAMIL_NAME_RE text) as [mo|] eqn:E; [|reflexivity].
  destruct (group_of_search U no_flags TAMIL_NAME_RE text 1 E eq_refl eq_refl)
    as [g1 Hg1].
  destruct (group_of_search U no_flags TAMIL_NAME_RE text 2 E eq_refl eq_refl)
    as [g2 Hg2].
  rewrite Hg1, Hg2. cbn [obind].
  destruct (first_item_of_split U re_I RELATION_SPLIT_RE
              (py_replace [NL] (str " ") (py_strip g2))) as [first Hf].
  rewrite Hf. reflexivity.
Qed.

Lemma fallback_step_eq (c : bool) (n : pystr) (data : AadhaarData) :
  (if c then obind (Ret n) (fun n => Ret (set_name n data)) else Ret data)
  = Ret (if c then set_name n data else data).
Proof. destruct c; reflexivity. Qed.

Lemma tamil_stored_other (f : AadhaarData -> pystr) found data :
  (forall a b d, f (set_name a (set_name_tamil b d)) = f d) ->
  f (tamil_stored U found data) = f data.
Proof.
  intros H. unfold tamil_stored. destruct found as [mo|]; [|reflexivity].
  destruct (group TAMIL_NAME_RE mo 1); [|reflexivity].
  destruct (group TAMIL_NAME_RE mo 2); [|reflexivity].
  destruct (first_item _); [apply H | reflexivity].
Qed.

Lemma fallback_other (f : AadhaarData -> pystr) (c : bool) n data :
  (forall a d, f (set_name a d) = f d) ->
  f (if c then set_name n data else data) = f data.
Proof. intros H. destruct c; [apply H | reflexivity]. Qed.

Lemma tamil_stored_name_tamil text data :
  name_tamil data = [] ->
  field_of (re_search U no_flags TAMIL_NAME_RE text) TAMIL_NAME_RE 1 py_strip
    (name_tamil (tamil_stored U (re_search U no_flags TAMIL_NAME_RE text) data)).
Proof.
  intros Hd. unfold tamil_stored, field_of.
  destruct (re_search U no_flags TAMIL_NAME_RE text) as [mo|] eqn:E; [|exact Hd].
  destruct (group_of_search U no_flags TAMIL_NAME_RE text 1 E eq_refl eq_refl)
    as [g1 Hg1].
  destruct (group_of_search U no_flags TAMIL_NAME_RE text 2 E eq_refl eq_refl)
    as [g2 Hg2].
  rewrite Hg1, Hg2.
  destruct (first_item_of_split U re_I RELATION_SPLIT_RE
              (py_replace [NL] (str " ") (py_strip g2))) as [first Hf].
  rewrite Hf. exists g1. split; reflexivity.
Qed.

Lemma tamil_stored_name text fallback data :
  extract_name_from_text U (text_lines text) = Ret fallback ->
  name data = [] ->
  let T := tamil_stored U (re_search U no_flags TAMIL_NAME_RE text) data in
  name_of U text (name (if negb (truthy (name T)) then set_name fallback T else T)).
Proof.
  intros Hfb Hd T. subst T. unfold tamil_stored, name_of.
  exists fallback. split; [exact Hfb|].
  destruct (re_search U no_flags TAMIL_NAME_RE text) as [mo|] eqn:E.
  - destruct (group_of_search U no_flags TAMIL_NAME_RE text 1 E eq_refl eq_refl)
      as [g1 Hg1].
    destruct (group_of_search U no_flags TAMIL_NAME_RE text 2 E eq_refl eq_refl)
      as [g2 Hg2].
    rewrite Hg1, Hg2.
    destruct (first_item_of_split U re_I RELATION_SPLIT_RE
                (py_replace [NL] (str " ") (py_strip g2))) as [first Hf].
    rewrite Hf. exists g2, first. split; [reflexivity|]. split; [exact Hf|].
    cbn [name set_name set_name_tamil].
    destruct (truthy (clean_name U first)); reflexivity.
  - rewrite Hd. reflexivity.
Qed.

Ltac untouched f :=
  repeat first
    [ rewrite (stored_other f) by (intros; reflexivity)
    | rewrite (fallback_other f) by (intros; reflexivity)
    | rewrite (tamil_stored_other f) by (intros; reflexivity) ].

Ltac own_field f :=
  untouched f;
  apply (stored_own f);
  [ reflexivity | reflexivity | intros; reflexivity
  | untouched f; reflexivity ].

Lemma parse_record (text : pystr) :
  exists d, parse_aadhaar_details U text = Ret d /\ parsed_from U text d.
Proof.
  unfold parse_aadhaar_details. fold (text_lines text).
  destruct (extract_name_total (text_lines text)) as [fallback Hfb].
  rewrite Hfb.
  eexists. split.
  - eapply obind_step; [ apply aadhaar_step_eq| cbn beta ].
    eapply obind_step; [ apply step_eq; reflexivity | cbn beta ].
    eapply obind_step; [ apply tamil_step_eq | cbn beta ].
    eapply obind_step; [ apply fallback_step_eq | cbn beta ].
    eapply obind_step;
      [ apply (step_eq re_I GUARDIAN_RE text 2
                 (fun g d => set_guardian_name (py_strip g) d)); reflexivity
      | cbn beta ].
    eapply obind_step;
      [ apply (step_eq re_I DOB_RE text 2
                 (fun g d => set_dob (py_replace (str "-") (str "/") g) d));
        reflexivity
      | cbn beta ].
    eapply obind_step;
      [ apply (step_eq re_I GENDER_RE text 1
                 (fun g d => set_gender (py_capitalize U g) d)); reflexivity
      | cbn beta ].
    eapply obind_step;
      [ apply (step_eq re_I_S ADDRESS_RE text 1
                 (fun g d => set_address (clean_address U g) d)); reflexivity
      | cbn beta ].
    eapply obind_step;
      [ apply (step_eq re_I DISTRICT_RE text 1
                 (fun g d => set_district
                               (py_replace (str ",") (str "") (py_strip g)) d));
        reflexivity
      | cbn beta ].
    eapply obind_step;
      [ apply (step_eq re_I STATE_RE text 1
                 (fun g d => set_state
                               (py_rstrip_chars (str ",") (py_strip g)) d));
        reflexivity
      | cbn beta ].
    eapply obind_step; [ apply step_eq; reflexivity | cbn beta ].
    eapply obind_step; [ apply step_eq; reflexivity | cbn beta ].
    reflexivity.
  - unfold parsed_from. repeat split.
    + own_field aadhaar_number.
    + own_field vid.
    + untouched name_tamil. apply tamil_stored_name_tamil.
      untouched name_tamil. reflexivity.
    + untouched name. apply tamil_stored_name; [exact Hfb|].
      untouched name. reflexivity.
    + own_field guardian_name.
    + own_field dob.
    + own_field gender.
    + own_field address.
    + own_field district.
    + own_field state.
    + own_field pincode.
    + own_field phone.
Qed.
End ParserFacts.

(** ** The gender token *)

Ltac n_cases :=
  repeat match goal with
    | H : context [N.leb ?a ?b] |- _ => destruct (N.leb_spec a b)
    | |- context [N.leb ?a ?b] => destruct (N.leb_spec a b)
    | H : context [N.ltb ?a ?b] |- _ => destruct (N.ltb_spec a b)
    | |- context [N.ltb ?a ?b] => destruct (N.ltb_spec a b)
    | H : context [N.eqb ?a ?b] |- _ => destruct (N.eqb_spec a b)
    | |- context [N.eqb ?a ?b] => destruct (N.eqb_spec a b)
    end.

Section GenderFacts.

Variable U : unicode_data.

(** The characters that match a plain letter. *)
Lemma ignorecase_plain_letter (x c : N) :
  plain_letter x = true -> matches_ignorecase U x c ->
  c = ascii_tolower x \/ c = ascii_toupper x \/
  (ascii_tolower x = 115 /\ c = LONG_S).
Proof.
  unfold plain_letter, matches_ignorecase, atom_match.
  cbn [IGNORECASE re_I andb].
  intros Hx. apply andb_true_iff in Hx. destruct Hx as [Hx Hk].
  apply andb_true_iff in Hx. destruct Hx as [Hx Hi].
  rewrite Hx. unfold lower_with_fixes, mem, ignorecase_fixes.
  apply negb_true_iff in Hi, Hk. rewrite Hi.
  assert (Hlo : 97 <= ascii_tolower x <= 122 /\
                ascii_toupper x = ascii_tolower x - 32).
  { clear Hi Hk. unfold ascii_tolower, ascii_toupper, is_ascii_letter in *.
    unfold is_ascii_upper, is_ascii_lower in *.
    n_cases; cbn in *; try discriminate; lia. }
  destruct Hlo as [Hlo Hup]. rewrite Hup.
  set (lo := ascii_tolower x) in *.
  assert (Hsame : tolower U c = lo -> c = lo \/ c = lo - 32).
  { unfold tolower, is_ascii. destruct (N.ltb_spec c 128) as [Hc|Hc].
    - unfold ascii_tolower. unfold is_ascii_upper. n_cases; cbn; lia.
    - intros He. apply N.eqb_neq in Hi, Hk.
      destruct (ucd_tolower_ascii U Hc) as [[_ H]|[_ H]];
        [lia | | ]; rewrite He in H; contradiction. }
  assert (Hlong : tolower U c = LONG_S -> c = LONG_S).
  { unfold tolower, is_ascii. destruct (N.ltb_spec c 128) as [Hc|Hc].
    - unfold ascii_tolower, LONG_S. unfold is_ascii_upper. n_cases; cbn; lia.
    - apply (ucd_tolower_long_s U Hc). }
  destruct (N.eqb_spec lo 115) as [Hs|Hs]; cbn [existsb]; intros H.
  - apply orb_true_iff in H. destruct H as [H|H].
    + apply N.eqb_eq in H. destruct (Hsame H) as [H'|H']; [left | right; left]; exact H'.
    + rewrite orb_false_r in H. apply N.eqb_eq in H.
      right; right. split; [exact Hs | apply Hlong, H].
  - rewrite orb_false_r in H. apply N.eqb_eq in H.
    destruct (Hsame H) as [H'|H']; [left | right; left]; exact H'.
Qed.

(** What [str.lower] and the title case make of such a character. *)
Lemma lower_of_match (x c : N) :
  plain_letter x = true -> matches_ignorecase U x c ->
  lower_char U c = [ascii_tolower x] \/
  (ascii_tolower x = 115 /\ lower_char U c = [LONG_S]).
Proof.
  intros Hx Hm. pose proof (ignorecase_plain_letter Hx Hm) as H.
  unfold plain_letter in Hx. apply andb_true_iff in Hx. destruct Hx as [Hx _].
  apply andb_true_iff in Hx. destruct Hx as [Hx _].
  destruct H as [H|[H|[Hs H]]].
  - left. subst c. unfold lower_char, is_ascii, ascii_tolower, is_ascii_letter in *.
    unfold is_ascii_upper, is_ascii_lower in *.
    n_cases; cbn in *; try discriminate; try lia; reflexivity.
  - left. subst c.
    unfold lower_char, is_ascii, ascii_tolower, ascii_toupper, is_ascii_letter in *.
    unfold is_ascii_upper, is_ascii_lower in *.
    n_cases; cbn in *; try discriminate; try lia; f_equal; lia.
  - right. split; [exact Hs|]. subst c. apply ucd_lower_long_s.
Qed.

Lemma title_of_match (x c : N) :
  plain_letter x = true -> matches_ignorecase U x c ->
  ascii_tolower x <> 115 -> title_char U c = [ascii_toupper x].
Proof.
  intros Hx Hm Hs. pose proof (ignorecase_plain_letter Hx Hm) as H.
  unfold plain_letter in Hx. apply andb_true_iff in Hx. destruct Hx as [Hx _].
  apply andb_true_iff in Hx. destruct Hx as [Hx _].
  destruct H as [H|[H|[Hs' _]]]; [| |contradiction]; subst c;
    unfold title_char, is_ascii, ascii_tolower, ascii_toupper, is_ascii_letter in *;
    unfold is_ascii_upper, is_ascii_lower in *;
    n_cases; cbn in *; try discriminate; try lia; f_equal; lia.
Qed.

Lemma lower_of_matched (w g : pystr) :
  forallb plain_letter w = true -> Forall2 (matches_ignorecase U) w g ->
  Forall2 lowered w (py_lower U g).
Proof.
  intros Hw H. induction H as [|x c w g Hxc H IH]; [constructor|].
  cbn [forallb] in Hw. apply andb_true_iff in Hw. destruct Hw as [Hx Hw].
  unfold py_lower. cbn [flat_map]. fold (py_lower U g).
  destruct (lower_of_match Hx Hxc) as [Hl|[Hs Hl]]; rewrite Hl; cbn [app];
    constructor; try (apply IH, Hw).
  - left. reflexivity.
  - right. split; [exact Hs | reflexivity].
Qed.

(** A run of literals matches as many characters, one for one. *)
Lemma m_lit_run (fl : re_flags) (w : pystr) :
  forall st k e,
    m U fl (cat (map (fun c => RAtom (ALit c)) w)) st k = Some e ->
    exists g st',
      Forall2 (fun x c => atom_match U fl (ALit x) c = true) w g /\
      m_rest st = g ++ m_rest st' /\
      m_pos st' = (m_pos st + List.length g)%nat /\
      m_caps st' = m_caps st /\ k st' = Some e.
Proof.
  induction w as [|x w IH]; intros st k e H.
  - exists [], st. cbn in H. repeat split; [constructor | | exact H].
    rewrite Nat.add_0_r. reflexivity.
  - assert (Hstep : exists c rest', m_rest st = c :: rest' /\
                      atom_match U fl (ALit x) c = true /\
                      m U fl (cat (map (fun c => RAtom (ALit c)) w))
                        (advance st c rest') k = Some e).
    { destruct w as [|y w]; cbn [map cat m] in H;
        destruct (m_rest st) as [|c rest']; try discriminate;
        destruct (atom_match U fl (ALit x) c) eqn:Ea; try discriminate;
        exists c, rest'; (split; [reflexivity|split; [exact Ea | exact H]]). }
    destruct Hstep as [c [rest' [Hrest [Ha Hm]]]].
    apply IH in Hm. destruct Hm as [g [st' [Hg [Hr [Hp [Hc Hk]]]]]].
    exists (c :: g), st'. cbn [advance m_rest m_pos m_caps] in *.
    repeat split; [constructor; assumption | | | exact Hc | exact Hk].
    + rewrite Hrest, Hr. reflexivity.
    + rewrite Hp. cbn [List.length]. lia.
Qed.

Lemma m_alt_cases (fl : re_flags) (rs : list regex) :
  rs <> [] -> forall st k e,
    m U fl (alt rs) st k = Some e ->
    exists r, In r rs /\ m U fl r st k = Some e.
Proof.
  induction rs as [|r rs IH]; [contradiction|]. intros _ st k e H.
  destruct rs as [|r' rs].
  - exists r. split; [left; reflexivity | exact H].
  - cbn [alt m] in H. fold (alt (r' :: rs)) in H.
    destruct (m U fl r st k) eqn:E.
    + exists r. split; [left; reflexivity|]. rewrite E. exact H.
    + apply IH in H; [|discriminate]. destruct H as [r0 [Hin Hr0]].
      exists r0. split; [right; exact Hin | exact Hr0].
Qed.

(** When [GENDER_RE] is found, its group holds a word that matches one of
    the words of the vocabulary, character for character. *)
Lemma gender_group (text : pystr) (mo : match_obj) :
  re_search U re_I GENDER_RE text = Some mo ->
  exists w g,
    In w gender_words /\ group GENDER_RE mo 1 = Ret g /\
    Forall2 (matches_ignorecase U) (str w) g.
Proof.
  intros H. unfold re_search in H. apply search_go_attempt in H.
  destruct H as [prev [pos [rest [e [H Hmo]]]]]. subst mo.
  unfold attempt in H. cbn [andb] in H.
  change GENDER_RE with
    (RSeq RWordB (RSeq (RGroup 1 (alt (map lit gender_words))) RWordB)) in H.
  cbn [m] in H.
  destruct (at_boundary U (start_state prev pos rest)); [|discriminate].
  apply m_alt_cases in H; [|discriminate].
  destruct H as [r [Hin H]].
  apply in_map_iff in Hin. destruct Hin as [w [Hw Hin]]. subst r.
  unfold lit in H. apply m_lit_run in H.
  destruct H as [g [st' [Hg [Hr [Hp [Hc Hk]]]]]].
  destruct (at_boundary U _) in Hk; [|discriminate].
  inversion Hk; subst e. clear Hk.
  exists w, g. split; [exact Hin|]. split; [|exact Hg].
  unfold group. cbn [make_match mo_groups close_group m_caps lookup_cap].
  replace (Nat.ltb (ngroups GENDER_RE) 1) with false by reflexivity.
  cbn [Nat.eqb]. rewrite Hp, Hr. f_equal.
  replace (m_pos (start_state prev pos rest) + List.length g
           - m_pos (start_state prev pos rest))%nat
    with (List.length g + 0)%nat by lia.
  rewrite firstn_app_2. cbn [firstn]. apply app_nil_r.
Qed.

Ltac invert_lowered :=
  repeat match goal with
    | H : Forall2 lowered (_ :: _) _ |- _ => inversion H; subst; clear H
    | H : Forall2 lowered [] _ |- _ => inversion H; subst; clear H
    end;
  repeat match goal with
    | H : lowered _ _ |- _ =>
        let Hs := fresh "Hs" in
        destruct H as [H|[Hs H]];
        [ | try (vm_compute in Hs; discriminate Hs) ];
        vm_compute in H; subst
    end.

Ltac in_list := repeat first [left; reflexivity | right].

(** The capitalised form of a word that matches the vocabulary. *)
Lemma capitalize_gender_word (w : string) (g : pystr) :
  In w gender_words -> Forall2 (matches_ignorecase U) (str w) g ->
  In (py_capitalize U g) gender_values /\
  (List.length g = 1%nat ->
   In (py_capitalize U g) [str "M"; str "F"; str "T"]).
Proof.
  intros Hw Hg. unfold gender_words in Hw. cbn [In] in Hw.
  repeat (destruct Hw as [Hw|Hw];
    [ subst w;
      match type of Hg with
      | Forall2 _ ?s _ => let s' := eval vm_compute in s in change s with s' in Hg
      end;
      inversion Hg as [|x c w' g' Hxc Hg']; subst; clear Hg;
      pose proof (Forall2_length Hg') as Hlen;
      apply (lower_of_matched (w:=_)) in Hg'; [|vm_compute; reflexivity];
      cbn [py_capitalize];
      match type of Hxc with
      | matches_ignorecase _ ?x _ =>
          rewrite (@title_of_match x c) by
            first [exact Hxc | vm_compute; reflexivity | vm_compute; discriminate]
      end;
      remember (py_lower U g') as L eqn:HL; clear HL Hxc;
      invert_lowered;
      (split; [vm_compute; in_list | ]);
      intros H1; cbn [List.length] in Hlen, H1;
      first [ injection H1 as H1; rewrite H1 in Hlen; discriminate Hlen
            | vm_compute; in_list ]
    | ]).
  contradiction.
Qed.

End GenderFacts.

(** ** Text acquisition *)

Section AcquisitionFacts.

Variable Image : Type.
Variable fitz_open : list Byte.byte -> outcome (Document Image).

Lemma quiet_ret {A : Type} (a : A) : quiet (Image:=Image) (ret a).
Proof. intros s. exists []. split; reflexivity. Qed.

Lemma quiet_raise {A : Type} (e : exn) : quiet (Image:=Image) (raise (A:=A) e).
Proof. intros s. exists []. split; reflexivity. Qed.

Lemma quiet_answer {A : Type} (r : outcome A) : quiet (Image:=Image) (answer r).
Proof. intros s. exists []. split; reflexivity. Qed.

Lemma quiet_emit (ev : event) : allowed ev = true -> quiet (Image:=Image) (emit ev).
Proof.
  intros H s. exists [ev]. split; [reflexivity|]. cbn. rewrite H. reflexivity.
Qed.

Lemma quiet_set_doc d : quiet (Image:=Image) (set_doc d).
Proof. intros s. exists []. split; reflexivity. Qed.

Lemma quiet_set_text t : quiet (Image:=Image) (set_text (Image:=Image) t).
Proof. intros s. exists []. split; reflexivity. Qed.

Lemma quiet_read_doc : quiet (Image:=Image) (read_doc (Image:=Image)).
Proof. intros s. exists []. split; reflexivity. Qed.

Lemma quiet_read_text : quiet (Image:=Image) (read_text (Image:=Image)).
Proof. intros s. exists []. split; reflexivity. Qed.

Lemma quiet_bind {A B : Type} (x : M Image A) (f : A -> M Image B) :
  quiet x -> (forall a, quiet (Image:=Image) (f a)) -> quiet (Image:=Image) (bind x f).
Proof.
  intros Hx Hf s. unfold bind. destruct (Hx s) as [e1 [H1 A1]].
  destruct (x s) as [[a|e] s1]; cbn [snd] in H1.
  - destruct (Hf a s1) as [e2 [H2 A2]]. exists (e2 ++ e1). split.
    + rewrite H2, H1. apply app_assoc.
    + rewrite forallb_app, A2, A1. reflexivity.
  - exists e1. split; [exact H1 | exact A1].
Qed.

Lemma quiet_try_except {A : Type} (x : M Image A) (h : exn -> M Image A) :
  quiet x -> (forall e, quiet (Image:=Image) (h e)) -> quiet (Image:=Image) (try_except x h).
Proof.
  intros Hx Hh s. unfold try_except. destruct (Hx s) as [e1 [H1 A1]].
  destruct (x s) as [[a|e] s1]; cbn [snd] in H1.
  - exists e1. split; [exact H1 | exact A1].
  - destruct (Hh e s1) as [e2 [H2 A2]]. exists (e2 ++ e1). split.
    + rewrite H2, H1. apply app_assoc.
    + rewrite forallb_app, A2, A1. reflexivity.
Qed.

Lemma quiet_try_finally {A : Type} (x : M Image A) (f : M Image unit) :
  quiet x -> quiet f -> quiet (Image:=Image) (try_finally x f).
Proof.
  intros Hx Hf s. unfold try_finally. destruct (Hx s) as [e1 [H1 A1]].
  destruct (x s) as [r s1]; cbn [snd] in H1.
  destruct (Hf s1) as [e2 [H2 A2]].
  exists (e2 ++ e1). split.
  - destruct (f s1) as [[u|e] s2]; cbn [snd] in *; rewrite H2, H1; apply app_assoc.
  - rewrite forallb_app, A2, A1. reflexivity.
Qed.

Lemma quiet_for_each {A : Type} (xs : list A) (body : A -> M Image unit) :
  (forall x, quiet (Image:=Image) (body x)) -> quiet (Image:=Image) (for_each xs body).
Proof.
  intros Hb. induction xs as [|x xs IH]; cbn [for_each].
  - apply quiet_ret.
  - apply quiet_bind; [apply Hb | intros _; exact IH].
Qed.

Lemma quiet_the_doc : quiet (Image:=Image) (the_doc (Image:=Image)).
Proof.
  unfold the_doc. apply quiet_bind; [apply quiet_read_doc|].
  intros [d|]; [apply quiet_ret | apply quiet_raise].
Qed.

Ltac quiet_step :=
  first
    [ apply quiet_ret | apply quiet_raise | apply quiet_answer
    | apply quiet_set_doc | apply quiet_set_text | apply quiet_read_doc
    | apply quiet_read_text | apply quiet_the_doc
    | apply quiet_emit; reflexivity
    | apply quiet_for_each; intros ?
    | apply quiet_try_finally
    | apply quiet_try_except; [|intros ?]
    | apply quiet_bind; [|intros ?] ].

Lemma quiet_extract (pdf_bytes : list Byte.byte) (password : option pystr) :
  quiet (Image:=Image) (extract_text_from_pdf_with fitz_open (ret tt) pdf_bytes password).
Proof.
  unfold extract_text_from_pdf_with.
  destruct pdf_bytes as [|b bs]; [apply quiet_raise|].
  repeat first
    [ quiet_step
    | match goal with
      | |- quiet (if ?c then _ else _) => destruct c
      | |- quiet (match ?d with Some _ => _ | None => _ end) => destruct d
      end ].
Qed.

(** The statements below the [raise] are never reached: whatever stands
    there, the function is the same. *)
Lemma below_raise_is_dead (below : M Image unit) pdf_bytes password :
  extract_text_from_pdf_with fitz_open below pdf_bytes password =
  extract_text_from_pdf_with fitz_open (ret tt) pdf_bytes password.
Proof. reflexivity. Qed.

Lemma read_page_step (p : Page Image) (s : frame Image) :
  read_page p s =
  match get_text p with
  | Ret t =>
      (Ret tt, {| v_doc := v_doc s; v_text := v_text s ++ t;
                  log := EvGetText (number p) :: log s |})
  | Raise e =>
      (Raise (Exception (str "Error extracting text from page " ++
                         decimal (number p + 1) ++ str ": " ++ exn_str e)),
       {| v_doc := v_doc s; v_text := v_text s;
          log := EvGetText (number p) :: log s |})
  end.
Proof.
  unfold read_page, try_except, bind, emit, answer, read_text, set_text, raise.
  destruct (get_text p); reflexivity.
Qed.

Lemma for_each_read_page (ps : list (Page Image)) :
  forall s,
    fst (for_each ps (@read_page Image) s) =
      match loop_result ps (v_text s) with
      | Ret _ => Ret tt
      | Raise e => Raise e
      end /\
    v_doc (snd (for_each ps (@read_page Image) s)) = v_doc s /\
    forall t, loop_result ps (v_text s) = Ret t ->
              v_text (snd (for_each ps (@read_page Image) s)) = t.
Proof.
  induction ps as [|p ps IH]; intros s; cbn [for_each loop_result].
  - repeat split. intros t H. inversion H. reflexivity.
  - unfold bind. rewrite read_page_step.
    destruct (get_text p) as [t|e]; cbn [fst snd].
    + specialize (IH {| v_doc := v_doc s; v_text := v_text s ++ t;
                        log := EvGetText (number p) :: log s |}).
      cbn [v_text v_doc] in IH. exact IH.
    + repeat split. intros t H. discriminate H.
Qed.

Lemma loop_result_all (ps : list (Page Image)) :
  forall texts text,
    map (@get_text Image) ps = map Ret texts ->
    loop_result ps text = Ret (text ++ List.concat texts).
Proof.
  induction ps as [|p ps IH]; intros texts text H; destruct texts as [|t texts];
    try discriminate H; cbn [loop_result List.concat].
  - rewrite app_nil_r. reflexivity.
  - cbn [map] in H. inversion H as [[Hp Hps]]. rewrite Hp.
    rewrite (IH texts (text ++ t) Hps). rewrite app_assoc. reflexivity.
Qed.

Lemma loop_result_ret (ps : list (Page Image)) :
  forall text t,
    loop_result ps text = Ret t ->
    exists texts,
      map (@get_text Image) ps = map Ret texts /\ t = text ++ List.concat texts.
Proof.
  induction ps as [|p ps IH]; intros text t H; cbn [loop_result] in H.
  - inversion H. exists []. split; [reflexivity|].
    cbn [List.concat]. rewrite app_nil_r. reflexivity.
  - destruct (get_text p) as [t0|e] eqn:E; [|discriminate H].
    apply IH in H. destruct H as [texts [Hm Ht]].
    exists (t0 :: texts). cbn [map List.concat]. rewrite E, Hm. split; [reflexivity|].
    rewrite Ht, app_assoc. reflexivity.
Qed.

Lemma loop_result_first_failure (before after : list (Page Image)) p e :
  forall texts text,
    map (@get_text Image) before = map Ret texts -> get_text p = Raise e ->
    loop_result (before ++ p :: after) text =
    Raise (Exception (str "Error extracting text from page " ++
                      decimal (number p + 1) ++ str ": " ++ exn_str e)).
Proof.
  induction before as [|q before IH]; intros texts text H Hp;
    destruct texts as [|t texts]; try discriminate H; cbn [app loop_result].
  - rewrite Hp. reflexivity.
  - cbn [map] in H. inversion H as [[Hq Hb]]. rewrite Hq.
    apply (IH texts). exact Hb. exact Hp.
Qed.

Ltac run_monad :=
  cbv beta iota zeta delta
    [bind set_text set_doc try_finally try_except emit answer the_doc
     read_doc read_text raise ret new_frame negb];
  cbn [fst snd v_doc v_text log].

Ltac closing :=
  cbn [v_doc];
  repeat match goal with
    | |- context [doc_bool ?d] => destruct (doc_bool d)
    | |- context [close ?d] => destruct (close d)
    end;
  reflexivity.

Ltac through_pages doc :=
  match goal with
  | |- context [for_each (pages doc) (@read_page Image) ?s0] =>
      let Hf := fresh "Hf" in
      let Hd := fresh "Hd" in
      let Ht := fresh "Ht" in
      let H := fresh "H" in
      pose proof (for_each_read_page (pages doc) s0) as H;
      destruct (for_each (pages doc) (@read_page Image) s0) as [o s'];
      destruct H as [Hf [Hd Ht]];
      cbn [fst snd v_text v_doc] in Hf, Hd, Ht;
      change (str "") with (@nil N) in Hf, Ht;
      destruct (loop_result (pages doc) []) as [text|e];
      [ specialize (Ht text eq_refl) | clear Ht ];
      subst o; run_monad;
      [ subst text; destruct (truthy (py_strip (v_text s')))
      | idtac ];
      unfold rewrap; run_monad;
      try match goal with
          | |- context [existsb ?f passed_through] =>
              destruct (existsb f passed_through)
          end;
      run_monad; rewrite Hd; closing
  end.

Ltac settle :=
  unfold rewrap; cbn [exn_str];
  try match goal with
      | |- context [existsb ?f passed_through] =>
          destruct (existsb f passed_through)
      end;
  run_monad; closing.

Lemma run_extract_text_from_pdf pdf_bytes password :
  run (extract_text_from_pdf fitz_open pdf_bytes password) =
  acquisition_outcome fitz_open pdf_bytes password.
Proof.
  unfold run, extract_text_from_pdf, extract_text_from_pdf_with,
    acquisition_outcome.
  destruct pdf_bytes as [|b bs]; [reflexivity|]. fold (@read_page Image).
  run_monad. destruct (fitz_open (b :: bs)) as [doc|e]; run_monad; [|settle].
  unfold gate. destruct (needs_pass doc).
  - destruct (truthy_opt password); run_monad; [|settle].
    destruct (authenticate doc password) as [[|]|e]; run_monad;
      [through_pages doc | settle | settle].
  - destruct (truthy_opt password); run_monad; [settle | through_pages doc].
Qed.

Lemma allowed_calls (evs : list event) :
  forallb allowed evs = true ->
  existsb is_ocr (rev evs) = false /\
  existsb is_authenticate_again (rev evs) = false.
Proof.
  intros H.
  assert (Hall : forall ev, In ev (rev evs) -> allowed ev = true).
  { intros ev Hin. apply in_rev in Hin.
    rewrite forallb_forall in H. apply H, Hin. }
  split; apply not_true_is_false; intros Hex; apply existsb_exists in Hex;
    destruct Hex as [ev [Hin Hev]]; apply Hall in Hin; unfold allowed in Hin;
    rewrite Hev in Hin; cbn in Hin; try discriminate Hin;
    rewrite andb_false_r in Hin; discriminate Hin.
Qed.

Lemma calls_of_extract pdf_bytes password :
  existsb is_ocr (calls (extract_text_from_pdf fitz_open pdf_bytes password))
    = false /\
  existsb is_authenticate_again
    (calls (extract_text_from_pdf fitz_open pdf_bytes password)) = false.
Proof.
  unfold calls, extract_text_from_pdf.
  rewrite below_raise_is_dead.
  destruct (quiet_extract pdf_bytes password (new_frame Image)) as [evs [Hlog Hall]].
  rewrite Hlog. cbn [new_frame log]. rewrite app_nil_r.
  apply allowed_calls, Hall.
Qed.

Lemma rewrap_raises (e : exn) (text : pystr) : rewrap e <> Ret text.
Proof. unfold rewrap. destruct (existsb _ passed_through); discriminate. Qed.

(** C9: the authentication written below the [raise] of the
    [elif password:] branch is dead code.  For every input the function is
    the same whatever statements stand there, in what it returns or raises
    and in the frame it leaves, so removing them changes nothing; and no run
    makes that call of [doc.authenticate]. *)
Theorem authenticate_again_is_dead pdf_bytes password :
  (forall below : M Image unit,
     extract_text_from_pdf_with fitz_open below pdf_bytes password =
     extract_text_from_pdf fitz_open pdf_bytes password) /\
  extract_text_from_pdf fitz_open pdf_bytes password =
    extract_text_from_pdf_with fitz_open (ret tt) pdf_bytes password /\
  existsb is_authenticate_again
    (calls (extract_text_from_pdf fitz_open pdf_bytes password)) = false.
Proof.
  split; [|split].
  - intros below. unfold extract_text_from_pdf.
    rewrite (below_raise_is_dead below).
    rewrite (below_raise_is_dead (authenticate_again password)). reflexivity.
  - apply below_raise_is_dead.
  - apply calls_of_extract.
Qed.

(** C3, as the code has it: for an unencrypted document and a non-empty
    password the acquisition fails, whatever the password, and the error is
    the generic wrapper around the message of the branch: "Failed to process
    PDF: PDF is not encrypted, password not required".  No text is
    returned. *)
Theorem password_not_needed_is_wrapped pdf_bytes password doc :
  pdf_bytes <> [] -> fitz_open pdf_bytes = Ret doc ->
  needs_pass doc = false -> truthy_opt password = true ->
  run (extract_text_from_pdf fitz_open pdf_bytes password) =
  Raise (Exception
    (str "Failed to process PDF: PDF is not encrypted, password not required")).
Proof.
  intros Hne Hopen Hplain Hpw. rewrite run_extract_text_from_pdf.
  unfold acquisition_outcome, gate.
  destruct pdf_bytes as [|b bs]; [contradiction|].
  rewrite Hopen, Hplain, Hpw. reflexivity.
Qed.

(** C4, as the code has it: the text that the acquisition returns is the
    texts of the pages put end to end in page order, with nothing between
    them. *)
Theorem returned_text_is_concatenation pdf_bytes password text :
  run (extract_text_from_pdf fitz_open pdf_bytes password) = Ret text ->
  exists doc texts,
    fitz_open pdf_bytes = Ret doc /\
    map (@get_text Image) (pages doc) = map Ret texts /\
    text = List.concat texts.
Proof.
  rewrite run_extract_text_from_pdf. unfold acquisition_outcome.
  destruct pdf_bytes as [|b bs]; [discriminate|].
  destruct (fitz_open (b :: bs)) as [doc|e];
    [|intros H; exfalso; exact (rewrap_raises _ H)].
  destruct (gate doc password); [|intros H; exfalso; exact (rewrap_raises _ H)].
  destruct (loop_result (pages doc) []) as [t|e] eqn:El;
    [|intros H; exfalso; exact (rewrap_raises _ H)].
  destruct (truthy (py_strip t)); [|intros H; exfalso; exact (rewrap_raises _ H)].
  intros H. inversion H; subst t.
  apply loop_result_ret in El. destruct El as [texts [Hm Ht]].
  exists doc, texts. repeat split; [exact Hm | exact Ht].
Qed.

(** C2, as the code has it: the acquisition reads the text layers and nothing
    else.  It makes no call to the image preprocessor or to the OCR engine.
    For an unencrypted document read without password: when every page gives
    its text layer, the result is these layers put end to end, so that a page
    whose layer is empty adds nothing, and the acquisition fails with "No
    text could be extracted from the PDF" when the whole is blank; the first
    page whose extraction raises makes the acquisition fail with "Failed to
    process PDF: Error extracting text from page N: ..." for its number N
    counted from one. *)
Theorem text_layers_only pdf_bytes password :
  existsb is_ocr (calls (extract_text_from_pdf fitz_open pdf_bytes password))
    = false /\
  forall doc,
    pdf_bytes <> [] -> fitz_open pdf_bytes = Ret doc ->
    needs_pass doc = false -> truthy_opt password = false ->
    (forall texts,
       map (@get_text Image) (pages doc) = map Ret texts ->
       run (extract_text_from_pdf fitz_open pdf_bytes password) =
       if truthy (py_strip (List.concat texts)) then Ret (List.concat texts)
       else Raise (Exception (str "No text could be extracted from the PDF")))
    /\
    (forall before p after texts e,
       pages doc = before ++ p :: after ->
       map (@get_text Image) before = map Ret texts ->
       get_text p = Raise e ->
       run (extract_text_from_pdf fitz_open pdf_bytes password) =
       Raise (Exception (str "Failed to process PDF: " ++
                         str "Error extracting text from page " ++
                         decimal (number p + 1) ++ str ": " ++ exn_str e))).
Proof.
  split; [apply calls_of_extract|].
  intros doc Hne Hopen Hplain Hpw.
  rewrite run_extract_text_from_pdf. unfold acquisition_outcome, gate.
  destruct pdf_bytes as [|b bs]; [contradiction|].
  rewrite Hopen, Hplain, Hpw. split.
  - intros texts Hm. rewrite (@loop_result_all (pages doc) texts [] Hm). cbn [app].
    destruct (truthy (py_strip (List.concat texts))); reflexivity.
  - intros before p after texts e Hp Hm He. rewrite Hp.
    rewrite (@loop_result_first_failure before after p e texts [] Hm He).
    reflexivity.
Qed.

End AcquisitionFacts.

(** C3, counterexample: with an unencrypted document and the password
    "secret" the error is the wrapper. *)
Lemma password_not_needed_is_not_distinct : ~ password_not_needed_is_distinct.
Proof.
  intros H.
  destruct (H pystr (fun _ => Ret two_pages) some_bytes (Some (str "secret"))
              two_pages) as [e [He Hs]];
    [discriminate | reflexivity | reflexivity | reflexivity |].
  vm_compute in He. inversion He; subst e. vm_compute in Hs. discriminate Hs.
Qed.

(** C3, witness *)
Lemma password_not_needed_witness :
  run (extract_text_from_pdf (fun _ => Ret two_pages) some_bytes
         (Some (str "secret"))) =
  Raise (Exception
    (str "Failed to process PDF: PDF is not encrypted, password not required")).
Proof.
  apply (@password_not_needed_is_wrapped pystr (fun _ => Ret two_pages)
           some_bytes (Some (str "secret")) two_pages);
    [discriminate | reflexivity | reflexivity | reflexivity].
Defined.

(** C4, counterexample: two pages "A" and "B" give "AB", not "A", a line
    feed, "B". *)
Lemma two_pages_are_not_newline_joined : ~ returned_text_is_newline_joined.
Proof.
  intros H.
  destruct (H pystr (fun _ => Ret two_pages) some_bytes None (str "AB"))
    as [doc [texts [Hd [Hm Ht]]]]; [vm_compute; reflexivity|].
  inversion Hd; subst doc. cbn in Hm.
  destruct texts as [|a [|b [|c texts]]]; try discriminate Hm.
  inversion Hm; subst a b. vm_compute in Ht. discriminate Ht.
Qed.

(** C4, witness *)
Lemma returned_text_witness :
  exists doc texts,
    (fun _ : list Byte.byte => Ret two_pages) some_bytes = Ret doc /\
    map (@get_text pystr) (pages doc) = map Ret texts /\
    str "AB" = List.concat texts.
Proof.
  apply (@returned_text_is_concatenation pystr (fun _ => Ret two_pages)
           some_bytes None (str "AB")).
  vm_compute. reflexivity.
Defined.

(** C2, counterexample: the first page is a scan without text layer on which
    the OCR engine would read "SCANNED", the second page is typed; the
    acquisition returns "typed". *)
Lemma scanned_page_is_not_read : ~ ocr_fallback_includes_page.
Proof.
  intros H.
  destruct (H pystr pystr (fun a => a) (fun _ => []) (fun a _ => a)
              (fun a _ _ _ => a) (fun a _ => a) (fun a _ _ => a) reading_ocr
              (fun _ => Ret scanned_then_typed) some_bytes scanned_then_typed
              (page_of 0 (Ret (str "")) (str "SCANNED")) (str "SCANNED"))
    as [text [Ht Hc]];
    [discriminate | reflexivity | reflexivity | left; reflexivity
    | reflexivity | vm_compute; reflexivity | vm_compute; reflexivity |].
  vm_compute in Ht. inversion Ht; subst text. vm_compute in Hc. discriminate Hc.
Qed.

(** C2, witness *)
Lemma text_layers_only_witness :
  run (extract_text_from_pdf (fun _ => Ret scanned_then_typed) some_bytes None)
  = Ret (str "typed") /\
  run (extract_text_from_pdf (fun _ => Ret broken_second_page) some_bytes None)
  = Raise (Exception
      (str "Failed to process PDF: Error extracting text from page 2: bad xref")).
Proof.
  split.
  - destruct (@text_layers_only pystr (fun _ => Ret scanned_then_typed)
                some_bytes None) as [_ H].
    destruct (H scanned_then_typed) as [H1 _];
      [discriminate | reflexivity | reflexivity | reflexivity |].
    apply (H1 [str ""; str "typed"]). reflexivity.
  - destruct (@text_layers_only pystr (fun _ => Ret broken_second_page)
                some_bytes None) as [_ H].
    destruct (H broken_second_page) as [_ H2];
      [discriminate | reflexivity | reflexivity | reflexivity |].
    apply (H2 [page_of 0 (Ret (str "A")) (str "A")]
              (page_of 1 (Raise (Exception (str "bad xref"))) (str "B"))
              [] [str "A"] (Exception (str "bad xref")));
      reflexivity.
Defined.

(** ** The claims on the parser *)

(** C1, on the code: for the scenario text the parser returns every field as
    the specification lists it, and the validator accepts the number, except
    [guardian_name]: the class of the name in the guardian pattern contains
    [\s], so the capture runs over the line feed and takes the label of the
    next line; the field is "Robert Smith", a line feed, "DOB". *)
Theorem scenario_parsed (U : unicode_data) :
  parse_aadhaar_details U scenario_text = Ret scenario_record /\
  validate_aadhaar U (aadhaar_number scenario_record) = true /\
  guardian_name scenario_record <> str "Robert Smith".
Proof.
  split; [vm_compute; reflexivity|].
  split; [vm_compute; reflexivity|].
  intros H. vm_compute in H. discriminate H.
Qed.

(** C5: [parse_aadhaar_details] returns a record for every text and never
    raises; every field of the record is empty when its own pattern is not
    found in the text and is the processed capture when it is found,
    whatever happens to the other fields. *)
Theorem parse_aadhaar_details_total (U : unicode_data) (text : pystr) :
  exists d, parse_aadhaar_details U text = Ret d /\ parsed_from U text d.
Proof. exact (parse_record U text). Qed.

(** C8, on the code: with "District: Salem, TN," the district is "Salem TN":
    the commas inside the capture are removed with the ones at its end.  The
    state, on the next line, keeps its inner comma: there the code strips
    the end only. *)
Theorem district_loses_inner_commas (U : unicode_data) :
  exists d,
    parse_aadhaar_details U commas_text = Ret d /\
    district d = str "Salem TN" /\
    district d <> py_rstrip_chars (str ",") (py_strip (str "Salem, TN,")) /\
    state d = str "Tamil Nadu, India".
Proof.
  eexists. split; [vm_compute; reflexivity|].
  split; [reflexivity|]. split; [|reflexivity].
  intros H. vm_compute in H. discriminate H.
Qed.

(** C10, counterexample: under [re.IGNORECASE] the long s U+017F matches the
    letter s, and [str.capitalize] leaves it as it is: for the text
    "Transgender" spelt with a long s the gender is that spelling. *)
Lemma gender_of_long_s_spelling :
  (exists d, parse_aadhaar_details ucd_excerpt long_s_spelling = Ret d /\
             gender d = long_s_spelling) /\
  ~ gender_is_one_of_six ucd_excerpt.
Proof.
  assert (H : exists d,
             parse_aadhaar_details ucd_excerpt long_s_spelling = Ret d /\
             gender d = long_s_spelling).
  { eexists. split; [vm_compute; reflexivity | reflexivity]. }
  split; [exact H|].
  intros Hsix. destruct H as [d [Hd Hg]].
  specialize (Hsix long_s_spelling d Hd). rewrite Hg in Hsix.
  vm_compute in Hsix.
  repeat (destruct Hsix as [Hsix|Hsix]; [discriminate Hsix|]).
  exact Hsix.
Qed.

(** C10, as the code has it: for every text the gender is empty or the
    capitalised token that the pattern found, which is one of "Male",
    "Female", "Transgender", "M", "F", "T", or "Transgender" spelt with a
    long s; a token of one letter gives one of "M", "F", "T". *)
Theorem gender_is_capitalised_token (U : unicode_data) (text : pystr) :
  exists d,
    parse_aadhaar_details U text = Ret d /\
    In (gender d) (str "" :: gender_values) /\
    (forall mo g,
       re_search U re_I GENDER_RE text = Some mo ->
       group GENDER_RE mo 1 = Ret g -> List.length g = 1%nat ->
       In (gender d) [str "M"; str "F"; str "T"]).
Proof.
  destruct (parse_record U text) as [d [Hd Hf]].
  exists d. split; [exact Hd|].
  destruct Hf as [_ [_ [_ [_ [_ [_ [Hg _]]]]]]].
  unfold field_of in Hg.
  destruct (re_search U re_I GENDER_RE text) as [mo|] eqn:E.
  - destruct Hg as [g [Hgroup Hgender]].
    destruct (@gender_group U text mo E) as [w [g' [Hw [Hg' Hm]]]].
    rewrite Hgroup in Hg'. inversion Hg'; subst g'.
    destruct (@capitalize_gender_word U w g Hw Hm) as [Hin Hone].
    rewrite Hgender. split; [right; exact Hin|].
    intros mo' g' Hmo' Hgr Hlen. inversion Hmo'; subst mo'.
    rewrite Hgroup in Hgr. inversion Hgr; subst g'. apply Hone, Hlen.
  - split; [left; symmetry; exact Hg|].
    intros mo g Hmo. discriminate Hmo.
Qed.

Section MatcherSoundness.

Variable U : unicode_data.
Variable fl : re_flags.

(** A greedy repetition consumes a run of characters of its item, within
    its bounds. *)
Lemma rep_greedy_run (a : atom) (rest : pystr) :
  forall min max prev pos caps k e,
    rep_greedy U fl a min max prev pos caps rest k = Some e ->
    exists g st',
      Forall (fun c => atom_match U fl a c = true) g /\
      (min <= List.length g)%nat /\ within max (List.length g) /\
      rest = g ++ m_rest st' /\ m_pos st' = (pos + List.length g)%nat /\
      m_caps st' = caps /\ k st' = Some e.
Proof.
  assert (Hstop : forall min max prev pos caps rest
                          (k : mstate -> option mstate) e,
            match min with
            | O => k {| m_prev := prev; m_pos := pos; m_rest := rest;
                        m_caps := caps |}
            | S _ => None
            end = Some e ->
            exists g st',
              Forall (fun c => atom_match U fl a c = true) g /\
              (min <= List.length g)%nat /\ within max (List.length g) /\
              rest = g ++ m_rest st' /\ m_pos st' = (pos + List.length g)%nat /\
              m_caps st' = caps /\ k st' = Some e).
  { intros min max prev pos caps rest0 k e H. destruct min; [|discriminate].
    exists [], {| m_prev := prev; m_pos := pos; m_rest := rest0; m_caps := caps |}.
    cbn [List.length m_rest m_pos m_caps app].
    repeat split; [constructor | lia | destruct max; cbn; [lia | exact I]
                  | lia | exact H]. }
  induction rest as [|c rest IH]; intros min max prev pos caps k e H;
    cbn [rep_greedy] in H.
  - apply (Hstop _ max) in H. exact H.
  - destruct (can_take max && atom_match U fl a c) eqn:Ec;
      [|apply (Hstop _ max) in H; exact H].
    destruct (rep_greedy U fl a (Nat.pred min) (dec_max max) (Some c) (S pos)
                caps rest k) eqn:E; [|apply (Hstop _ max) in H; exact H].
    inversion H; subst. apply IH in E.
    destruct E as [g [st' [Hg [Hmin [Hmax [Hr [Hp [Hc Hk]]]]]]]].
    apply andb_true_iff in Ec. destruct Ec as [Hcan Ha].
    exists (c :: g), st'. cbn [List.length app].
    repeat split; [constructor; assumption | lia | | rewrite Hr; reflexivity
                  | lia | exact Hc | exact Hk].
    destruct max as [[|most]|]; cbn in *; [discriminate | lia | exact I].
Qed.

Lemma rep_lazy_run (a : atom) (rest : pystr) :
  forall min max prev pos caps k e,
    rep_lazy U fl a min max prev pos caps rest k = Some e ->
    exists g st',
      Forall (fun c => atom_match U fl a c = true) g /\
      (min <= List.length g)%nat /\ within max (List.length g) /\
      rest = g ++ m_rest st' /\ m_pos st' = (pos + List.length g)%nat /\
      m_caps st' = caps /\ k st' = Some e.
Proof.
  assert (Hstop : forall (max : option nat) prev pos caps rest
                          (k : mstate -> option mstate) e,
            k {| m_prev := prev; m_pos := pos; m_rest := rest;
                 m_caps := caps |} = Some e ->
            exists g st',
              Forall (fun c => atom_match U fl a c = true) g /\
              (0 <= List.length g)%nat /\ within max (List.length g) /\
              rest = g ++ m_rest st' /\ m_pos st' = (pos + List.length g)%nat /\
              m_caps st' = caps /\ k st' = Some e).
  { intros max prev pos caps rest0 k e H.
    exists [], {| m_prev := prev; m_pos := pos; m_rest := rest0; m_caps := caps |}.
    cbn [List.length m_rest m_pos m_caps app].
    repeat split; [constructor | lia | destruct max; cbn; [lia | exact I]
                  | lia | exact H]. }
  induction rest as [|c rest IH]; intros min max prev pos caps k e H;
    cbn [rep_lazy] in H.
  - destruct min; [|discriminate].
    destruct (k {| m_prev := prev; m_pos := pos; m_rest := []; m_caps := caps |})
      eqn:E; [|discriminate].
    inversion H; subst. apply (Hstop max) in E. exact E.
  - assert (Hmore :
              (if can_take max && atom_match U fl a c
               then rep_lazy U fl a (Nat.pred min) (dec_max max) (Some c) (S pos)
                      caps rest k
               else None) = Some e ->
              exists g st',
                Forall (fun c => atom_match U fl a c = true) g /\
                (min <= List.length g)%nat /\ within max (List.length g) /\
                c :: rest = g ++ m_rest st' /\
                m_pos st' = (pos + List.length g)%nat /\
                m_caps st' = caps /\ k st' = Some e).
    { intros H'. destruct (can_take max && atom_match U fl a c) eqn:Ec;
        [|discriminate].
      apply IH in H'.
      destruct H' as [g [st' [Hg [Hmin [Hmax [Hr [Hp [Hc Hk]]]]]]]].
      apply andb_true_iff in Ec. destruct Ec as [Hcan Ha].
      exists (c :: g), st'. cbn [List.length app].
      repeat split; [constructor; assumption | lia | | rewrite Hr; reflexivity
                    | lia | exact Hc | exact Hk].
      destruct max as [[|most]|]; cbn in *; [discriminate | lia | exact I]. }
    destruct min.
    + destruct (k {| m_prev := prev; m_pos := pos; m_rest := c :: rest;
                     m_caps := caps |}) eqn:E.
      * inversion H; subst. apply (Hstop max) in E. exact E.
      * apply Hmore, H.
    + apply Hmore, H.
Qed.

Ltac splits :=
  repeat match goal with |- _ /\ _ => split end;
  try match goal with |- _ = _ => reflexivity end.

Lemma inside_app (text g : pystr) (st st' : mstate) :
  inside text st -> m_rest st = g ++ m_rest st' ->
  inside text st' /\ substring g text.
Proof.
  intros [before Hb] Hr. rewrite Hr in Hb. split.
  - exists (before ++ g). rewrite <- app_assoc. exact Hb.
  - exists before, (m_rest st'). exact Hb.
Qed.

(** The matcher is sound: what a pattern hands to the rest of the pattern
    lies further in the text by a string that the pattern consumes, and the
    groups closed on the way hold pieces of the text that their sub-patterns
    consume. *)
Lemma m_sound (top : regex) (text : pystr) (r : regex) :
  forall st k e,
    (forall n r', In r' (group_bodies n r) -> In r' (group_bodies n top)) ->
    inside text st -> caps_ok U fl top text st ->
    m U fl r st k = Some e ->
    exists g st',
      matched_by U fl r g /\ m_rest st = g ++ m_rest st' /\
      m_pos st' = (m_pos st + List.length g)%nat /\
      caps_ok U fl top text st' /\ k st' = Some e.
Proof.
  assert (Hnil : forall st (k : mstate -> option mstate) e,
            caps_ok U fl top text st -> k st = Some e ->
            exists g st', g = [] /\ m_rest st = g ++ m_rest st' /\
              m_pos st' = (m_pos st + List.length g)%nat /\
              caps_ok U fl top text st' /\ k st' = Some e).
  { intros st k e Hc Hk. exists [], st. cbn [app List.length].
    splits; [lia | exact Hc | exact Hk]. }
  induction r as [|a|a min max greedy|r1 IH1 r2 IH2|r1 IH1 r2 IH2|i r IH| | | |r IH];
    intros st k e Hsub Hin Hcaps H; cbn [m] in H; cbn [matched_by].
  - apply Hnil; assumption.
  - destruct (m_rest st) as [|c rest'] eqn:Er; [discriminate|].
    destruct (atom_match U fl a c) eqn:Ea; [|discriminate].
    exists [c], (advance st c rest'). cbn [advance m_rest m_pos m_caps List.length app].
    split; [exists c; split; [reflexivity | exact Ea]|].
    split; [reflexivity|]. split; [lia|]. split; [exact Hcaps | exact H].
  - assert (Hrun : exists g st',
              Forall (fun c => atom_match U fl a c = true) g /\
              (min <= List.length g)%nat /\ within max (List.length g) /\
              m_rest st = g ++ m_rest st' /\
              m_pos st' = (m_pos st + List.length g)%nat /\
              m_caps st' = m_caps st /\ k st' = Some e).
    { destruct greedy; [eapply rep_greedy_run | eapply rep_lazy_run]; exact H. }
    destruct Hrun as [g [st' [Hg [Hmin [Hmax [Hr [Hp [Hc Hk]]]]]]]].
    exists g, st'. split; [split; [exact Hg | split; [exact Hmin | exact Hmax]]|].
    split; [exact Hr|]. split; [exact Hp|]. split; [|exact Hk].
    unfold caps_ok. rewrite Hc. exact Hcaps.
  - apply IH1 in H; [|intros n r' Hr'; apply Hsub; cbn [group_bodies];
                      apply in_or_app; left; exact Hr' | exact Hin | exact Hcaps].
    destruct H as [g1 [st1 [Hg1 [Hr1 [Hp1 [Hc1 H]]]]]].
    destruct (@inside_app text _ _ _ Hin Hr1) as [Hin1 _].
    apply IH2 in H; [|intros n r' Hr'; apply Hsub; cbn [group_bodies];
                      apply in_or_app; right; exact Hr' | exact Hin1 | exact Hc1].
    destruct H as [g2 [st2 [Hg2 [Hr2 [Hp2 [Hc2 H]]]]]].
    exists (g1 ++ g2), st2. rewrite length_app.
    split; [exists g1, g2; split; [reflexivity | split; assumption]|].
    split; [rewrite Hr1, Hr2, app_assoc; reflexivity|].
    split; [lia|]. split; [exact Hc2 | exact H].
  - destruct (m U fl r1 st k) eqn:E.
    + inversion H; subst.
      apply IH1 in E; [|intros n r' Hr'; apply Hsub; cbn [group_bodies];
                        apply in_or_app; left; exact Hr' | exact Hin | exact Hcaps].
      destruct E as [g [st' [Hg E]]]. exists g, st'. split; [left; exact Hg | exact E].
    + apply IH2 in H; [|intros n r' Hr'; apply Hsub; cbn [group_bodies];
                        apply in_or_app; right; exact Hr' | exact Hin | exact Hcaps].
      destruct H as [g [st' [Hg H]]]. exists g, st'. split; [right; exact Hg | exact H].
  - apply IH in H; [|intros n r' Hr'; apply Hsub; cbn [group_bodies];
                     apply in_or_app; right; exact Hr' | exact Hin | exact Hcaps].
    destruct H as [g [st' [Hg [Hr [Hp [Hc H]]]]]].
    exists g, (close_group i st st'). cbn [close_group m_rest m_pos].
    split; [exact Hg|]. split; [exact Hr|]. split; [exact Hp|].
    split; [|exact H].
    intros n s. cbn [close_group m_caps lookup_cap].
    destruct (Nat.eqb i n) eqn:Ei; [|apply Hc].
    intros Hs. inversion Hs as [Hs']. rewrite Hp, Hr.
    replace (m_pos st + List.length g - m_pos st)%nat
      with (List.length g + 0)%nat by lia.
    rewrite firstn_app_2. cbn [firstn]. rewrite app_nil_r.
    split; [exact (proj2 (@inside_app text _ _ _ Hin Hr))|].
    exists r. split; [|exact Hg].
    apply Hsub. cbn [group_bodies]. rewrite Ei. left. reflexivity.
  - destruct (at_begin st); [|discriminate]. apply Hnil; assumption.
  - destruct (at_end st); [|discriminate]. apply Hnil; assumption.
  - destruct (at_boundary U st); [|discriminate]. apply Hnil; assumption.
  - destruct (m U fl r st Some) as [st1|] eqn:E; [|discriminate].
    apply IH in E; [|intros n r' Hr'; apply Hsub; exact Hr' | exact Hin
                    | exact Hcaps].
    destruct E as [g [st' [_ [_ [_ [Hc Hk]]]]]]. inversion Hk; subst st'.
    exists [], (with_caps st st1). cbn [with_caps m_rest m_pos List.length app].
    split; [reflexivity|]. split; [reflexivity|]. split; [lia|].
    split; [exact Hc | exact H].
Qed.

(** Where [re.search] finds a match. *)
Lemma search_go_inside (r : regex) (rest : pystr) :
  forall prev pos mo text,
    inside text (start_state prev pos rest) ->
    search_go U fl r prev pos rest = Some mo ->
    exists st e,
      inside text st /\ m_caps st = [] /\
      attempt U fl r false st = Some e /\ mo = make_match st e.
Proof.
  induction rest as [|c rest IH]; intros prev pos mo text Hin H;
    cbn [search_go] in H.
  - destruct (attempt U fl r false (start_state prev pos [])) eqn:E; [|discriminate].
    inversion H; subst. do 2 eexists.
    split; [exact Hin | split; [reflexivity | split; [exact E | reflexivity]]].
  - destruct (attempt U fl r false (start_state prev pos (c :: rest))) eqn:E.
    + inversion H; subst. do 2 eexists.
      split; [exact Hin | split; [reflexivity | split; [exact E | reflexivity]]].
    + apply IH with (text := text) in H; [exact H|].
      destruct Hin as [before Hb]. cbn [start_state m_rest] in *.
      exists (before ++ [c]). rewrite <- app_assoc. exact Hb.
Qed.

(** What [re.search] returns: the match is a piece of the text that the
    pattern consumes, and so is every group, for its own sub-pattern. *)
Lemma search_sound (r : regex) (text : pystr) (mo : match_obj) :
  re_search U fl r text = Some mo ->
  substring (mo_text mo) text /\ matched_by U fl r (mo_text mo) /\
  forall n s, lookup_cap n (mo_groups mo) = Some s -> captured U fl r text n s.
Proof.
  intros H. unfold re_search in H.
  apply search_go_inside with (text := text) in H; [|exists []; reflexivity].
  destruct H as [st [e [Hin [Hc0 [H Hmo]]]]]. subst mo.
  unfold attempt in H. cbn [andb] in H.
  apply (@m_sound r text r) in H;
    [|intros n r' Hr'; exact Hr' | exact Hin
     |intros n s; rewrite Hc0; discriminate].
  destruct H as [g [st' [Hg [Hr [Hp [Hc Hk]]]]]]. inversion Hk; subst e.
  cbn [make_match mo_text mo_groups]. rewrite Hp, Hr.
  replace (m_pos st + List.length g - m_pos st)%nat
    with (List.length g + 0)%nat by lia.
  rewrite firstn_app_2. cbn [firstn]. rewrite app_nil_r.
  split; [exact (proj2 (@inside_app text _ _ _ Hin Hr))|]. split; [exact Hg | exact Hc].
Qed.

(** A group that can be read holds a piece of the text that its sub-pattern
    consumes. *)
Lemma group_captured (r : regex) (text : pystr) (mo : match_obj) (n : nat)
    (s : pystr) :
  re_search U fl r text = Some mo -> group r mo (S n) = Ret s ->
  captured U fl r text (S n) s.
Proof.
  intros H Hg. apply search_sound in H. destruct H as [_ [_ H]].
  apply H. unfold group in Hg.
  destruct (Nat.ltb (ngroups r) (S n)); [discriminate|].
  destruct (lookup_cap (S n) (mo_groups mo)); [|discriminate].
  inversion Hg. reflexivity.
Qed.

End MatcherSoundness.

(** ** The shape of the fields *)

Section FieldFacts.

Variable U : unicode_data.

Lemma parsed (text : pystr) (d : AadhaarData) :
  parse_aadhaar_details U text = Ret d -> parsed_from U text d.
Proof.
  intros H. destruct (parse_record U text) as [d0 [H0 Hp]].
  rewrite H0 in H. inversion H; subst. exact Hp.
Qed.

(** A field that is not empty comes from a group of its pattern. *)
Lemma field_captured fl r text n post v :
  field_of (re_search U fl r text) r (S n) post v ->
  v = [] \/ exists g, captured U fl r text (S n) g /\ v = post g.
Proof.
  unfold field_of. destruct (re_search U fl r text) as [mo|] eqn:E.
  - intros [g [Hg Hv]]. right. exists g. split; [|exact Hv].
    exact (group_captured U fl r text n E Hg).
  - intros H. left. exact H.
Qed.

Lemma digit_match (fl : re_flags) (c : N) :
  atom_match U fl digit c = py_isdecimal U c.
Proof.
  unfold atom_match, digit. cbn [existsb item_hascased andb orb item_in
                                 category_match].
  rewrite andb_false_r, orb_false_r. reflexivity.
Qed.

Lemma space_match (fl : re_flags) (c : N) :
  atom_match U fl space c = py_isspace c.
Proof.
  unfold atom_match, space. cbn [existsb item_hascased andb orb item_in
                                 category_match].
  rewrite andb_false_r, orb_false_r. reflexivity.
Qed.

Lemma digits_run (fl : re_flags) (n : nat) (g : pystr) :
  matched_by U fl (times n digit) g -> digits U n g.
Proof.
  cbn [times matched_by within]. intros [Hg [Hmin Hmax]].
  split; [lia|]. eapply Forall_impl; [|exact Hg].
  intros c Hc. rewrite <- (digit_match fl c). exact Hc.
Qed.

Lemma day_or_month_run (fl : re_flags) (g : pystr) :
  matched_by U fl (RRep digit 1 (Some 2%nat) true) g -> day_or_month U g.
Proof.
  cbn [matched_by within]. intros [Hg [Hmin Hmax]].
  split; [lia|]. eapply Forall_impl; [|exact Hg].
  intros c Hc. rewrite <- (digit_match fl c). exact Hc.
Qed.

Lemma space_item (fl : re_flags) (g : pystr) :
  matched_by U fl (RAtom space) g -> exists c, g = [c] /\ py_isspace c = true.
Proof.
  cbn [matched_by]. intros [c [Hg Hc]]. rewrite space_match in Hc.
  exists c. split; assumption.
Qed.

Ltac one_body H :=
  let r := fresh "r" in
  let Hin := fresh "Hin" in
  destruct H as [r [Hin H]];
  vm_compute in Hin;
  destruct Hin as [Hin|Hin]; [subst r | contradiction Hin].

Lemma three_groups_shape (fl : re_flags) (g : pystr) :
  matched_by U fl three_groups_of_four g -> aadhaar_shape U g.
Proof.
  unfold three_groups_of_four. cbn [cat matched_by].
  intros [a [g1 [-> [Ha [x1 [g2 [-> [Hx1 [b [g3 [-> [Hb [x2 [c [-> [Hx2 Hc]]]]]]]]]]]]]]]].
  apply (@space_item fl) in Hx1, Hx2.
  destruct Hx1 as [s1 [-> Hs1]]. destruct Hx2 as [s2 [-> Hs2]].
  exists a, s1, b, s2, c. cbn [app].
  repeat split; try assumption; try (eapply digits_run; eassumption);
    apply (digits_run Ha) || apply (digits_run Hb) || apply (digits_run Hc).
Qed.

(** The stored ID number is empty or twelve decimal digits in three groups
    of four, each of the first two followed by one white-space character. *)
Lemma aadhaar_number_cases (text : pystr) (d : AadhaarData) :
  parse_aadhaar_details U text = Ret d ->
  aadhaar_number d = [] \/
  (substring (aadhaar_number d) text /\ aadhaar_shape U (aadhaar_number d)).
Proof.
  intros H. apply parsed in H. destruct H as [H _].
  apply field_captured in H. destruct H as [H|[g [[Hs H] Hv]]]; [left; exact H|].
  right. rewrite Hv. split; [exact Hs|]. one_body H.
  exact (three_groups_shape H).
Qed.

Lemma four_groups_shape (fl : re_flags) (g : pystr) :
  matched_by U fl
    (cat [times 4 digit; RAtom space; times 4 digit; RAtom space;
          times 4 digit; RAtom space; times 4 digit]) g ->
  vid_shape U g.
Proof.
  cbn [cat matched_by].
  intros [a [g1 [-> [Ha [x1 [g2 [-> [Hx1 [b [g3 [-> [Hb [x2 [g4 [-> [Hx2
           [c [g5 [-> [Hc [x3 [d [-> [Hx3 Hd]]]]]]]]]]]]]]]]]]]]]]]].
  apply (@space_item fl) in Hx1, Hx2, Hx3.
  destruct Hx1 as [s1 [-> Hs1]]. destruct Hx2 as [s2 [-> Hs2]].
  destruct Hx3 as [s3 [-> Hs3]].
  exists a, s1, b, s2, c, s3, d. cbn [app].
  split; [reflexivity|].
  split; [exact (digits_run Ha)|]. split; [exact (digits_run Hb)|].
  split; [exact (digits_run Hc)|]. split; [exact (digits_run Hd)|].
  split; [exact Hs1|]. split; [exact Hs2 | exact Hs3].
Qed.

Lemma vid_cases (text : pystr) (d : AadhaarData) :
  parse_aadhaar_details U text = Ret d ->
  vid d = [] \/ (substring (vid d) text /\ vid_shape U (vid d)).
Proof.
  intros H. apply parsed in H. destruct H as [_ [H _]].
  apply field_captured in H. destruct H as [H|[g [[Hs H] Hv]]]; [left; exact H|].
  right. rewrite Hv. split; [exact Hs|]. one_body H.
  exact (four_groups_shape H).
Qed.

Lemma pincode_cases (text : pystr) (d : AadhaarData) :
  parse_aadhaar_details U text = Ret d ->
  pincode d = [] \/ (substring (pincode d) text /\ digits U 6 (pincode d)).
Proof.
  intros H. apply parsed in H.
  destruct H as [_ [_ [_ [_ [_ [_ [_ [_ [_ [_ [H _]]]]]]]]]]].
  apply field_captured in H. destruct H as [H|[g [[Hs H] Hv]]]; [left; exact H|].
  right. rewrite Hv. split; [exact Hs|]. one_body H.
  exact (digits_run H).
Qed.

Lemma phone_cases (text : pystr) (d : AadhaarData) :
  parse_aadhaar_details U text = Ret d ->
  phone d = [] \/ (substring (phone d) text /\ digits U 10 (phone d)).
Proof.
  intros H. apply parsed in H.
  destruct H as [_ [_ [_ [_ [_ [_ [_ [_ [_ [_ [_ H]]]]]]]]]]].
  apply field_captured in H. destruct H as [H|[g [[Hs H] Hv]]]; [left; exact H|].
  right. rewrite Hv. split; [exact Hs|]. one_body H.
  exact (digits_run H).
Qed.

Lemma substring_nil (text : pystr) : substring [] text.
Proof. exists [], text. reflexivity. Qed.

(** *** Replacing one character *)

Lemma replace_char_filter (x : N) (s : pystr) :
  py_replace [x] [] s = filter (fun c => negb (c =? x)) s.
Proof.
  unfold py_replace.
  induction s as [|c s IH]; [reflexivity|].
  cbn [replace_go startswith filter List.length Nat.pred app].
  rewrite andb_true_r, (N.eqb_sym x c).
  destruct (c =? x); cbn [negb]; rewrite IH; reflexivity.
Qed.

Lemma replace_char_map (x y : N) (s : pystr) :
  py_replace [x] [y] s = map (fun c => if c =? x then y else c) s.
Proof.
  unfold py_replace.
  induction s as [|c s IH]; [reflexivity|].
  cbn [replace_go startswith map List.length Nat.pred app].
  rewrite andb_true_r, (N.eqb_sym x c).
  destruct (c =? x); rewrite IH; reflexivity.
Qed.

(** *** Stripping *)

Lemma lstrip_by_Forall (P : N -> Prop) (drop : N -> bool) (s : pystr) :
  Forall P s -> Forall P (lstrip_by drop s).
Proof.
  induction 1 as [|c s Hc Hs IH]; cbn [lstrip_by]; [constructor|].
  destruct (drop c); [exact IH | constructor; assumption].
Qed.

Lemma rstrip_by_Forall (P : N -> Prop) (drop : N -> bool) (s : pystr) :
  Forall P s -> Forall P (rstrip_by drop s).
Proof.
  intros H. unfold rstrip_by. apply Forall_rev, lstrip_by_Forall, Forall_rev, H.
Qed.

Lemma py_strip_Forall (P : N -> Prop) (s : pystr) :
  Forall P s -> Forall P (py_strip s).
Proof.
  intros H. unfold py_strip. apply rstrip_by_Forall, lstrip_by_Forall, H.
Qed.

Lemma lstrip_by_head (drop : N -> bool) (s : pystr) (c : N) (t : pystr) :
  lstrip_by drop s = c :: t -> drop c = false.
Proof.
  induction s as [|a s IH]; cbn [lstrip_by]; [discriminate|].
  destruct (drop a) eqn:Ea; [exact IH|].
  intros H. inversion H; subst. exact Ea.
Qed.

Lemma rstrip_by_last (drop : N -> bool) (s t : pystr) (c : N) :
  rstrip_by drop s = t ++ [c] -> drop c = false.
Proof.
  unfold rstrip_by. intros H.
  apply (f_equal (@rev N)) in H. rewrite rev_involutive, rev_app_distr in H.
  cbn [rev app] in H. exact (lstrip_by_head _ _ H).
Qed.

(** *** The dot *)

Lemma dot_run (g : pystr) :
  matched_by U re_I (star AAny) g -> Forall (fun c => c <> NL) g.
Proof.
  cbn [star matched_by]. intros [Hg _].
  eapply Forall_impl; [|exact Hg].
  intros c Hc Hn. subst c. discriminate Hc.
Qed.

(** *** The date *)

Lemma decimal_not_hyphen (c : N) : py_isdecimal U c = true -> (c =? 45) = false.
Proof.
  intros H. destruct (N.eqb_spec c 45) as [->|]; [discriminate H | reflexivity].
Qed.

Lemma map_hyphen_decimals (s : pystr) :
  Forall (fun c => py_isdecimal U c = true) s ->
  map (fun c => if c =? 45 then 47 else c) s = s.
Proof.
  induction 1 as [|c s Hc Hs IH]; [reflexivity|].
  cbn [map]. rewrite (@decimal_not_hyphen c Hc), IH. reflexivity.
Qed.

Lemma separator_item (g : pystr) :
  matched_by U re_I (RAtom (ASet [CLit (ch "-"); CLit (ch "/")])) g ->
  exists c, g = [c] /\ (if c =? 45 then 47 else c) = 47.
Proof.
  cbn [matched_by]. intros [c [Hg Hc]]. exists c. split; [exact Hg|].
  unfold atom_match in Hc.
  replace (existsb item_hascased [CLit (ch "-"); CLit (ch "/")])
    with false in Hc by reflexivity.
  rewrite andb_false_r in Hc. cbn [existsb item_in] in Hc.
  change (ch "-") with 45 in Hc. change (ch "/") with 47 in Hc.
  destruct (c =? 45); [reflexivity|].
  rewrite orb_false_r in Hc. cbn [orb] in Hc. apply N.eqb_eq in Hc. exact Hc.
Qed.

(** X15: the date of birth is empty or a day and a month of one or two
    decimal digits and a year of four, each of the first two followed by a
    slash: the hyphens of the text are replaced, and no hyphen is left. *)
Theorem dob_has_shape (text : pystr) (d : AadhaarData) :
  parse_aadhaar_details U text = Ret d ->
  dob d = [] \/ dob_shape U (dob d).
Proof.
  intros H. apply parsed in H.
  destruct H as [_ [_ [_ [_ [_ [H _]]]]]].
  apply field_captured in H. destruct H as [H|[g [[Hs H] Hv]]]; [left; exact H|].
  right. rewrite Hv. clear Hv Hs. one_body H.
  change (matched_by U re_I
            (cat [RRep digit 1 (Some 2%nat) true;
                  RAtom (ASet [CLit (ch "-"); CLit (ch "/")]);
                  RRep digit 1 (Some 2%nat) true;
                  RAtom (ASet [CLit (ch "-"); CLit (ch "/")]);
                  times 4 digit]) g) in H.
  cbn [cat] in H.
  destruct H as [dd [g1 [-> [Hdd [x1 [g2 [-> [Hx1 [mm [g3 [-> [Hmm
                [x2 [yyyy [-> [Hx2 Hy]]]]]]]]]]]]]]]].
  apply separator_item in Hx1, Hx2.
  destruct Hx1 as [s1 [-> Hs1]]. destruct Hx2 as [s2 [-> Hs2]].
  apply day_or_month_run in Hdd, Hmm. apply digits_run in Hy.
  change (str "-") with [45]. change (str "/") with [47].
  rewrite replace_char_map. cbn [app]. rewrite !map_app. cbn [map].
  rewrite !map_app. cbn [map]. rewrite Hs1, Hs2.
  rewrite (map_hyphen_decimals (proj2 Hdd)), (map_hyphen_decimals (proj2 Hmm)),
    (map_hyphen_decimals (proj2 Hy)).
  exists dd, mm, yyyy. repeat split; try apply Hdd; try apply Hmm; apply Hy.
Qed.

(** *** District and state *)

(** X16: the district holds no comma and no line feed. *)
Theorem district_has_no_comma (text : pystr) (d : AadhaarData) :
  parse_aadhaar_details U text = Ret d ->
  Forall (fun c => c <> 44 /\ c <> NL) (district d).
Proof.
  intros H. apply parsed in H.
  destruct H as [_ [_ [_ [_ [_ [_ [_ [_ [H _]]]]]]]]].
  apply field_captured in H.
  destruct H as [H|[g [[Hs H] Hv]]]; [rewrite H; constructor|].
  rewrite Hv. clear Hv Hs. one_body H. apply dot_run in H.
  change (str ",") with [44]. change (str "") with (@nil N).
  rewrite replace_char_filter. apply Forall_forall. intros c Hc.
  apply filter_In in Hc. destruct Hc as [Hc Hn]. split.
  - intros ->. discriminate Hn.
  - exact (proj1 (Forall_forall _ _) (py_strip_Forall H) c Hc).
Qed.

(** X17: the state holds no line feed and does not end with a comma. *)
Theorem state_has_no_trailing_comma (text : pystr) (d : AadhaarData) :
  parse_aadhaar_details U text = Ret d ->
  Forall (fun c => c <> NL) (state d) /\
  forall s', state d <> s' ++ str ",".
Proof.
  intros H. apply parsed in H.
  destruct H as [_ [_ [_ [_ [_ [_ [_ [_ [_ [H _]]]]]]]]]].
  apply field_captured in H.
  destruct H as [H|[g [[Hs H] Hv]]].
  - rewrite H. split; [constructor|]. intros [|a s']; discriminate.
  - rewrite Hv. clear Hv Hs. one_body H. apply dot_run in H. split.
    + unfold py_rstrip_chars. apply rstrip_by_Forall, py_strip_Forall, H.
    + intros s' Hs. unfold py_rstrip_chars in Hs. change (str ",") with [44] in Hs.
      apply rstrip_by_last in Hs. discriminate Hs.
Qed.

(** *** The stored number and the validator *)

Lemma decimal_digit_char (c : N) :
  decimal_is_digit U -> py_isdecimal U c = true -> py_isdigit_char U c = true.
Proof.
  unfold py_isdecimal, py_isdigit_char. intros Hnd.
  destruct (is_ascii c); [exact (fun H => H) | apply Hnd].
Qed.

Lemma decimal_not_space (c : N) : py_isdecimal U c = true -> not_space c = true.
Proof.
  intros H. unfold not_space.
  destruct (N.eqb_spec c 32) as [->|]; [discriminate H | reflexivity].
Qed.

Ltac four a L H :=
  destruct a as [|? [|? [|? [|? [|? ?]]]]]; try discriminate L; clear L;
  repeat (apply Forall_cons_iff in H;
          let H1 := fresh "Hd" in destruct H as [H1 H]);
  clear H.

Lemma shaped_number_validates (s : pystr) :
  decimal_is_digit U -> aadhaar_shape U s ->
  (validate_aadhaar U s = true <-> nth 4 s 0 = 32 /\ nth 9 s 0 = 32).
Proof.
  intros Hnd [a [s1 [b [s2 [c [E [[La Ha] [[Lb Hb] [[Lc Hc] [Hs1 Hs2]]]]]]]]]].
  subst s. four a La Ha. four b Lb Hb. four c Lc Hc.
  cbn [app nth]. unfold validate_aadhaar. rewrite replace_space_filter.
  cbn [filter].
  repeat match goal with
         | H : py_isdecimal U ?x = true |- _ =>
             rewrite (@decimal_not_space x H);
             apply (@decimal_digit_char x Hnd) in H
         end.
  unfold not_space.
  destruct (N.eqb_spec s1 32) as [E1|E1], (N.eqb_spec s2 32) as [E2|E2];
    cbn [negb List.length Nat.eqb truthy];
    rewrite ?andb_false_r;
    try (split; [discriminate | intros [? ?]; contradiction]).
  cbn [py_isdigit forallb andb].
  repeat match goal with
         | H : py_isdigit_char U ?x = true |- _ => rewrite H; clear H
         end.
  split; [intros _; split; assumption | reflexivity].
Qed.

(** *** White space in the name and in the address *)

Lemma rep_greedy_total (fl : re_flags) (a : atom) (rest : pystr) max prev pos
    caps (k : mstate -> option mstate) :
  (forall st, k st <> None) ->
  rep_greedy U fl a 0 max prev pos caps rest k <> None.
Proof.
  intros Hk. destruct rest as [|c rest]; cbn [rep_greedy]; [apply Hk|].
  destruct (can_take max && atom_match U fl a c); [|apply Hk].
  destruct (rep_greedy U fl a (Nat.pred 0) (dec_max max) (Some c) (S pos) caps
              rest k); [discriminate | apply Hk].
Qed.

Lemma spaces_found (c : N) (rest : pystr) prev pos :
  py_isspace c = true ->
  attempt U no_flags SPACES_RE false (start_state prev pos (c :: rest)) <> None.
Proof.
  intros Hc. unfold attempt, SPACES_RE, plus.
  cbn [m start_state m_rest m_prev m_pos m_caps rep_greedy can_take andb].
  rewrite space_match, Hc. cbn [Nat.pred dec_max option_map].
  match goal with
  | |- match ?x with _ => _ end <> None =>
      assert (Hx : x <> None) by (apply rep_greedy_total; discriminate);
      destruct x; [discriminate | contradiction]
  end.
Qed.

Lemma spaces_advance (adv : bool) (st e : mstate) :
  attempt U no_flags SPACES_RE adv st = Some e -> m_pos e <> m_pos st.
Proof.
  unfold attempt, SPACES_RE, plus. cbn [m]. intros H.
  apply rep_greedy_run in H.
  destruct H as [g [st' [_ [Hmin [_ [_ [Hp [_ Hk]]]]]]]].
  destruct (adv && Nat.eqb (m_pos st') (m_pos st)); [discriminate|].
  inversion Hk; subst. lia.
Qed.

Lemma pieces_spaces (rest : pystr) :
  forall skip cur prev pos,
    Forall (fun c => py_isspace c = false) cur ->
    Forall (Forall (fun c => py_isspace c = false))
           (pieces_go U no_flags SPACES_RE skip cur prev pos rest).
Proof.
  induction rest as [|c rest IH]; intros skip cur prev pos Hcur;
    cbn [pieces_go]; destruct skip.
  - destruct (attempt U no_flags SPACES_RE false (start_state prev pos []))
      as [e|] eqn:E.
    + destruct (Nat.eqb (m_pos e) pos) eqn:Ep.
      * apply spaces_advance in E. apply Nat.eqb_eq in Ep. contradiction.
      * repeat constructor. apply Forall_rev, Hcur.
    + repeat constructor. apply Forall_rev, Hcur.
  - repeat constructor. apply Forall_rev, Hcur.
  - destruct (attempt U no_flags SPACES_RE false (start_state prev pos (c :: rest)))
      as [e|] eqn:E.
    + destruct (Nat.eqb (m_pos e) pos) eqn:Ep.
      * apply spaces_advance in E. apply Nat.eqb_eq in Ep. contradiction.
      * constructor; [apply Forall_rev, Hcur | apply IH; constructor].
    + apply IH. constructor; [|exact Hcur].
      destruct (py_isspace c) eqn:Ec; [|reflexivity].
      exfalso. exact (@spaces_found c rest prev pos Ec E).
  - apply IH. constructor.
Qed.

Lemma join_single_spaced (pieces : list pystr) :
  Forall (Forall (fun c => py_isspace c = false)) pieces ->
  single_spaced (py_join (str " ") pieces).
Proof.
  assert (Hp : forall p, Forall (fun c => py_isspace c = false) p ->
                         single_spaced p).
  { intros p H. eapply Forall_impl; [|exact H].
    intros c Hc Hs. cbv beta in Hc. rewrite Hs in Hc. discriminate Hc. }
  induction 1 as [|p ps Hhd Htl IH]; [constructor|].
  destruct ps as [|q ps]; cbn [py_join]; [apply Hp, Hhd|].
  apply Forall_app. split; [apply Hp, Hhd|].
  apply Forall_app. split; [|exact IH].
  repeat constructor.
Qed.

Lemma sub_spaces_single_spaced (s : pystr) :
  single_spaced (re_sub U no_flags SPACES_RE (str " ") s).
Proof.
  unfold re_sub, re_pieces. apply join_single_spaced, pieces_spaces. constructor.
Qed.

Lemma extract_name_single_spaced (lines : list pystr) (n : pystr) :
  extract_name_from_text U lines = Ret n -> single_spaced n.
Proof.
  induction lines as [|line lines IH]; cbn [extract_name_from_text].
  - intros H. inversion H. constructor.
  - match goal with |- context [if ?c then _ else _] => destruct c end;
      [|exact IH].
    destruct (first_item _) as [p|e]; cbn [obind]; intros H; inversion H.
    apply sub_spaces_single_spaced.
Qed.

Lemma name_single_spaced (text : pystr) (d : AadhaarData) :
  parse_aadhaar_details U text = Ret d -> single_spaced (name d).
Proof.
  intros H. apply parsed in H. destruct H as [_ [_ [_ [H _]]]].
  destruct H as [fallback [Hfb H]].
  apply extract_name_single_spaced in Hfb.
  destruct (re_search U no_flags TAMIL_NAME_RE text) as [mo|].
  - destruct H as [g2 [first [_ [_ Hv]]]]. rewrite Hv.
    destruct (truthy (clean_name U first)); [|exact Hfb].
    unfold clean_name. apply sub_spaces_single_spaced.
  - rewrite H. exact Hfb.
Qed.

Lemma address_single_spaced (text : pystr) (d : AadhaarData) :
  parse_aadhaar_details U text = Ret d -> single_spaced (address d).
Proof.
  intros H. apply parsed in H.
  destruct H as [_ [_ [_ [_ [_ [_ [_ [H _]]]]]]]].
  unfold field_of in H. destruct (re_search U re_I_S ADDRESS_RE text) as [mo|].
  - destruct H as [g [_ Hv]]. rewrite Hv. unfold clean_address.
    apply py_strip_Forall, sub_spaces_single_spaced.
  - rewrite H. constructor.
Qed.

(** X11: the ID number that the parser stores is empty or has the shape
    that its pattern reads: three groups of four decimal digits, each of the
    first two followed by exactly one white-space character, fourteen
    characters in all. *)
Theorem aadhaar_number_has_shape (text : pystr) (d : AadhaarData) :
  parse_aadhaar_details U text = Ret d ->
  aadhaar_number d = [] \/ aadhaar_shape U (aadhaar_number d).
Proof.
  intros H. destruct (@aadhaar_number_cases text d H) as [E|[_ E]];
    [left | right]; exact E.
Qed.

(** X12: the virtual ID is empty or four groups of four decimal digits,
    each of the first three followed by one white-space character. *)
Theorem vid_has_shape (text : pystr) (d : AadhaarData) :
  parse_aadhaar_details U text = Ret d ->
  vid d = [] \/ vid_shape U (vid d).
Proof.
  intros H. destruct (@vid_cases text d H) as [E|[_ E]]; [left | right]; exact E.
Qed.

(** X13: the pincode is empty or exactly six decimal digits, and the phone
    number is empty or exactly ten. *)
Theorem pincode_and_phone_are_digits (text : pystr) (d : AadhaarData) :
  parse_aadhaar_details U text = Ret d ->
  (pincode d = [] \/ digits U 6 (pincode d)) /\
  (phone d = [] \/ digits U 10 (phone d)).
Proof.
  intros H. split.
  - destruct (@pincode_cases text d H) as [E|[_ E]]; [left | right]; exact E.
  - destruct (@phone_cases text d H) as [E|[_ E]]; [left | right]; exact E.
Qed.

(** X14: the four numeric fields are stored as they stand in the text: the
    ID number, the virtual ID, the pincode and the phone number are each a
    piece of the input, character for character. *)
Theorem numeric_fields_are_substrings (text : pystr) (d : AadhaarData) :
  parse_aadhaar_details U text = Ret d ->
  substring (aadhaar_number d) text /\ substring (vid d) text /\
  substring (pincode d) text /\ substring (phone d) text.
Proof.
  intros H.
  split; [destruct (@aadhaar_number_cases text d H) as [E|[E _]]|
  split; [destruct (@vid_cases text d H) as [E|[E _]]|
  split; [destruct (@pincode_cases text d H) as [E|[E _]]|
          destruct (@phone_cases text d H) as [E|[E _]]]]];
    try exact E; rewrite E; apply substring_nil.
Qed.

(** X18: an ID number that the parser has stored passes the validator
    exactly when its two separators are the character U+0020: the pattern
    takes any white space between the groups, the validator removes U+0020
    only.  The database is taken to classify every decimal digit as a digit,
    as Unicode does. *)
Theorem stored_number_validates_iff (text : pystr) (d : AadhaarData) :
  decimal_is_digit U ->
  parse_aadhaar_details U text = Ret d -> aadhaar_number d <> [] ->
  (validate_aadhaar U (aadhaar_number d) = true <->
   nth 4 (aadhaar_number d) 0 = 32 /\ nth 9 (aadhaar_number d) 0 = 32).
Proof.
  intros Hnd H Hne. destruct (@aadhaar_number_cases text d H) as [E|[_ E]];
    [contradiction|].
  exact (@shaped_number_validates (aadhaar_number d) Hnd E).
Qed.

(** X19: in the name and in the address every white-space character is the
    character U+0020: the last substitution of both paths puts one space for
    each run of white space. *)
Theorem name_and_address_single_spaced (text : pystr) (d : AadhaarData) :
  parse_aadhaar_details U text = Ret d ->
  single_spaced (name d) /\ single_spaced (address d).
Proof.
  intros H. split; [exact (@name_single_spaced text d H) | exact (@address_single_spaced text d H)].
Qed.

End FieldFacts.

(** X11, witness *)
Lemma aadhaar_number_has_shape_witness :
  aadhaar_number scenario_record = [] \/
  aadhaar_shape ucd_excerpt (aadhaar_number scenario_record).
Proof.
  apply (@aadhaar_number_has_shape ucd_excerpt scenario_text scenario_record).
  vm_compute. reflexivity.
Defined.

(** X12, witness *)
Lemma vid_has_shape_witness :
  exists d,
    parse_aadhaar_details ucd_excerpt vid_line = Ret d /\
    vid d = str "9876 5432 1098 7654" /\
    (vid d = [] \/ vid_shape ucd_excerpt (vid d)).
Proof.
  eexists. split; [vm_compute; reflexivity|]. split; [reflexivity|].
  apply (@vid_has_shape ucd_excerpt vid_line). vm_compute. reflexivity.
Defined.

(** X13, witness *)
Lemma pincode_and_phone_witness :
  (pincode scenario_record = [] \/ digits ucd_excerpt 6 (pincode scenario_record)) /\
  (phone scenario_record = [] \/ digits ucd_excerpt 10 (phone scenario_record)).
Proof.
  apply (@pincode_and_phone_are_digits ucd_excerpt scenario_text scenario_record).
  vm_compute. reflexivity.
Defined.

(** X14, witness *)
Lemma numeric_fields_witness :
  substring (aadhaar_number scenario_record) scenario_text /\
  substring (vid scenario_record) scenario_text /\
  substring (pincode scenario_record) scenario_text /\
  substring (phone scenario_record) scenario_text.
Proof.
  apply (@numeric_fields_are_substrings ucd_excerpt scenario_text scenario_record).
  vm_compute. reflexivity.
Defined.

(** X15, witness *)
Lemma dob_has_shape_witness :
  dob scenario_record = [] \/ dob_shape ucd_excerpt (dob scenario_record).
Proof.
  apply (@dob_has_shape ucd_excerpt scenario_text scenario_record).
  vm_compute. reflexivity.
Defined.

(** X16, witness *)
Lemma district_has_no_comma_witness :
  exists d,
    parse_aadhaar_details ucd_excerpt commas_text = Ret d /\
    Forall (fun c => c <> 44 /\ c <> NL) (district d).
Proof.
  eexists. split; [vm_compute; reflexivity|].
  apply (@district_has_no_comma ucd_excerpt commas_text). vm_compute. reflexivity.
Defined.

(** X17, witness *)
Lemma state_has_no_trailing_comma_witness :
  exists d,
    parse_aadhaar_details ucd_excerpt commas_text = Ret d /\
    Forall (fun c => c <> NL) (state d) /\
    forall s', state d <> s' ++ str ",".
Proof.
  eexists. split; [vm_compute; reflexivity|].
  apply (@state_has_no_trailing_comma ucd_excerpt commas_text).
  vm_compute. reflexivity.
Defined.

(** X18, witness: the number broken over two lines is stored and does not
    pass the validator. *)
Lemma stored_number_validates_witness :
  exists d,
    parse_aadhaar_details ucd_excerpt broken_number = Ret d /\
    aadhaar_number d = broken_number /\
    (validate_aadhaar ucd_excerpt (aadhaar_number d) = true <->
     nth 4 (aadhaar_number d) 0 = 32 /\ nth 9 (aadhaar_number d) 0 = 32).
Proof.
  eexists. split; [vm_compute; reflexivity|]. split; [reflexivity|].
  apply (@stored_number_validates_iff ucd_excerpt broken_number).
  - intros c Hc. cbn [ucd_excerpt ucd_isdigit ucd_isdecimal] in *.
    unfold excerpt_isdigit. rewrite Hc. reflexivity.
  - vm_compute. reflexivity.
  - discriminate.
Defined.

(** X19, witness *)
Lemma name_and_address_witness :
  single_spaced (name scenario_record) /\ single_spaced (address scenario_record).
Proof.
  apply (@name_and_address_single_spaced ucd_excerpt scenario_text scenario_record).
  vm_compute. reflexivity.
Defined.

Section AcquisitionCalls.

Variable Image : Type.
Variable fitz_open : list Byte.byte -> outcome (Document Image).

Ltac run_monad :=
  cbv beta iota zeta delta
    [bind set_text set_doc try_finally try_except emit answer the_doc
     read_doc read_text raise ret new_frame negb];
  cbn [fst snd v_doc v_text log].

Lemma loop_result_raise (ps : list (Page Image)) :
  forall text e,
    loop_result ps text = Raise e ->
    exists tail, e = Exception (str "Error extracting text from page " ++ tail).
Proof.
  induction ps as [|p ps IH]; intros text e H; cbn [loop_result] in H.
  - discriminate H.
  - destruct (get_text p) as [t|e0].
    + apply IH in H. exact H.
    + inversion H. eexists. reflexivity.
Qed.

Lemma for_each_read_page_log (ps : list (Page Image)) :
  forall s,
    log (snd (for_each ps (@read_page Image) s)) =
    rev (map EvGetText (pages_read ps)) ++ log s.
Proof.
  induction ps as [|p ps IH]; intros s; cbn [for_each pages_read].
  - reflexivity.
  - unfold bind. rewrite read_page_step.
    destruct (get_text p) as [t|e]; cbn [snd map rev].
    + rewrite IH. cbn [log]. rewrite <- app_assoc. reflexivity.
    + reflexivity.
Qed.

Lemma for_each_read_page_raises (ps : list (Page Image)) :
  forall s,
    fst (for_each ps (@read_page Image) s) =
    match loop_result ps (v_text s) with
    | Ret _ => Ret tt
    | Raise e => Raise e
    end.
Proof. intros s. apply for_each_read_page. Qed.

Ltac closing_log :=
  cbn [v_doc];
  repeat match goal with
    | |- context [doc_bool ?d] => destruct (doc_bool d)
    | |- context [close ?d] => destruct (close d)
    end;
  cbn [snd log rev app]; try rewrite app_nil_r; reflexivity.

Ltac settle_log :=
  cbn [exn_str];
  try match goal with
      | |- context [existsb ?f passed_through] =>
          destruct (existsb f passed_through)
      end;
  run_monad; closing_log.

Ltac pages_log doc :=
  match goal with
  | |- context [for_each (pages doc) (@read_page Image) ?s0] =>
      let H := fresh "H" in
      let Hl := fresh "Hl" in
      pose proof (for_each_read_page (pages doc) s0) as H;
      pose proof (for_each_read_page_log (pages doc) s0) as Hl;
      destruct (for_each (pages doc) (@read_page Image) s0) as [o s'];
      destruct H as [Hf [Hd _]];
      cbn [fst snd v_text v_doc log] in Hf, Hd, Hl;
      destruct (loop_result (pages doc) (str "")) as [text|e];
      subst o; run_monad;
      [ destruct (truthy (py_strip (v_text s'))) | idtac ];
      run_monad;
      try match goal with
          | |- context [existsb ?f passed_through] =>
              destruct (existsb f passed_through)
          end;
      run_monad; rewrite Hd; cbn [v_doc];
      repeat match goal with
        | |- context [doc_bool ?d] => destruct (doc_bool d)
        | |- context [close ?d] => destruct (close d)
        end;
      cbn [snd log rev app]; rewrite Hl;
      cbn [rev app]; rewrite ?rev_app_distr, ?rev_involutive;
      cbn [rev app]; rewrite ?app_nil_r; reflexivity
  end.

Lemma calls_extract_text_from_pdf pdf_bytes password :
  calls (extract_text_from_pdf fitz_open pdf_bytes password) =
  acquisition_calls fitz_open pdf_bytes password.
Proof.
  unfold calls, extract_text_from_pdf, extract_text_from_pdf_with,
    acquisition_calls.
  destruct pdf_bytes as [|b bs]; [reflexivity|]. fold (@read_page Image).
  run_monad. destruct (fitz_open (b :: bs)) as [doc|e]; run_monad;
    [|settle_log].
  unfold gate. destruct (needs_pass doc); cbn [andb].
  - destruct (truthy_opt password); run_monad; [|settle_log].
    destruct (authenticate doc password) as [[|]|e]; run_monad;
      [pages_log doc | settle_log | settle_log].
  - destruct (truthy_opt password); run_monad; [settle_log | pages_log doc].
Qed.

Lemma rewrap_wraps (m : pystr) :
  existsb (fun p => startswith p m) passed_through = false ->
  rewrap (Exception m) = Raise (Exception (str "Failed to process PDF: " ++ m)).
Proof. unfold rewrap. cbn [exn_str]. intros ->. reflexivity. Qed.

(** X1: every error of [extract_text_from_pdf] is a plain [Exception] whose
    message is "Empty PDF stream provided", "Password required for encrypted
    PDF", "No text could be extracted from the PDF", or starts with "Failed
    to process PDF: "; no message starts with "Invalid password", the second
    prefix that the handler lets through.  A text that is returned is not
    blank. *)
Theorem extract_text_from_pdf_outcomes pdf_bytes password :
  match run (extract_text_from_pdf fitz_open pdf_bytes password) with
  | Ret text => truthy (py_strip text) = true
  | Raise e =>
      exists msg,
        e = Exception msg /\ acquisition_message msg /\
        startswith (str "Invalid password") msg = false
  end.
Proof.
  assert (Hwrap : forall m,
            existsb (fun p => startswith p m) passed_through = false ->
            match rewrap (Exception m) with
            | Ret text => truthy (py_strip text) = true
            | Raise e =>
                exists msg,
                  e = Exception msg /\ acquisition_message msg /\
                  startswith (str "Invalid password") msg = false
            end).
  { intros m Hm. rewrite (rewrap_wraps _ Hm). eexists. split; [reflexivity|].
    split; [|reflexivity]. right; right; right. reflexivity. }
  rewrite run_extract_text_from_pdf. unfold acquisition_outcome.
  destruct pdf_bytes as [|b bs].
  { eexists. split; [reflexivity|]. split; [left; reflexivity | reflexivity]. }
  destruct (fitz_open (b :: bs)) as [doc|e]; [|apply Hwrap; reflexivity].
  destruct (gate doc password) as [[]|e] eqn:Eg.
  - destruct (loop_result (pages doc) []) as [text|e] eqn:El.
    + destruct (truthy (py_strip text)) eqn:Et; [exact Et|].
      eexists. split; [reflexivity|].
      split; [right; right; left; reflexivity | reflexivity].
    + apply loop_result_raise in El. destruct El as [tail ->].
      apply Hwrap. reflexivity.
  - unfold gate in Eg. destruct (needs_pass doc).
    + destruct (truthy_opt password); cbn [negb] in Eg.
      * destruct (authenticate doc password) as [[|]|e0]; inversion Eg;
          apply Hwrap; reflexivity.
      * inversion Eg. eexists. split; [reflexivity|].
        split; [right; left; reflexivity | reflexivity].
    + destruct (truthy_opt password); inversion Eg. apply Hwrap. reflexivity.
Qed.

(** X2: an encrypted document read without password, or with the empty
    password, fails with "Password required for encrypted PDF", which is not
    wrapped; the document is not asked to authenticate and no page is read:
    it is opened and, when it counts as true, closed. *)
Theorem password_required_for_encrypted pdf_bytes password doc :
  pdf_bytes <> [] -> fitz_open pdf_bytes = Ret doc ->
  needs_pass doc = true -> truthy_opt password = false ->
  run (extract_text_from_pdf fitz_open pdf_bytes password) =
    Raise (Exception (str "Password required for encrypted PDF")) /\
  calls (extract_text_from_pdf fitz_open pdf_bytes password) =
    EvOpen :: (if doc_bool doc then [EvClose] else []).
Proof.
  intros Hne Hopen Henc Hpw.
  rewrite run_extract_text_from_pdf, calls_extract_text_from_pdf.
  unfold acquisition_outcome, acquisition_calls, gate.
  destruct pdf_bytes as [|b bs]; [contradiction|].
  rewrite Hopen, Henc, Hpw. split; reflexivity.
Qed.

(** X3: an encrypted document with a password that [doc.authenticate]
    refuses fails with "Failed to process PDF: PDF decryption failed: Invalid
    password provided for PDF", and when [doc.authenticate] raises, with its
    message wrapped the same way; in both cases no page is read. *)
Theorem refused_password_is_wrapped pdf_bytes password doc :
  pdf_bytes <> [] -> fitz_open pdf_bytes = Ret doc ->
  needs_pass doc = true -> truthy_opt password = true ->
  (authenticate doc password = Ret false ->
   run (extract_text_from_pdf fitz_open pdf_bytes password) =
   Raise (Exception (str "Failed to process PDF: PDF decryption failed: " ++
                     str "Invalid password provided for PDF"))) /\
  (forall e, authenticate doc password = Raise e ->
   run (extract_text_from_pdf fitz_open pdf_bytes password) =
   Raise (Exception (str "Failed to process PDF: PDF decryption failed: " ++
                     exn_str e))) /\
  (authenticate doc password <> Ret true ->
   calls (extract_text_from_pdf fitz_open pdf_bytes password) =
   EvOpen :: EvAuthenticate InEncryptedBranch password ::
   (if doc_bool doc then [EvClose] else [])).
Proof.
  intros Hne Hopen Henc Hpw.
  rewrite run_extract_text_from_pdf, calls_extract_text_from_pdf.
  unfold acquisition_outcome, acquisition_calls, gate.
  destruct pdf_bytes as [|b bs]; [contradiction|].
  rewrite Hopen, Henc, Hpw. cbn [negb andb app].
  split; [|split].
  - intros ->. reflexivity.
  - intros e ->. reflexivity.
  - destruct (authenticate doc password) as [[|]|e]; intros H;
      [contradiction H; reflexivity | reflexivity | reflexivity].
Qed.

(** X4: for an encrypted document and a password that [doc.authenticate]
    accepts, when every page gives its text layer the result is these
    layers put end to end, or "No text could be extracted from the PDF"
    when the whole is blank; the pages are read in order after the
    authentication, and the document is closed last. *)
Theorem accepted_password_reads_pages pdf_bytes password doc texts :
  pdf_bytes <> [] -> fitz_open pdf_bytes = Ret doc ->
  needs_pass doc = true -> truthy_opt password = true ->
  authenticate doc password = Ret true ->
  map (@get_text Image) (pages doc) = map Ret texts ->
  run (extract_text_from_pdf fitz_open pdf_bytes password) =
    (if truthy (py_strip (List.concat texts)) then Ret (List.concat texts)
     else Raise (Exception (str "No text could be extracted from the PDF"))) /\
  calls (extract_text_from_pdf fitz_open pdf_bytes password) =
    EvOpen :: EvAuthenticate InEncryptedBranch password ::
    map (fun p => EvGetText (number p)) (pages doc) ++
    (if doc_bool doc then [EvClose] else []).
Proof.
  intros Hne Hopen Henc Hpw Hauth Hm.
  rewrite run_extract_text_from_pdf, calls_extract_text_from_pdf.
  unfold acquisition_outcome, acquisition_calls, gate.
  destruct pdf_bytes as [|b bs]; [contradiction|].
  rewrite Hopen, Henc, Hpw, Hauth. cbn [negb andb app].
  rewrite (@loop_result_all Image (pages doc) texts [] Hm). cbn [app].
  split.
  - destruct (truthy (py_strip (List.concat texts))); reflexivity.
  - do 3 f_equal. clear - Hm. revert texts Hm.
    induction (pages doc) as [|p ps IH]; intros texts Hm; [reflexivity|].
    destruct texts as [|t texts]; [discriminate Hm|].
    cbn [map] in Hm. inversion Hm as [[Hp Hps]].
    cbn [pages_read map]. rewrite Hp. f_equal. apply (IH texts Hps).
Qed.

(** X5: a page is read only once the password check has passed: the
    document is unencrypted and no password was given, or it is encrypted
    and [doc.authenticate] has accepted the password. *)
Theorem pages_read_after_check pdf_bytes password n :
  In (EvGetText n)
     (calls (extract_text_from_pdf fitz_open pdf_bytes password)) ->
  exists doc,
    fitz_open pdf_bytes = Ret doc /\
    ((needs_pass doc = false /\ truthy_opt password = false) \/
     (needs_pass doc = true /\ truthy_opt password = true /\
      authenticate doc password = Ret true)).
Proof.
  rewrite calls_extract_text_from_pdf. unfold acquisition_calls, gate.
  destruct pdf_bytes as [|b bs]; [intros []|].
  destruct (fitz_open (b :: bs)) as [doc|e];
    [|intros [H|[]]; discriminate H].
  intros [H|H]; [discriminate H|]. exists doc. split; [reflexivity|].
  apply in_app_or in H.
  destruct (needs_pass doc), (truthy_opt password); cbn [negb andb] in H.
  - right. destruct (authenticate doc password) as [[|]|e];
      [repeat split | exfalso | exfalso];
      destruct H as [[H|[]]|H]; try discriminate H;
      apply in_app_or in H; destruct H as [[]|H];
      destruct (doc_bool doc); destruct H as [H|[]] || destruct H;
      discriminate H.
  - exfalso. destruct H as [[]|H]. apply in_app_or in H.
    destruct H as [[]|H]. destruct (doc_bool doc);
      [destruct H as [H|[]]; discriminate H | destruct H].
  - exfalso. destruct H as [[]|H]. apply in_app_or in H.
    destruct H as [[]|H]. destruct (doc_bool doc);
      [destruct H as [H|[]]; discriminate H | destruct H].
  - left. split; reflexivity.
Qed.

(** X6: once a document is open and counts as true, it is closed on every
    path, whether the function returns or raises: [doc.close()] is the last
    library call, and it is made once. *)
Theorem document_is_closed_last pdf_bytes password doc :
  pdf_bytes <> [] -> fitz_open pdf_bytes = Ret doc -> doc_bool doc = true ->
  exists before,
    calls (extract_text_from_pdf fitz_open pdf_bytes password) =
      before ++ [EvClose] /\
    existsb (fun ev => match ev with EvClose => true | _ => false end) before
      = false.
Proof.
  intros Hne Hopen Hbool. rewrite calls_extract_text_from_pdf.
  unfold acquisition_calls. destruct pdf_bytes as [|b bs]; [contradiction|].
  rewrite Hopen, Hbool.
  exists (EvOpen ::
          (if needs_pass doc && truthy_opt password
           then [EvAuthenticate InEncryptedBranch password] else []) ++
          match gate doc password with
          | Ret _ => map EvGetText (pages_read (pages doc))
          | Raise _ => []
          end).
  split.
  - cbn [app]. rewrite <- app_assoc. reflexivity.
  - cbn [existsb orb]. rewrite existsb_app.
    apply orb_false_iff. split.
    + destruct (needs_pass doc && truthy_opt password); reflexivity.
    + destruct (gate doc password); [|reflexivity].
      induction (pages_read (pages doc)) as [|k l IH]; [reflexivity | exact IH].
Qed.

(** X7: when [fitz.open] raises, the error is "Failed to process PDF:
    Invalid PDF format: " followed by the message of the library; nothing
    else is called, and nothing is closed. *)
Theorem invalid_pdf_is_wrapped pdf_bytes password e :
  pdf_bytes <> [] -> fitz_open pdf_bytes = Raise e ->
  run (extract_text_from_pdf fitz_open pdf_bytes password) =
    Raise (Exception (str "Failed to process PDF: Invalid PDF format: " ++
                      exn_str e)) /\
  calls (extract_text_from_pdf fitz_open pdf_bytes password) = [EvOpen].
Proof.
  intros Hne Hopen.
  rewrite run_extract_text_from_pdf, calls_extract_text_from_pdf.
  unfold acquisition_outcome, acquisition_calls.
  destruct pdf_bytes as [|b bs]; [contradiction|].
  rewrite Hopen. split; reflexivity.
Qed.

End AcquisitionCalls.

(** X2, witness *)
Lemma password_required_witness :
  run (extract_text_from_pdf (fun _ => Ret locked_pages) some_bytes None) =
    Raise (Exception (str "Password required for encrypted PDF")) /\
  calls (extract_text_from_pdf (fun _ => Ret locked_pages) some_bytes None) =
    [EvOpen; EvClose].
Proof.
  apply (@password_required_for_encrypted pystr (fun _ => Ret locked_pages)
           some_bytes None locked_pages);
    [discriminate | reflexivity | reflexivity | reflexivity].
Defined.

(** X3, witness *)
Lemma refused_password_witness :
  run (extract_text_from_pdf (fun _ => Ret locked_pages) some_bytes
         (Some (str "guess"))) =
  Raise (Exception (str "Failed to process PDF: PDF decryption failed: " ++
                    str "Invalid password provided for PDF")).
Proof.
  destruct (@refused_password_is_wrapped pystr (fun _ => Ret locked_pages)
              some_bytes (Some (str "guess")) locked_pages) as [H _];
    [discriminate | reflexivity | reflexivity | reflexivity |].
  apply H. vm_compute. reflexivity.
Defined.

(** X4, witness *)
Lemma accepted_password_witness :
  run (extract_text_from_pdf (fun _ => Ret locked_pages) some_bytes
         (Some (str "secret"))) = Ret (str "AB") /\
  calls (extract_text_from_pdf (fun _ => Ret locked_pages) some_bytes
           (Some (str "secret"))) =
    [EvOpen; EvAuthenticate InEncryptedBranch (Some (str "secret"));
     EvGetText 0; EvGetText 1; EvClose].
Proof.
  apply (@accepted_password_reads_pages pystr (fun _ => Ret locked_pages)
           some_bytes (Some (str "secret")) locked_pages [str "A"; str "B"]);
    [discriminate | reflexivity | reflexivity | reflexivity
    | vm_compute; reflexivity | reflexivity].
Defined.

(** X5, witness *)
Lemma pages_read_after_check_witness :
  exists doc,
    (fun _ : list Byte.byte => Ret two_pages) some_bytes = Ret doc /\
    ((needs_pass doc = false /\ truthy_opt None = false) \/
     (needs_pass doc = true /\ truthy_opt None = true /\
      authenticate doc None = Ret true)).
Proof.
  apply (@pages_read_after_check pystr (fun _ => Ret two_pages) some_bytes
           None 1%nat).
  vm_compute. right; right; left. reflexivity.
Defined.

(** X6, witness *)
Lemma document_is_closed_last_witness :
  exists before,
    calls (extract_text_from_pdf (fun _ => Ret broken_second_page) some_bytes
             None) = before ++ [EvClose] /\
    existsb (fun ev => match ev with EvClose => true | _ => false end) before
      = false.
Proof.
  apply (@document_is_closed_last pystr (fun _ => Ret broken_second_page)
           some_bytes None broken_second_page);
    [discriminate | reflexivity | reflexivity].
Defined.

(** X7, witness *)
Lemma invalid_pdf_witness :
  run (extract_text_from_pdf
         (fun _ => Raise (Exception (str "no objects found")) :
                     outcome (Document pystr))
         some_bytes None) =
    Raise (Exception (str "Failed to process PDF: Invalid PDF format: " ++
                      str "no objects found")) /\
  calls (extract_text_from_pdf
           (fun _ => Raise (Exception (str "no objects found")) :
                       outcome (Document pystr))
           some_bytes None) = [EvOpen].
Proof.
  apply (@invalid_pdf_is_wrapped pystr
           (fun _ => Raise (Exception (str "no objects found")))
           some_bytes None (Exception (str "no objects found")));
    [discriminate | reflexivity].
Defined.

(** ** The OCR path *)

Section OcrFacts.

Variables Image Array : Type.
Variable np_array : Image -> Array.
Variable np_ones : nat * nat -> Array.
Variable cv2_cvtColor : Array -> color_conversion -> Array.
Variable cv2_adaptiveThreshold : Array -> N -> N -> N -> Array.
Variable cv2_medianBlur : Array -> N -> Array.
Variable cv2_dilate : Array -> Array -> nat -> Array.
Variable image_to_string : Array -> pystr -> outcome pystr.

Local Notation "'OCR'" := (ocr_answer np_array np_ones cv2_cvtColor cv2_adaptiveThreshold
                            cv2_medianBlur cv2_dilate image_to_string).
Local Notation "'LOOP'" :=
  (extract_text_from_images_from np_array np_ones cv2_cvtColor
     cv2_adaptiveThreshold cv2_medianBlur cv2_dilate image_to_string).
Local Notation "'RESULT'" :=
  (ocr_result np_array np_ones cv2_cvtColor cv2_adaptiveThreshold
              cv2_medianBlur cv2_dilate image_to_string).
Local Notation "'HANDED'" :=
  (images_read np_array np_ones cv2_cvtColor cv2_adaptiveThreshold
               cv2_medianBlur cv2_dilate image_to_string).

(** The loop over the images, as a function of the frame. *)
Lemma images_from_step (images : list Image) :
  forall (acc : pystr) (s : frame Image),
    LOOP acc images s =
    (RESULT acc images,
     {| v_doc := v_doc s; v_text := v_text s;
        log := rev (flat_map (fun _ => [EvPreprocess; EvImageToString])
                             (HANDED images)) ++ log s |}).
Proof.
  induction images as [|image images IH]; intros acc s.
  - destruct s. reflexivity.
  - cbn [extract_text_from_images_from ocr_result images_read flat_map].
    unfold bind at 1. unfold extract_text_from_image.
    cbv beta iota zeta delta [bind try_except emit answer raise ret].
    cbn [fst snd v_doc v_text log]. fold ocr_answer.
    change (image_to_string _ _) with (OCR image).
    destruct (OCR image) as [text|e].
    + rewrite IH. cbn [v_doc v_text log app rev].
      rewrite <- !app_assoc. reflexivity.
    + reflexivity.
Qed.

Lemma images_read_all (images : list Image) (texts : list pystr) :
  map OCR images = map Ret texts -> HANDED images = images.
Proof.
  revert texts. induction images as [|image images IH]; intros texts H;
    [reflexivity|].
  destruct texts as [|t texts]; [discriminate H|].
  cbn [map] in H. inversion H as [[Ht Hts]].
  cbn [images_read]. rewrite Ht. f_equal. exact (IH texts Hts).
Qed.

Lemma ocr_result_all (images : list Image) :
  forall texts acc,
    map OCR images = map Ret texts ->
    RESULT acc images =
    Ret (acc ++ List.concat (map (fun t => t ++ [NL]) texts)).
Proof.
  induction images as [|image images IH]; intros texts acc H;
    destruct texts as [|t texts]; try discriminate H.
  - cbn [ocr_result map List.concat]. rewrite app_nil_r. reflexivity.
  - cbn [map] in H. inversion H as [[Ht Hts]].
    cbn [ocr_result map List.concat]. rewrite Ht, (IH texts _ Hts).
    rewrite <- !app_assoc. reflexivity.
Qed.

(** X8: when the engine reads every image, [extract_text_from_images]
    returns the texts in the order of the images, each one followed by a
    line feed, also the last one; each image is preprocessed and then handed
    to the engine, one image after the other. *)
Theorem extract_text_from_images_all (images : list Image)
    (texts : list pystr) :
  map OCR images = map Ret texts ->
  run (extract_text_from_images np_array np_ones cv2_cvtColor
         cv2_adaptiveThreshold cv2_medianBlur cv2_dilate image_to_string
         images) =
    Ret (List.concat (map (fun t => t ++ [NL]) texts)) /\
  calls (extract_text_from_images np_array np_ones cv2_cvtColor
           cv2_adaptiveThreshold cv2_medianBlur cv2_dilate image_to_string
           images) =
    flat_map (fun _ => [EvPreprocess; EvImageToString]) images.
Proof.
  intros H. unfold run, calls, extract_text_from_images.
  rewrite images_from_step. cbn [fst snd log new_frame].
  rewrite (@ocr_result_all images texts (str "") H),
    (@images_read_all images texts H).
  rewrite app_nil_r, rev_involutive. split; reflexivity.
Qed.

(** X9: the first image on which the engine raises ends the loop: the error
    is "OCR processing failed: " followed by the message of the engine, the
    text read so far is lost, and the images after it are neither
    preprocessed nor read. *)
Theorem extract_text_from_images_first_failure
    (before after : list Image) (image : Image) (texts : list pystr) (e : exn) :
  map OCR before = map Ret texts -> OCR image = Raise e ->
  run (extract_text_from_images np_array np_ones cv2_cvtColor
         cv2_adaptiveThreshold cv2_medianBlur cv2_dilate image_to_string
         (before ++ image :: after)) =
    Raise (Exception (str "OCR processing failed: " ++ exn_str e)) /\
  calls (extract_text_from_images np_array np_ones cv2_cvtColor
           cv2_adaptiveThreshold cv2_medianBlur cv2_dilate image_to_string
           (before ++ image :: after)) =
    flat_map (fun _ => [EvPreprocess; EvImageToString]) (before ++ [image]).
Proof.
  intros H He. unfold run, calls, extract_text_from_images.
  rewrite images_from_step. cbn [fst snd log new_frame].
  rewrite app_nil_r, rev_involutive.
  generalize (str ""). revert texts H.
  induction before as [|b before IH]; intros texts H acc.
  - cbn [app ocr_result images_read]. rewrite He. split; reflexivity.
  - destruct texts as [|t texts]; [discriminate H|].
    cbn [map] in H. inversion H as [[Ht Hts]].
    cbn [app ocr_result images_read flat_map]. rewrite Ht.
    destruct (IH texts Hts (acc ++ t ++ [NL])) as [Hr Hc].
    rewrite Hr, Hc. split; reflexivity.
Qed.

End OcrFacts.

(** X8, witness *)
Lemma extract_text_from_images_all_witness :
  run (extract_text_from_images (fun im : pystr => im) (fun _ => str "")
         (fun a _ => a) (fun a _ _ _ => a) (fun a _ => a) (fun a _ _ => a)
         reading_ocr [str "A"; str "B"]) =
    Ret (str "A" ++ [NL] ++ str "B" ++ [NL]) /\
  calls (extract_text_from_images (fun im : pystr => im) (fun _ => str "")
           (fun a _ => a) (fun a _ _ _ => a) (fun a _ => a) (fun a _ _ => a)
           reading_ocr [str "A"; str "B"]) =
    [EvPreprocess; EvImageToString; EvPreprocess; EvImageToString].
Proof.
  apply (@extract_text_from_images_all pystr pystr (fun im => im)
           (fun _ => str "") (fun a _ => a) (fun a _ _ _ => a) (fun a _ => a)
           (fun a _ _ => a) reading_ocr [str "A"; str "B"] [str "A"; str "B"]).
  reflexivity.
Defined.

(** X9, witness *)
Lemma extract_text_from_images_first_failure_witness :
  run (extract_text_from_images (fun im : pystr => im) (fun _ => str "")
         (fun a _ => a) (fun a _ _ _ => a) (fun a _ => a) (fun a _ _ => a)
         failing_ocr [str "A"; str "blurred"; str "C"]) =
    Raise (Exception (str "OCR processing failed: tesseract failed")) /\
  calls (extract_text_from_images (fun im : pystr => im) (fun _ => str "")
           (fun a _ => a) (fun a _ _ _ => a) (fun a _ => a) (fun a _ _ => a)
           failing_ocr [str "A"; str "blurred"; str "C"]) =
    [EvPreprocess; EvImageToString; EvPreprocess; EvImageToString].
Proof.
  apply (@extract_text_from_images_first_failure pystr pystr (fun im => im)
           (fun _ => str "") (fun a _ => a) (fun a _ _ _ => a) (fun a _ => a)
           (fun a _ _ => a) failing_ocr [str "A"] [str "C"] (str "blurred")
           [str "A"] (Exception (str "tesseract failed")));
    vm_compute; reflexivity.
Defined.

(** ** The validator and its callers *)

Lemma filter_not_space_twice (s : pystr) :
  filter not_space (filter not_space s) = filter not_space s.
Proof.
  induction s as [|c s IH]; [reflexivity|]. cbn [filter].
  destruct (not_space c) eqn:Ec; [|exact IH].
  cbn [filter]. rewrite Ec, IH. reflexivity.
Qed.

(** X10: the callers of [validate_aadhaar] remove the spaces of the number
    before the call; the validator removes them itself, so the verdict is
    that on the number as it stands. *)
Theorem validate_aadhaar_cleaned (U : unicode_data) (s : pystr) :
  validate_aadhaar U (py_replace (str " ") (str "") s) = validate_aadhaar U s.
Proof.
  unfold validate_aadhaar. rewrite !replace_space_filter, filter_not_space_twice.
  reflexivity.
Qed.

(** ** The HTTP boundary *)

Section BoundaryFacts.

Variable U : unicode_data.
Variable Image : Type.
Variable fitz_open : list Byte.byte -> outcome (Document Image).

Lemma strip_blank (password : pystr) :
  negb (truthy password) || Nat.eqb (List.length (py_strip password)) 0 = true
  <-> py_strip password = [].
Proof.
  split.
  - intros H. apply orb_true_iff in H. destruct H as [H|H].
    + destruct password; [reflexivity | discriminate H].
    + apply Nat.eqb_eq in H. destruct (py_strip password); [reflexivity|].
      discriminate H.
  - intros H. rewrite H. apply orb_true_r.
Qed.

(** What the [try] block has gone through when it returns. *)
Lemma try_returns (file : UploadFile) (password : pystr) (r : response) :
  extract_aadhaar_info_try U fitz_open file password = Returns r ->
  exists name content text d,
    filename file = Some name /\
    py_endswith (str ".pdf") (py_lower U name) = true /\
    read file = Ret content /\
    (N.of_nat (List.length content) <= 5 * 1024 * 1024) /\
    run (extract_text_from_pdf fitz_open content (Some password)) = Ret text /\
    parse_aadhaar_details U text = Ret d /\
    r = JSONResponse 200
          (if truthy (aadhaar_number d) &&
              negb (validate_aadhaar U
                      (py_replace (str " ") (str "") (aadhaar_number d)))
           then Some (str "Invalid Aadhaar number detected") else None) d.
Proof.
  unfold extract_aadhaar_info_try. intros H.
  destruct (filename file) as [name|]; [|discriminate H]. cbn [rbind] in H.
  destruct (py_endswith (str ".pdf") (py_lower U name)) eqn:En;
    [|discriminate H]. cbn [negb] in H.
  destruct (read file) as [content|e]; [|discriminate H]. cbn [lift rbind] in H.
  destruct (N.ltb_spec (5 * 1024 * 1024) (N.of_nat (List.length content)))
    as [Hs|Hs]; [discriminate H|].
  destruct (seek file) as [[]|e]; [|discriminate H]. cbn [lift rbind] in H.
  destruct (run (extract_text_from_pdf fitz_open content (Some password)))
    as [text|e] eqn:Et; [|discriminate H]. cbn [rbind] in H.
  destruct (parse_aadhaar_details U text) as [d|e] eqn:Ed; [|discriminate H].
  cbn [rbind] in H.
  exists name, content, text, d.
  split; [reflexivity|]. split; [exact En|]. split; [reflexivity|].
  split; [exact Hs|]. split; [exact Et|]. split; [exact Ed|].
  destruct (truthy (aadhaar_number d)); cbn [andb];
    [destruct (negb (validate_aadhaar U _))|]; inversion H; reflexivity.
Qed.

Lemma handler_returns (file : UploadFile) (password : pystr) (r : response) :
  extract_aadhaar_info U fitz_open file password = Returns r ->
  py_strip password <> [] /\
  extract_aadhaar_info_try U fitz_open file password = Returns r.
Proof.
  unfold extract_aadhaar_info. intros H.
  destruct (negb (truthy password) || Nat.eqb (List.length (py_strip password)) 0)
    eqn:Eb; [discriminate H|].
  split.
  - intros Hs. apply strip_blank in Hs. rewrite Hs in Eb. discriminate Eb.
  - destruct (extract_aadhaar_info_try U fitz_open file password) as [r'|f];
      [exact H | discriminate H].
Qed.

(** What [extract_text_from_pdf] has gone through when it returns. *)
Lemma acquisition_returns pdf_bytes password text :
  run (extract_text_from_pdf fitz_open pdf_bytes password) = Ret text ->
  exists doc,
    fitz_open pdf_bytes = Ret doc /\ gate doc password = Ret tt /\
    loop_result (pages doc) [] = Ret text.
Proof.
  rewrite run_extract_text_from_pdf. unfold acquisition_outcome.
  destruct pdf_bytes as [|b bs]; [discriminate|].
  destruct (fitz_open (b :: bs)) as [doc|e];
    [|intros H; exfalso; exact (rewrap_raises _ H)].
  destruct (gate doc password) as [[]|e] eqn:Eg;
    [|intros H; exfalso; exact (rewrap_raises _ H)].
  destruct (loop_result (pages doc) []) as [t|e] eqn:El;
    [|intros H; exfalso; exact (rewrap_raises _ H)].
  destruct (truthy (py_strip t));
    [|intros H; exfalso; exact (rewrap_raises _ H)].
  intros H. inversion H; subst. exists doc.
  split; [reflexivity|]. split; [exact Eg | exact El].
Qed.

Lemma cleaned_verdict (s : pystr) :
  validate_aadhaar U (filter not_space s) = validate_aadhaar U s.
Proof.
  unfold validate_aadhaar. rewrite !replace_space_filter, filter_not_space_twice.
  reflexivity.
Qed.

(** X20: the handler answers 400 "Password is required for encrypted PDF"
    exactly when the password is blank, that is empty or made of white space
    only; it does so before it looks at the file. *)
Theorem blank_password_is_rejected (file : UploadFile) (password : pystr) :
  extract_aadhaar_info U fitz_open file password =
    Raises (HTTPException 400 (str "Password is required for encrypted PDF"))
  <-> py_strip password = [].
Proof.
  unfold extract_aadhaar_info.
  destruct (negb (truthy password) || Nat.eqb (List.length (py_strip password)) 0)
    eqn:Eb.
  - split; [intros _; apply strip_blank, Eb | reflexivity].
  - split.
    + destruct (extract_aadhaar_info_try U fitz_open file password);
        cbn [rtry]; discriminate.
    + intros Hs. apply strip_blank in Hs. rewrite Hs in Eb. discriminate Eb.
Qed.

(** X21: with a password that is not blank, whatever fails is answered
    500 "Internal server error": the handler around the [try] block also
    catches the [HTTPException]s that the block raises, so the answers
    400 "Only PDF files are supported", 400 "File size exceeds 5MB limit",
    400 with the message of the acquisition and 500 "Error parsing Aadhaar
    details" never leave the function. *)
Theorem failures_are_internal_errors (file : UploadFile) (password : pystr)
    (f : failure) :
  py_strip password <> [] ->
  extract_aadhaar_info U fitz_open file password = Raises f ->
  f = HTTPException 500 (str "Internal server error").
Proof.
  intros Hs. unfold extract_aadhaar_info.
  destruct (negb (truthy password) || Nat.eqb (List.length (py_strip password)) 0)
    eqn:Eb.
  - apply strip_blank in Eb. contradiction.
  - destruct (extract_aadhaar_info_try U fitz_open file password);
      cbn [rtry]; intros H; inversion H; reflexivity.
Qed.

(** X22: the handler returns a response only for a file whose name ends
    with ".pdf" in any case, of at most 5 MiB, that holds an encrypted
    document which accepts the password: an unencrypted PDF is never
    processed, since the password, which cannot be blank, makes the
    acquisition fail. *)
Theorem response_needs_accepted_password (file : UploadFile)
    (password : pystr) (r : response) :
  extract_aadhaar_info U fitz_open file password = Returns r ->
  exists name content doc,
    filename file = Some name /\
    py_endswith (str ".pdf") (py_lower U name) = true /\
    read file = Ret content /\
    N.of_nat (List.length content) <= 5 * 1024 * 1024 /\
    fitz_open content = Ret doc /\ needs_pass doc = true /\
    authenticate doc (Some password) = Ret true.
Proof.
  intros H. apply handler_returns in H. destruct H as [Hs H].
  apply try_returns in H.
  destruct H as [name [content [text [d [Hn [He [Hr [Hz [Ht _]]]]]]]]].
  apply acquisition_returns in Ht. destruct Ht as [doc [Ho [Hg _]]].
  exists name, content, doc.
  split; [exact Hn|]. split; [exact He|]. split; [exact Hr|].
  split; [exact Hz|]. split; [exact Ho|].
  unfold gate in Hg. cbn [truthy_opt] in Hg.
  assert (Hp : truthy password = true).
  { destruct password; [contradiction Hs; reflexivity | reflexivity]. }
  rewrite Hp in Hg. cbn [negb] in Hg.
  destruct (needs_pass doc); [|discriminate Hg].
  split; [reflexivity|].
  destruct (authenticate doc (Some password)) as [[|]|e];
    [reflexivity | discriminate Hg | discriminate Hg].
Qed.

(** X23: a response has status 200 and carries the record that the parser
    makes of the text of the acquisition; it carries the warning "Invalid
    Aadhaar number detected" exactly when the record has an ID number that
    the validator rejects. *)
Theorem warning_iff_number_rejected (file : UploadFile) (password : pystr)
    (status : nat) (warning : option pystr) (d : AadhaarData) :
  extract_aadhaar_info U fitz_open file password =
    Returns (JSONResponse status warning d) ->
  status = 200%nat /\
  (exists content text,
     read file = Ret content /\
     run (extract_text_from_pdf fitz_open content (Some password)) = Ret text /\
     parse_aadhaar_details U text = Ret d) /\
  (warning = Some (str "Invalid Aadhaar number detected") /\
   aadhaar_number d <> [] /\ validate_aadhaar U (aadhaar_number d) = false \/
   warning = None /\
   (aadhaar_number d = [] \/ validate_aadhaar U (aadhaar_number d) = true)).
Proof.
  intros H. apply handler_returns in H. destruct H as [_ H].
  apply try_returns in H.
  destruct H as [name [content [text [d' [_ [_ [Hr [_ [Ht [Hd H]]]]]]]]]].
  rewrite replace_space_filter, cleaned_verdict in H.
  injection H as Hst Hw Hdd. subst status warning d'.
  split; [reflexivity|]. split; [exists content, text; repeat split; assumption|].
  destruct (aadhaar_number d) as [|c s] eqn:En; cbn [truthy andb].
  - right. split; [reflexivity | left; reflexivity].
  - destruct (validate_aadhaar U (c :: s)); cbn [negb].
    + right. split; [reflexivity | right; reflexivity].
    + left. split; [reflexivity|]. split; [discriminate | reflexivity].
Qed.

(** X24: with a database that classifies every decimal digit as a digit,
    the warning is given exactly when an ID number was found and one of its
    two separators is a white-space character other than U+0020, a line feed
    or a tabulation for instance. *)
Theorem warning_iff_odd_separator (file : UploadFile) (password : pystr)
    (status : nat) (warning : option pystr) (d : AadhaarData) :
  decimal_is_digit U ->
  extract_aadhaar_info U fitz_open file password =
    Returns (JSONResponse status warning d) ->
  (warning <> None <->
   aadhaar_number d <> [] /\
   ~ (nth 4 (aadhaar_number d) 0 = 32 /\ nth 9 (aadhaar_number d) 0 = 32)).
Proof.
  intros Hnd H. apply handler_returns in H. destruct H as [_ H].
  apply try_returns in H.
  destruct H as [name [content [text [d' [_ [_ [Hr [_ [Ht [Hd H]]]]]]]]]].
  rewrite replace_space_filter, cleaned_verdict in H.
  injection H as Hst Hw Hdd. subst status warning d'.
  destruct (@aadhaar_number_cases U text d Hd) as [E|[_ E]].
  - rewrite E. cbn [truthy andb]. split; [intros Hw; contradiction Hw; reflexivity|].
    intros [Hne _]. contradiction Hne. reflexivity.
  - pose proof (@shaped_number_validates U (aadhaar_number d) Hnd E) as Hv.
    assert (Hne : aadhaar_number d <> []).
    { destruct E as [a [s1 [b [s2 [c [E _]]]]]]. rewrite E.
      destruct a; discriminate. }
    destruct (aadhaar_number d) as [|c0 s0] eqn:En; [contradiction Hne; reflexivity|].
    cbn [truthy andb].
    destruct (validate_aadhaar U (c0 :: s0)); cbn [negb].
    + split; [intros Hw; contradiction Hw; reflexivity|].
      intros [_ Hn]. contradiction Hn. apply Hv. reflexivity.
    + split; [|discriminate].
      intros _. split; [discriminate|]. intros Hn. apply Hv in Hn. discriminate Hn.
Qed.

End BoundaryFacts.

(** X21, witness: a file that is not a PDF is answered 500, not 400. *)
Lemma failures_are_internal_errors_witness :
  extract_aadhaar_info ucd_excerpt (fun _ => Ret locked_pages)
    (upload "card.txt") (str "secret") =
  Raises (HTTPException 500 (str "Internal server error")) /\
  extract_aadhaar_info_try ucd_excerpt (fun _ => Ret locked_pages)
    (upload "card.txt") (str "secret") =
  Raises (HTTPException 400 (str "Only PDF files are supported")).
Proof.
  split; [|vm_compute; reflexivity].
  assert (H : exists f,
            extract_aadhaar_info ucd_excerpt (fun _ => Ret locked_pages)
              (upload "card.txt") (str "secret") = Raises f)
    by (eexists; vm_compute; reflexivity).
  destruct H as [f H]. rewrite H. f_equal.
  apply (@failures_are_internal_errors ucd_excerpt pystr
           (fun _ => Ret locked_pages) (upload "card.txt") (str "secret") f);
    [vm_compute; discriminate | exact H].
Defined.

(** X22, witness *)
Lemma response_needs_accepted_password_witness :
  exists name content doc,
    filename (upload "Card.PDF") = Some name /\
    py_endswith (str ".pdf") (py_lower ucd_excerpt name) = true /\
    read (upload "Card.PDF") = Ret content /\
    N.of_nat (List.length content) <= 5 * 1024 * 1024 /\
    (fun _ : list Byte.byte => Ret locked_pages) content = Ret doc /\
    needs_pass doc = true /\
    authenticate doc (Some (str "secret")) = Ret true.
Proof.
  assert (H : exists r,
            extract_aadhaar_info ucd_excerpt (fun _ => Ret locked_pages)
              (upload "Card.PDF") (str "secret") = Returns r)
    by (eexists; vm_compute; reflexivity).
  destruct H as [r H].
  exact (@response_needs_accepted_password ucd_excerpt pystr
           (fun _ => Ret locked_pages) (upload "Card.PDF") (str "secret") r H).
Defined.

(** X23, witness: the number broken over two lines is returned with the
    warning. *)
Lemma warning_iff_number_rejected_witness :
  exists d,
    extract_aadhaar_info ucd_excerpt (fun _ => Ret locked_card)
      (upload "card.pdf") (str "secret") =
    Returns (JSONResponse 200 (Some (str "Invalid Aadhaar number detected")) d) /\
    aadhaar_number d = broken_number /\
    validate_aadhaar ucd_excerpt (aadhaar_number d) = false.
Proof.
  eexists. split; [vm_compute; reflexivity|]. split; [reflexivity|].
  destruct (@warning_iff_number_rejected ucd_excerpt pystr
              (fun _ => Ret locked_card) (upload "card.pdf") (str "secret")
              200%nat (Some (str "Invalid Aadhaar number detected")) _
              ltac:(vm_compute; reflexivity)) as [_ [_ [[_ [_ H]]|[H _]]]];
    [exact H | discriminate H].
Defined.

(** X24, witness *)
Lemma warning_iff_odd_separator_witness :
  exists d,
    extract_aadhaar_info ucd_excerpt (fun _ => Ret locked_card)
      (upload "card.pdf") (str "secret") =
    Returns (JSONResponse 200 (Some (str "Invalid Aadhaar number detected")) d) /\
    (Some (str "Invalid Aadhaar number detected") <> None <->
     aadhaar_number d <> [] /\
     ~ (nth 4 (aadhaar_number d) 0 = 32 /\ nth 9 (aadhaar_number d) 0 = 32)).
Proof.
  eexists. split; [vm_compute; reflexivity|].
  apply (@warning_iff_odd_separator ucd_excerpt pystr
           (fun _ => Ret locked_card) (upload "card.pdf") (str "secret")
           200%nat).
  - intros c Hc. cbn [ucd_excerpt ucd_isdigit ucd_isdecimal] in *.
    unfold excerpt_isdigit. rewrite Hc. reflexivity.
  - vm_compute. reflexivity.
Defined.
